(** * Employee directory (main.py): a shallow embedding and its properties

    The program is a command-line wrapper around one SQLite table.  The
    embedding follows the source file top-down:

    - [Employee] and [calculate_age] (the date parser of
      [datetime.strptime(_, "%Y-%m-%d")] is written out as the regular
      expression CPython builds for that format, followed by the calendar
      validation of the [date] constructor);
    - the store behind [sqlite3.connect("employees.db")]: an optional table
      with auto-increment ids and an optional index, plus a journal of the
      calls made on the connection and the cursor;
    - the methods of [EmployeeDirectory] and [main] in a state-and-exception
      monad over that world.

    Python [str] values are modelled as byte strings restricted to ASCII;
    [random], [time.time] and [date.today] are oracles collected in [Env]. *)

From Stdlib Require Import ZArith List String Ascii Bool Lia.
From Stdlib Require Import DecimalString Floats.
From Stdlib Require Import OrdersEx RelationClasses Sorted.
Import ListNotations.
Open Scope string_scope.
Open Scope Z_scope.

(* ================================================================== *)
(** ** Dates and [datetime.strptime(s, "%Y-%m-%d").date()] *)

Module Calendar.

(** A calendar date as the triple (year, month, day). *)
Record date := mkDate { year : Z; month : Z; day : Z }.

Definition is_leap (y : Z) : bool :=
  (y mod 4 =? 0) && (negb (y mod 100 =? 0) || (y mod 400 =? 0)).

Definition days_in_month (y m : Z) : Z :=
  if m =? 2 then (if is_leap y then 29 else 28)
  else if (m =? 4) || (m =? 6) || (m =? 9) || (m =? 11) then 30
  else 31.

(** The check made by the [date] constructor: MINYEAR = 1, MAXYEAR = 9999. *)
Definition valid_date (y m d : Z) : bool :=
  (1 <=? y) && (y <=? 9999) && (1 <=? m) && (m <=? 12) &&
  (1 <=? d) && (d <=? days_in_month y m).

(** Python compares tuples lexicographically: [(a, b) < (c, d)]. *)
Definition tuple_lt (p q : Z * Z) : bool :=
  (fst p <? fst q) || ((fst p =? fst q) && (snd p <? snd q)).

(** Lexicographic order on whole dates, used to state what "whole years
    elapsed" means. *)
Definition date_le (a b : date) : Prop :=
  year a < year b \/
  (year a = year b /\ (month a < month b \/ (month a = month b /\ day a <= day b))).

Definition date_lt (a b : date) : Prop := ~ date_le b a.

(** The n-th anniversary of a birth date (month and day kept as they are). *)
Definition anniversary (b : date) (n : Z) : date :=
  mkDate (year b + n) (month b) (day b).

(** Spec-side definition: [n] is the number of whole years elapsed from
    [b] to [t] when the n-th anniversary has been reached and the next one
    has not. *)
Definition whole_years_elapsed (b t : date) (n : Z) : Prop :=
  date_le (anniversary b n) t /\ date_lt t (anniversary b (n + 1)).

End Calendar.
Import Calendar.

Module Strptime.

(** The digits "0" to "9".  On ASCII text this is the [\d] of the regular
    expression; [\d] also matches the other decimal digits of Unicode,
    which a byte string does not model, so a statement that rests on a
    string NOT being accepted is made for ASCII strings only ([ascii_only]
    below). *)
Definition is_digit (c : ascii) : bool :=
  let n := Z.of_nat (nat_of_ascii c) in (48 <=? n) && (n <=? 57).

(** Every character of [s] is an ASCII character. *)
Definition ascii_only (s : string) : bool :=
  forallb (fun c => (nat_of_ascii c <? 128)%nat) (list_ascii_of_string s).

Definition digit (c : ascii) : Z := Z.of_nat (nat_of_ascii c) - 48.

Definition in_range (lo hi : Z) (c : ascii) : bool :=
  is_digit c && (lo <=? digit c) && (digit c <=? hi).

Definition is_char (a c : ascii) : bool := Ascii.eqb a c.

(** A backtracking matcher returns every way to match a prefix of the
    input, in the priority order of the regular expression engine: the
    value read and the rest of the input. *)
Definition matcher (A : Type) := string -> list (A * string).

(** [(?P<Y>\d\d\d\d)] *)
Definition re_Y : matcher Z := fun s =>
  match s with
  | String a (String b (String c (String d r))) =>
      if is_digit a && is_digit b && is_digit c && is_digit d
      then [(1000 * digit a + 100 * digit b + 10 * digit c + digit d, r)]
      else []
  | _ => []
  end.

(** One alternative made of two character classes. *)
Definition two (p1 p2 : ascii -> bool) (val : ascii -> ascii -> Z) : matcher Z :=
  fun s => match s with
           | String a (String b r) => if p1 a && p2 b then [(val a b, r)] else []
           | _ => []
           end.

(** One alternative made of a single character class. *)
Definition one (p : ascii -> bool) (val : ascii -> Z) : matcher Z :=
  fun s => match s with
           | String a r => if p a then [(val a, r)] else []
           | _ => []
           end.

Definition alt {A} (ms : list (matcher A)) : matcher A :=
  fun s => flat_map (fun m => m s) ms.

Definition num2 (a b : ascii) : Z := 10 * digit a + digit b.

(** [(?P<m>1[0-2]|0[1-9]|[1-9])] *)
Definition re_m : matcher Z :=
  alt [ two (is_char "1") (in_range 0 2) num2;
        two (is_char "0") (in_range 1 9) num2;
        one (in_range 1 9) digit ].

(** [(?P<d>3[0-1]|[1-2]\d|0[1-9]|[1-9]| [1-9])]; [int(" 5")] is 5. *)
Definition re_d : matcher Z :=
  alt [ two (is_char "3") (in_range 0 1) num2;
        two (in_range 1 2) is_digit num2;
        two (is_char "0") (in_range 1 9) num2;
        one (in_range 1 9) digit;
        two (is_char " ") (in_range 1 9) (fun _ b => digit b) ].

Definition lit (c : ascii) : matcher unit :=
  fun s => match s with
           | String a r => if Ascii.eqb a c then [(tt, r)] else []
           | _ => []
           end.

Definition seq_m {A B} (m : matcher A) (k : A -> matcher B) : matcher B :=
  fun s => flat_map (fun '(a, r) => k a r) (m s).

(** The compiled format ["%Y-%m-%d"]. *)
Definition re_Ymd : matcher (Z * Z * Z) :=
  seq_m re_Y (fun y =>
  seq_m (lit "-") (fun _ =>
  seq_m re_m (fun m =>
  seq_m (lit "-") (fun _ =>
  seq_m re_d (fun d s => [((y, m, d), s)]))))).

(** [_strptime]: [format_regex.match] keeps the first match; the call fails
    with "unconverted data remains" when that match stops before the end of
    the string, and with the constructor's ValueError when the fields do not
    name a calendar date. *)
Definition strptime_date (s : string) : option date :=
  match re_Ymd s with
  | ((y, m, d), EmptyString) :: _ =>
      if valid_date y m d then Some (mkDate y m d) else None
  | _ => None
  end.

End Strptime.
Import Strptime.

(* ================================================================== *)
(** ** Exceptions and results *)

Inductive exn : Type :=
| ValueError          (* strptime on a malformed birth date *)
| OperationalError    (* sqlite3: no such table *)
| ZeroDivisionError   (* float division by zero *)
| RuntimeError.       (* "Database connection failed" *)

Inductive result (A : Type) : Type :=
| Ok (a : A)
| Raise (e : exn).
Arguments Ok {A} a.
Arguments Raise {A} e.

(* ================================================================== *)
(** ** [class Employee] *)

Record Employee := mkEmployee {
  full_name : string;
  birth_date : string;
  gender : string
}.

(** [Employee.calculate_age], with [date.today()] passed in. *)
Definition calculate_age (today : date) (self : Employee) : result Z :=
  match strptime_date (birth_date self) with
  | None => Raise ValueError
  | Some b =>
      let age := year today - year b in
      let age := if tuple_lt (month today, day today) (month b, day b)
                 then age - 1 else age in
      Ok age
  end.


(* ================================================================== *)
(** ** The database file and the process environment *)

(** A stored row: the AUTOINCREMENT id and the three text columns. *)
Record Row := mkRow { id : Z; fields : Employee }.

(** The [employees] table: its rows in insertion order, the last id handed
    out, and whether [idx_gender_lastname] exists. *)
Record Table := mkTable {
  rows : list Row;
  last_id : Z;
  idx_gender_lastname : bool
}.

(** The statements the program sends through its cursor. *)
Inductive sql : Type :=
| CreateTable (if_not_exists : bool)   (* CREATE TABLE [IF NOT EXISTS] employees (...) *)
| CreateIndex (if_not_exists : bool)   (* CREATE INDEX [IF NOT EXISTS] idx_gender_lastname
                                          ON employees(gender, full_name) *)
| InsertRow (e : Employee)             (* execute(INSERT ..., (name, date, gender)) *)
| InsertMany (es : list Employee)      (* executemany(INSERT ..., data) *)
| SelectGrouped                        (* SELECT ... GROUP BY full_name, birth_date ORDER BY full_name *)
| SelectMaleF.                         (* SELECT ... WHERE gender = 'Male' AND full_name LIKE 'F%' *)

(** Calls made on the connection and its cursor.  [EvExecute q indexed]
    records whether the index existed when statement [q] started. *)
Inductive event : Type :=
| EvConnect
| EvExecute (q : sql) (indexed : bool)
| EvCommit
| EvClose.

(** One [print] call.  Floats printed with [:.4f] and [:.1f] are kept as
    values; their decimal rendering is not modelled. *)
Inductive out : Type :=
| Line (s : string)
| LineExecutionTime (t : float)               (* "Execution time: {t:.4f} seconds" *)
| LineImprovement (diff ratio : float).       (* "\nOptimization improvement: ... (...x faster)" *)

Record World := mkWorld {
  employees : option Table;   (* [None]: employees.db has no such table *)
  connectable : bool;         (* does [sqlite3.connect] succeed *)
  journal : list event;       (* oldest call first *)
  stdout : list out;          (* oldest line first *)
  rng_pos : nat;              (* draws made from [random] *)
  clock_pos : nat             (* readings made of [time.time] *)
}.

(** What the program reads from outside: the random source, the clock,
    today's date, and which row of a group SQLite shows for a bare column
    of a GROUP BY query (an index into the group; the first row when out of
    range). *)
Record Env := mkEnv {
  rng : nat -> nat;
  clock : nat -> float;
  today : date;
  bare_row : list Row -> nat
}.

Definition set_employees (t : option Table) (w : World) : World :=
  mkWorld t (connectable w) (journal w) (stdout w) (rng_pos w) (clock_pos w).
Definition set_journal (j : list event) (w : World) : World :=
  mkWorld (employees w) (connectable w) j (stdout w) (rng_pos w) (clock_pos w).
Definition set_stdout (o : list out) (w : World) : World :=
  mkWorld (employees w) (connectable w) (journal w) o (rng_pos w) (clock_pos w).
Definition set_rng_pos (n : nat) (w : World) : World :=
  mkWorld (employees w) (connectable w) (journal w) (stdout w) n (clock_pos w).
Definition set_clock_pos (n : nat) (w : World) : World :=
  mkWorld (employees w) (connectable w) (journal w) (stdout w) (rng_pos w) n.

(* ================================================================== *)
(** ** The monad of the program: state and exceptions *)

Definition M (A : Type) : Type := World -> result A * World.

Definition ret {A} (a : A) : M A := fun w => (Ok a, w).

Definition raise {A} (e : exn) : M A := fun w => (Raise e, w).

Definition bind {A B} (m : M A) (k : A -> M B) : M B :=
  fun w => match m w with
           | (Ok a, w1) => k a w1
           | (Raise e, w1) => (Raise e, w1)
           end.

(** [try: body finally: fin]: [fin] runs on both exits; the exception of
    [body] is re-raised afterwards unless [fin] raises itself. *)
Definition try_finally {A} (body : M A) (fin : M unit) : M A :=
  fun w => match body w with
           | (r, w1) => match fin w1 with
                        | (Ok _, w2) => (r, w2)
                        | (Raise e, w2) => (Raise e, w2)
                        end
           end.

Declare Scope prog_scope.
Delimit Scope prog_scope with prog.
Notation "x <- m ;; k" := (bind m (fun x => k))
  (at level 100, m at next level, right associativity) : prog_scope.
Notation "m ;; k" := (bind m (fun _ => k))
  (at level 100, right associativity) : prog_scope.
Open Scope prog_scope.

Definition print (o : out) : M unit :=
  fun w => (Ok tt, set_stdout (stdout w ++ [o]) w).

Definition record (e : event) : M unit :=
  fun w => (Ok tt, set_journal (journal w ++ [e]) w).

(** [time.time()] *)
Definition time_time (env : Env) : M float :=
  fun w => (Ok (clock env (clock_pos w)), set_clock_pos (S (clock_pos w)) w).

(** [random._randbelow(n)]: some value below [n]. *)
Definition randbelow (env : Env) (n : nat) : M nat :=
  fun w => (Ok (rng env (rng_pos w) mod n)%nat, set_rng_pos (S (rng_pos w)) w).

(** [random.choice(seq)] is [seq[_randbelow(len(seq))]]; every call site
    passes a non-empty literal list. *)
Definition choice (env : Env) (l : list string) : M string :=
  i <- randbelow env (List.length l) ;; ret (nth i l "").

(** [random.randint(a, b)] is [a + _randbelow(b - a + 1)]. *)
Definition randint (env : Env) (a b : Z) : M Z :=
  i <- randbelow env (Z.to_nat (b - a + 1)) ;; ret (a + Z.of_nat i).

(* ================================================================== *)
(** ** Text formatting *)

(** [str(n)] and [f"{n}"] for an integer. *)
Definition str (z : Z) : string := NilZero.string_of_int (Z.to_int z).

(** [f"{n:02d}"]: zero-padded to width two. *)
Definition fmt_02d (z : Z) : string :=
  let s := str z in
  if (String.length s <? 2)%nat then "0" ++ s else s.

(** [f"{year}-{month:02d}-{day:02d}"] *)
Definition fmt_birth_date (year month day : Z) : string :=
  str year ++ "-" ++ fmt_02d month ++ "-" ++ fmt_02d day.

(** The double-quote character, for the usage line of mode 2. *)
Definition dq : string := String (ascii_of_nat 34) "".

(** [s in text] *)
Definition contains (s text : string) : bool :=
  match String.index 0 s text with Some _ => true | None => false end.

(* ================================================================== *)
(** ** The SQL statements on the [employees] table *)

Module Sql.

(** AUTOINCREMENT: the new row takes the id after the last one handed out. *)
Definition insert_row (e : Employee) (t : Table) : Table :=
  mkTable (rows t ++ [mkRow (last_id t + 1) e])%list (last_id t + 1)
          (idx_gender_lastname t).

Definition insert_rows (es : list Employee) (t : Table) : Table :=
  fold_left (fun t e => insert_row e t) es t.

(** The GROUP BY key. *)
Definition key (r : Row) : string * string :=
  (full_name (fields r), birth_date (fields r)).

(** BINARY collation: bytewise comparison, first column first. *)
Definition key_compare (a b : string * string) : comparison :=
  match String_as_OT.compare (fst a) (fst b) with
  | Eq => String_as_OT.compare (snd a) (snd b)
  | c => c
  end.

(** A group is never empty: its first row and the rows that joined it. *)
Definition group : Type := Row * list Row.

Definition group_rows (g : group) : list Row := fst g :: snd g.

(** Groups are kept in ascending key order, one per key. *)
Fixpoint group_insert (r : Row) (gs : list group) : list group :=
  match gs with
  | [] => [(r, [])]
  | g :: gs' =>
      match key_compare (key r) (key (fst g)) with
      | Lt => (r, []) :: g :: gs'
      | Eq => (fst g, (snd g ++ [r])%list) :: gs'
      | Gt => g :: group_insert r gs'
      end
  end.

Definition group_by (rs : list Row) : list group :=
  fold_left (fun gs r => group_insert r gs) rs [].

(** The row whose columns a bare (non-aggregated) column shows. *)
Definition bare (env : Env) (g : group) : Row :=
  nth (bare_row env (group_rows g)) (group_rows g) (fst g).

(** SELECT full_name, birth_date, gender FROM employees
    GROUP BY full_name, birth_date ORDER BY full_name.
    The ascending group order already is an ORDER BY full_name. *)
Definition select_grouped (env : Env) (t : Table) : list Employee :=
  map (fun g => fields (bare env g)) (group_by (rows t)).

(** [full_name LIKE 'F%']: LIKE ignores ASCII case. *)
Definition like_F (s : string) : bool :=
  match s with
  | String c _ => Ascii.eqb c "F" || Ascii.eqb c "f"
  | EmptyString => false
  end.

(** SELECT full_name, birth_date, gender FROM employees
    WHERE gender = 'Male' AND full_name LIKE 'F%'. *)
Definition select_male_f (t : Table) : list Employee :=
  filter (fun e => String.eqb (gender e) "Male" && like_F (full_name e))
         (map fields (rows t)).

(** The effect of one statement on the table and its result set.  Only
    CREATE TABLE works without the table; the INSERT of [executemany] is
    prepared before its first row, so it fails even on an empty list.
    Creating a table or an index that exists is refused ("already exists")
    unless the statement says IF NOT EXISTS, which makes it do nothing. *)
Definition run_sql (env : Env) (q : sql) (db : option Table)
  : result (list Employee) * option Table :=
  match q, db with
  | CreateTable _, None => (Ok [], Some (mkTable [] 0 false))
  | CreateTable if_not_exists, Some t =>
      if if_not_exists then (Ok [], Some t) else (Raise OperationalError, Some t)
  | _, None => (Raise OperationalError, None)
  | CreateIndex if_not_exists, Some t =>
      if idx_gender_lastname t
      then (if if_not_exists then (Ok [], Some t) else (Raise OperationalError, Some t))
      else (Ok [], Some (mkTable (rows t) (last_id t) true))
  | InsertRow e, Some t => (Ok [], Some (insert_row e t))
  | InsertMany es, Some t => (Ok [], Some (insert_rows es t))
  | SelectGrouped, Some t => (Ok (select_grouped env t), Some t)
  | SelectMaleF, Some t => (Ok (select_male_f t), Some t)
  end.

Definition has_index (db : option Table) : bool :=
  match db with
  | Some t => idx_gender_lastname t
  | None => false
  end.

End Sql.
Import Sql.

(** [cursor.execute] / [cursor.executemany], with [fetchall] folded in: the
    call is journalled, then the statement runs.  Every INSERT the program
    issues is committed by the next call, so writes are applied at once. *)
Definition cursor_execute (env : Env) (q : sql) : M (list Employee) :=
  fun w =>
    let w1 := set_journal (journal w ++ [EvExecute q (has_index (employees w))]) w in
    let (r, db) := run_sql env q (employees w) in
    (r, set_employees db w1).

Definition conn_commit : M unit := record EvCommit.

(* ================================================================== *)
(** ** [class EmployeeDirectory] *)

(** [Employee.save_to_db] *)
Definition save_to_db (env : Env) (self : Employee) : M unit :=
  cursor_execute env (InsertRow self) ;; ret tt.

(** [__init__]: a failed connect is re-raised as RuntimeError. *)
Definition init : M unit :=
  fun w => if connectable w then record EvConnect w else (Raise RuntimeError, w).

(** Lines 38-45 send CREATE TABLE IF NOT EXISTS employees (...). *)
Definition create_table (env : Env) : M unit :=
  cursor_execute env (CreateTable true) ;;
  conn_commit ;;
  print (Line "Table 'employees' created successfully.").

Definition add_employee (env : Env) (full_name birth_date gender : string) : M unit :=
  let employee := mkEmployee full_name birth_date gender in
  save_to_db env employee ;;
  conn_commit ;;
  print (Line ("Employee " ++ full_name ++ " added successfully.")).

Definition batch_add_employees (env : Env) (employees : list Employee) : M unit :=
  cursor_execute env (InsertMany employees) ;;
  conn_commit ;;
  print (Line ("Added " ++ str (Z.of_nat (List.length employees)) ++ " employees in batch.")).

(** The line printed for one listed row. *)
Definition listing_line (row : Employee) (age : Z) : string :=
  "Name: " ++ full_name row ++ ", Birth Date: " ++ birth_date row ++
  ", Gender: " ++ gender row ++ ", Age: " ++ str age.

(** The [for row in rows] loop of [get_all_unique_employees]. *)
Fixpoint print_rows (env : Env) (rows : list Employee) : M unit :=
  match rows with
  | [] => ret tt
  | row :: rest =>
      let employee := mkEmployee (full_name row) (birth_date row) (gender row) in
      match calculate_age (today env) employee with
      | Raise e => raise e
      | Ok age => print (Line (listing_line row age)) ;; print_rows env rest
      end
  end.

Definition get_all_unique_employees (env : Env) : M unit :=
  rows <- cursor_execute env SelectGrouped ;;
  print_rows env rows.

Definition first_names_male : list string :=
  ["James"; "John"; "Robert"; "Michael"; "William";
   "David"; "Richard"; "Joseph"; "Thomas"; "Charles"].
Definition first_names_female : list string :=
  ["Mary"; "Patricia"; "Jennifer"; "Linda"; "Elizabeth";
   "Barbara"; "Susan"; "Jessica"; "Sarah"; "Karen"].
Definition last_names : list string :=
  ["Smith"; "Johnson"; "Williams"; "Brown"; "Jones";
   "Miller"; "Davis"; "Garcia"; "Rodriguez"; "Wilson"].
Definition middle_names : list string := ["A."; "B."; "C."; "D."; "E."].
Definition f_suffixes : list string :=
  ["isher"; "ord"; "letcher"; "ranklin"; "erguson"].

(** Lines 102-105: the random birth date. *)
Definition random_birth_date (env : Env) : M string :=
  year <- randint env 1950 2005 ;;
  month <- randint env 1 12 ;;
  day <- randint env 1 28 ;;
  ret (fmt_birth_date year month day).

(** Lines 91-107: one employee of the main loop. *)
Definition random_employee (env : Env) : M Employee :=
  gender <- choice env ["Male"; "Female"] ;;
  first_name <- (if String.eqb gender "Male"
                 then choice env first_names_male
                 else choice env first_names_female) ;;
  last_name <- choice env last_names ;;
  middle_name <- choice env middle_names ;;
  let full_name := last_name ++ " " ++ first_name ++ " " ++ middle_name in
  birth_date <- random_birth_date env ;;
  ret (mkEmployee full_name birth_date gender).

(** Lines 121-131: one employee of the F loop. *)
Definition random_f_employee (env : Env) : M Employee :=
  first_name <- choice env first_names_male ;;
  suffix <- choice env f_suffixes ;;
  let last_name := "F" ++ suffix in
  middle_name <- choice env middle_names ;;
  let full_name := last_name ++ " " ++ first_name ++ " " ++ middle_name in
  birth_date <- random_birth_date env ;;
  ret (mkEmployee full_name birth_date "Male").

(** [for i in range(count)] with the buffer [employees]; the result is the
    buffer left after the loop. *)
Fixpoint main_loop (env : Env) (n : nat) (employees : list Employee)
  : M (list Employee) :=
  match n with
  | O => ret employees
  | S n' =>
      e <- random_employee env ;;
      let employees := (employees ++ [e])%list in
      if 10000 <=? Z.of_nat (List.length employees)
      then batch_add_employees env employees ;; main_loop env n' []
      else main_loop env n' employees
  end.

(** [for i in range(100)] filling [f_employees]. *)
Fixpoint f_loop (env : Env) (n : nat) (f_employees : list Employee)
  : M (list Employee) :=
  match n with
  | O => ret f_employees
  | S n' =>
      e <- random_f_employee env ;;
      f_loop env n' (f_employees ++ [e])%list
  end.

Definition generate_random_employees (env : Env) (count : Z) : M unit :=
  employees <- main_loop env (Z.to_nat count) [] ;;
  (match employees with
   | [] => ret tt
   | _ => batch_add_employees env employees
   end) ;;
  f_employees <- f_loop env 100 [] ;;
  batch_add_employees env f_employees ;;
  print (Line "Finished generating random employees.").

Definition search_male_f_lastname (env : Env) : M float :=
  start_time <- time_time env ;;
  rows <- cursor_execute env SelectMaleF ;;
  end_time <- time_time env ;;
  let execution_time := (end_time - start_time)%float in
  print (Line ("Found " ++ str (Z.of_nat (List.length rows)) ++
               " male employees with last names starting with 'F'")) ;;
  print (LineExecutionTime execution_time) ;;
  ret execution_time.

(** Lines 156-159 send CREATE INDEX IF NOT EXISTS idx_gender_lastname
    ON employees(gender, full_name). *)
Definition optimize_database (env : Env) : M unit :=
  cursor_execute env (CreateIndex true) ;;
  conn_commit ;;
  print (Line "Database optimized with index on gender and full_name.").

Definition close : M unit := record EvClose.

(* ================================================================== *)
(** ** [main] *)

Definition usage : list out :=
  [ Line "Usage: python employee_directory.py <mode> [arguments]";
    Line "Modes:";
    Line "  1 - Create employee table";
    Line "  2 - Add employee (requires full_name, birth_date, gender)";
    Line "  3 - List all unique employees sorted by name";
    Line "  4 - Generate random employees";
    Line "  5 - Search male employees with last names starting with F";
    Line "  6 - Optimize database" ].

Definition usage_mode2 : out :=
  Line ("Usage: python employee_directory.py 2 " ++ dq ++ "Full Name" ++ dq ++
        " " ++ dq ++ "YYYY-MM-DD" ++ dq ++ " " ++ dq ++ "Gender" ++ dq).

Definition newline : string := String (ascii_of_nat 10) "".

(** The f-string of lines 208-209: the difference is formatted first, then
    the quotient is taken; Python raises when the divisor equals zero. *)
Definition report_improvement (before_time after_time : float) : M unit :=
  let diff := (before_time - after_time)%float in
  if PrimFloat.eqb after_time 0%float
  then raise ZeroDivisionError
  else print (LineImprovement diff (before_time / after_time)%float).

(** The [if mode == ...] chain inside [try]. *)
Definition dispatch (env : Env) (argv : list string) : M unit :=
  let mode := nth 1 argv "" in
  if String.eqb mode "1" then create_table env
  else if String.eqb mode "2" then
    if (List.length argv <? 5)%nat
    then print usage_mode2
    else
      let full_name := nth 2 argv "" in
      let birth_date := nth 3 argv "" in
      let gender := nth 4 argv "" in
      add_employee env full_name birth_date gender
  else if String.eqb mode "3" then get_all_unique_employees env
  else if String.eqb mode "4" then generate_random_employees env 1000000
  else if String.eqb mode "5" then search_male_f_lastname env ;; ret tt
  else if String.eqb mode "6" then
    optimize_database env ;;
    print (Line "Running performance test before and after optimization...") ;;
    print (Line (newline ++ "Before optimization:")) ;;
    before_time <- search_male_f_lastname env ;;
    print (Line (newline ++ "After optimization:")) ;;
    after_time <- search_male_f_lastname env ;;
    report_improvement before_time after_time
  else print (Line ("Unknown mode: " ++ mode)).

Fixpoint print_all (os : list out) : M unit :=
  match os with
  | [] => ret tt
  | o :: os' => print o ;; print_all os'
  end.

Definition main (env : Env) (argv : list string) : M unit :=
  if (List.length argv <? 2)%nat
  then print_all usage
  else init ;; try_finally (dispatch env argv) close.

(** A world as a fresh checkout sees it: no table, nothing printed. *)
Definition fresh : World := mkWorld None true [] [] 0 0.

Definition env0 : Env :=
  mkEnv (fun n => n * 7 + 3)%nat (fun n => PrimFloat.of_uint63 (Uint63.of_Z (Z.of_nat n)))
        (mkDate 2026 11 3) (fun _ => 0%nat).


(* ================================================================== *)
(** ** Vocabulary of the properties *)

Definition employee_key (e : Employee) : string * string :=
  (full_name e, birth_date e).

Definition gkey (g : group) : string * string := key (fst g).

Definition key_lt (a b : string * string) : Prop := key_compare a b = Lt.

(** Non-decreasing order on names, as ORDER BY full_name gives it: the
    bytewise [<=?] of strings. *)
Definition name_le (a b : string) : Prop := String.leb a b = true.

Definition names_sorted (l : list Employee) : Prop :=
  StronglySorted (fun a b => name_le (full_name a) (full_name b)) l.

(** Every row of a group carries the key of the group. *)
Definition uniform (g : group) : Prop :=
  Forall (fun r => key r = gkey g) (snd g).

(** A birth date as the generator writes it. *)
Definition generated_birth_date (s : string) : Prop :=
  exists y m d, 1950 <= y <= 2005 /\ 1 <= m <= 12 /\ 1 <= d <= 28 /\
                s = fmt_birth_date y m d.

(** Ten characters: four digits, a dash, two digits, a dash, two digits. *)
Definition iso_shape (s : string) : bool :=
  match s with
  | String y1 (String y2 (String y3 (String y4 (String s1
      (String m1 (String m2 (String s2 (String d1 (String d2 EmptyString))))))))) =>
      is_digit y1 && is_digit y2 && is_digit y3 && is_digit y4 &&
      Ascii.eqb s1 "-" && is_digit m1 && is_digit m2 &&
      Ascii.eqb s2 "-" && is_digit d1 && is_digit d2
  | _ => false
  end.

Definition roundtrip_ok (y m d : Z) : bool :=
  let s := fmt_birth_date y m d in
  iso_shape s &&
  match strptime_date s with
  | Some b => (year b =? y) && (month b =? m) && (day b =? d)
  | None => false
  end.

Definition zrange (lo : Z) (n : nat) : list Z :=
  map (fun i => lo + Z.of_nat i) (seq 0 n).

(** An employee as the main loop draws it. *)
Definition generated_main (e : Employee) : Prop :=
  exists last first mid,
    In last last_names /\ In mid middle_names /\
    ((gender e = "Male" /\ In first first_names_male) \/
     (gender e = "Female" /\ In first first_names_female)) /\
    full_name e = last ++ " " ++ first ++ " " ++ mid /\
    generated_birth_date (birth_date e).

(** An employee as the F loop draws it: "F"+suffix, a male first name, a
    middle initial, and gender "Male". *)
Definition generated_f (e : Employee) : Prop :=
  exists suffix first mid,
    In suffix f_suffixes /\ In first first_names_male /\ In mid middle_names /\
    full_name e = ("F" ++ suffix) ++ " " ++ first ++ " " ++ mid /\
    gender e = "Male" /\
    generated_birth_date (birth_date e).

(** The names of the pattern F(isher|ord|letcher|ranklin|erguson) first initial. *)
Definition f_pattern_names : list string :=
  flat_map (fun suffix =>
    flat_map (fun first =>
      map (fun mid => ("F" ++ suffix) ++ " " ++ first ++ " " ++ mid) middle_names)
      first_names_male)
    f_suffixes.

Definition f_pattern_male (e : Employee) : bool :=
  String.eqb (gender e) "Male" && existsb (String.eqb (full_name e)) f_pattern_names.

(** The journal entries and the output of a run of batch inserts. *)
Definition batch_events (indexed : bool) (bs : list (list Employee)) : list event :=
  flat_map (fun b => [EvExecute (InsertMany b) indexed; EvCommit]) bs.

Definition added_line (b : list Employee) : out :=
  Line ("Added " ++ str (Z.of_nat (List.length b)) ++ " employees in batch.").

(** [flushed bs w w']: from [w] to [w'] exactly the batches [bs] were
    inserted, in that order, and nothing else happened to the store, the
    journal or the output. *)
Definition flushed (bs : list (list Employee)) (w w' : World) : Prop :=
  (exists t, employees w = Some t /\
             employees w' = Some (insert_rows (List.concat bs) t)) /\
  journal w' = (journal w ++ batch_events (has_index (employees w)) bs)%list /\
  stdout w' = (stdout w ++ map added_line bs)%list /\
  connectable w' = connectable w /\
  clock_pos w' = clock_pos w.

(** The sizes of the batches a buffer of 10,000 produces for [n] records:
    full batches, then the remainder when there is one. *)
Definition batch_sizes (n : Z) : list Z :=
  (repeat 10000 (Z.to_nat (n / 10000)) ++
   (if n mod 10000 =? 0 then [] else [n mod 10000]))%list.

(** The sizes of a list of batches. *)
Definition sizes (bs : list (list Employee)) : list Z :=
  map (fun b => Z.of_nat (List.length b)) bs.

(** The fresh world after [create_table]. *)
Definition created : World := snd (create_table env0 fresh).

(** How many times [close] was called. *)
Definition is_close (e : event) : bool :=
  match e with
  | EvClose => true
  | _ => false
  end.

Definition closes (j : list event) : nat := List.length (filter is_close j).

(** A computation that never closes the connection: whatever it does, it
    only appends calls other than [close] to the journal. *)
Definition quiet {A} (m : M A) : Prop :=
  forall w, exists j, journal (snd (m w)) = (journal w ++ j)%list /\ closes j = 0%nat.

(** The elapsed times of the two searches of mode 6, from the clock
    readings they take. *)
Definition before_time (env : Env) (w : World) : float :=
  (clock env (S (clock_pos w)) - clock env (clock_pos w))%float.
Definition after_time (env : Env) (w : World) : float :=
  (clock env (S (S (S (clock_pos w)))) - clock env (S (S (clock_pos w))))%float.

(** The "Found ..." line of a search over table [t]. *)
Definition found_line (t : Table) : out :=
  Line ("Found " ++ str (Z.of_nat (List.length (select_male_f t))) ++
        " male employees with last names starting with 'F'").

(** Everything mode 6 prints before the improvement line. *)
Definition mode6_lines (env : Env) (w : World) (t : Table) : list out :=
  [ Line "Database optimized with index on gender and full_name.";
    Line "Running performance test before and after optimization...";
    Line (newline ++ "Before optimization:");
    found_line t;
    LineExecutionTime (before_time env w);
    Line (newline ++ "After optimization:");
    found_line t;
    LineExecutionTime (after_time env w) ].

(** The calls mode 6 makes on a table whose index flag was [indexed]. *)
Definition mode6_calls (indexed : bool) : list event :=
  [ EvConnect;
    EvExecute (CreateIndex true) indexed; EvCommit;
    EvExecute SelectMaleF true;
    EvExecute SelectMaleF true;
    EvClose ].

(** The end-to-end scenario: mode 1, mode 2 for Ford, mode 3. *)
Definition ford : Employee := mkEmployee "Ford Henry A." "1980-05-15" "Male".

Definition scenario (env : Env) : M unit :=
  main env ["employee_directory.py"; "1"] ;;
  main env ["employee_directory.py"; "2"; "Ford Henry A."; "1980-05-15"; "Male"] ;;
  main env ["employee_directory.py"; "3"].

(** Some printed line contains the text [s]. *)
Definition printed (s : string) (os : list out) : bool :=
  existsb (fun o => match o with
                    | Line l => contains s l
                    | _ => false
                    end) os.

(** The lines of a listing in which every birth date parses. *)
Definition listing_lines (env : Env) (l : list Employee) : list out :=
  map (fun row => Line (listing_line row
                          (match calculate_age (today env) row with
                           | Ok age => age
                           | Raise _ => 0
                           end))) l.

(** A stored row that neither stops the listing nor competes with Ford's
    row for the gender shown: its birth date parses, and if it has Ford's
    name and birth date it is a "Male" row too. *)
Definition harmless (r : Row) : Prop :=
  (exists b, strptime_date (birth_date (fields r)) = Some b) /\
  (key r = employee_key ford -> gender (fields r) = "Male").

(** A clock that does not advance between readings. *)
Definition env_coarse : Env :=
  mkEnv (rng env0) (fun _ => 1000%float) (today env0) (bare_row env0).

(** Every batch handed to [executemany] in the journal [j] consists of
    employees satisfying [P]. *)
Definition batches_ok (P : Employee -> Prop) (j : list event) : Prop :=
  forall es indexed, In (EvExecute (InsertMany es) indexed) j -> Forall P es.

(** The property of a generated record's birth date, for a given today. *)
Definition well_dated (today : date) (e : Employee) : Prop :=
  exists y m d,
    1950 <= y <= 2005 /\ 1 <= m <= 12 /\ 1 <= d <= 28 /\
    birth_date e = fmt_birth_date y m d /\
    iso_shape (birth_date e) = true /\
    strptime_date (birth_date e) = Some (mkDate y m d) /\
    exists age, calculate_age today e = Ok age.

(* ------------------------------------------------------------------ *)
(** *** Vocabulary of the further properties *)

(** The rows an INSERT of [es] appends when [last] was the last id used. *)
Fixpoint numbered (last : Z) (es : list Employee) : list Row :=
  match es with
  | [] => []
  | e :: es' => mkRow (last + 1) e :: numbered (last + 1) es'
  end.

(** [extends db db']: the store only grew.  A table that exists still
    exists, its rows are kept in place with new rows after them, the id
    counter did not go back, and an index that existed still exists. *)
Definition extends (db db' : option Table) : Prop :=
  match db, db' with
  | None, _ => True
  | Some t, Some t' =>
      (exists new, rows t' = (rows t ++ new)%list) /\
      last_id t <= last_id t' /\
      (idx_gender_lastname t = true -> idx_gender_lastname t' = true)
  | Some _, None => False
  end.

(** The ids of a table are positive, strictly increasing in insertion
    order, and none exceeds the last id handed out. *)
Definition ids_ok (db : option Table) : Prop :=
  match db with
  | None => True
  | Some t =>
      StronglySorted Z.lt (map id (rows t)) /\
      Forall (fun r => 1 <= id r <= last_id t) (rows t) /\
      0 <= last_id t
  end.

(** [keeps R m]: every run of [m] takes a world to an [R]-related world. *)
Definition keeps (R : World -> World -> Prop) {A} (m : M A) : Prop :=
  forall w, R w (snd (m w)).

(** A matcher that reads between [lo] and [hi] characters. *)
Definition consumes {A} (m : matcher A) (lo hi : nat) : Prop :=
  forall s v r, In (v, r) (m s) ->
                exists p, s = p ++ r /\ (lo <= String.length p <= hi)%nat.

(** The WHERE clause of the search, on one record. *)
Definition male_f (e : Employee) : bool :=
  String.eqb (gender e) "Male" && like_F (full_name e).

(** The "Added ..." line for a batch of [k] records. *)
Definition added_line_of_size (k : Z) : out :=
  Line ("Added " ++ str k ++ " employees in batch.").

(** A table with one parseable and one malformed birth date. *)
Definition table_with_bad_date : Table :=
  mkTable [mkRow 1 (mkEmployee "Abel Mary A." "1990-01-02" "Female");
           mkRow 2 (mkEmployee "Adams John B." "15.05.1980" "Male")] 2 false.

(** [failed_on q w w']: from [w], statement [q] was sent and refused, and
    nothing else changed but the counters of the random source and clock. *)
Definition failed_on (q : sql) (w w' : World) : Prop :=
  employees w' = employees w /\
  connectable w' = connectable w /\
  stdout w' = stdout w /\
  journal w' = (journal w ++ [EvExecute q false])%list.

(* ------------------------------------------------------------------ *)
(** *** The records the draws determine *)

(** The outcome of draw number [p] when it serves a [random.choice(l)],
    and when it serves a [random.randint(a, b)]. *)
Definition pick (env : Env) (p : nat) (l : list string) : string :=
  nth (rng env p mod List.length l)%nat l "".

Definition pick_int (env : Env) (p : nat) (a b : Z) : Z :=
  a + Z.of_nat (rng env p mod Z.to_nat (b - a + 1))%nat.

(** Lines 91-107 read off as a function of the seven draws from [p] on:
    gender, first name, last name, middle initial, year, month, day. *)
Definition employee_at (env : Env) (p : nat) : Employee :=
  let gender := pick env p ["Male"; "Female"] in
  let first_name := if String.eqb gender "Male"
                    then pick env (1 + p) first_names_male
                    else pick env (1 + p) first_names_female in
  let last_name := pick env (2 + p) last_names in
  let middle_name := pick env (3 + p) middle_names in
  mkEmployee (last_name ++ " " ++ first_name ++ " " ++ middle_name)
             (fmt_birth_date (pick_int env (4 + p) 1950 2005)
                             (pick_int env (5 + p) 1 12)
                             (pick_int env (6 + p) 1 28))
             gender.

(** Lines 121-131 read off as a function of the six draws from [p] on:
    first name, suffix, middle initial, year, month, day. *)
Definition f_employee_at (env : Env) (p : nat) : Employee :=
  let first_name := pick env p first_names_male in
  let last_name := "F" ++ pick env (1 + p) f_suffixes in
  let middle_name := pick env (2 + p) middle_names in
  mkEmployee (last_name ++ " " ++ first_name ++ " " ++ middle_name)
             (fmt_birth_date (pick_int env (3 + p) 1950 2005)
                             (pick_int env (4 + p) 1 12)
                             (pick_int env (5 + p) 1 28))
             "Male".

(** [n] records in a row, each taking [step] draws, the first from [p]. *)
Fixpoint drawn (f : nat -> Employee) (step p n : nat) : list Employee :=
  match n with
  | O => []
  | S n' => f p :: drawn f step (step + p) n'
  end.

(** The birth date of a record parses. *)
Definition parses (e : Employee) : Prop :=
  exists b, strptime_date (birth_date e) = Some b.

(** [o] is the line the listing prints for record [e]: line 76 with the
    age of [e] today. *)
Definition listing_of (env : Env) (e : Employee) (o : out) : Prop :=
  exists age, calculate_age (today env) e = Ok age /\ o = Line (listing_line e age).

(* ================================================================== *)
(** * Properties *)

(** ** Age computation *)

Section Age.

Variables (t b : date).

Let adjust : Z := if tuple_lt (month t, day t) (month b, day b) then 1 else 0.

Lemma tuple_lt_spec (p q : Z * Z) :
  tuple_lt p q = true <-> fst p < fst q \/ (fst p = fst q /\ snd p < snd q).
Proof.
  unfold tuple_lt.
  rewrite orb_true_iff, andb_true_iff, !Z.ltb_lt, Z.eqb_eq.
  tauto.
Qed.

Lemma whole_years_formula : whole_years_elapsed b t (year t - year b - adjust).
Proof.
  subst adjust.
  destruct (tuple_lt (month t, day t) (month b, day b)) eqn:E.
  - apply tuple_lt_spec in E; cbn [fst snd] in E.
    unfold whole_years_elapsed, date_lt, date_le, anniversary; cbn [year month day].
    lia.
  - assert (N : ~ (month t < month b \/ (month t = month b /\ day t < day b))).
    { intro H. apply (tuple_lt_spec (month t, day t) (month b, day b)) in H. congruence. }
    unfold whole_years_elapsed, date_lt, date_le, anniversary; cbn [year month day].
    lia.
Qed.

Lemma whole_years_unique (n m : Z) :
  whole_years_elapsed b t n -> whole_years_elapsed b t m -> n = m.
Proof.
  unfold whole_years_elapsed, date_lt, date_le, anniversary; cbn [year month day].
  lia.
Qed.

End Age.

Lemma calculate_age_parsed (t b : date) (e : Employee) :
  strptime_date (birth_date e) = Some b ->
  calculate_age t e =
    Ok (year t - year b -
        (if tuple_lt (month t, day t) (month b, day b) then 1 else 0)).
Proof.
  intros P. unfold calculate_age. rewrite P.
  destruct (tuple_lt _ _); f_equal; lia.
Qed.

(** C1: when the birth date parses, the age is [currentYear - birthYear],
    less one exactly when (currentMonth, currentDay) is lexicographically
    below (birthMonth, birthDay).  That number is the one and only count of
    whole years elapsed; a birthday one day before today's month/day counts
    the current year, one day after does not. *)
Theorem C1_calculate_age_whole_years (t b : date) (e : Employee) :
  strptime_date (birth_date e) = Some b ->
  let age := year t - year b -
             (if tuple_lt (month t, day t) (month b, day b) then 1 else 0) in
  calculate_age t e = Ok age /\
  whole_years_elapsed b t age /\
  (forall n, whole_years_elapsed b t n -> n = age) /\
  (month b = month t -> day b = day t - 1 -> age = year t - year b) /\
  (month b = month t -> day b = day t -> age = year t - year b) /\
  (month b = month t -> day b = day t + 1 -> age = year t - year b - 1).
Proof.
  intros P age.
  split; [apply calculate_age_parsed, P|].
  split; [apply whole_years_formula|].
  split.
  { intros n Hn. eapply whole_years_unique; [exact Hn|apply whole_years_formula]. }
  subst age.
  destruct (tuple_lt (month t, day t) (month b, day b)) eqn:E.
  - apply tuple_lt_spec in E; cbn [fst snd] in E. repeat split; intros; lia.
  - assert (N : ~ (month t < month b \/ (month t = month b /\ day t < day b))).
    { intro H. apply (tuple_lt_spec (month t, day t) (month b, day b)) in H. congruence. }
    repeat split; intros; lia.
Qed.

Lemma C1_calculate_age_witness :
  calculate_age (mkDate 2024 6 15) (mkEmployee "Ford Henry A." "1990-06-16" "Male")
  = Ok 33.
Proof.
  apply (C1_calculate_age_whole_years (mkDate 2024 6 15) (mkDate 1990 6 16)
           (mkEmployee "Ford Henry A." "1990-06-16" "Male")).
  vm_compute. reflexivity.
Defined.

Example age_day_before :
  calculate_age (mkDate 2024 6 15) (mkEmployee "a" "1990-06-14" "Male") = Ok 34.
Proof. reflexivity. Qed.

Example age_leap_day :
  calculate_age (mkDate 2023 2 28) (mkEmployee "a" "2000-02-29" "Female") = Ok 22.
Proof. reflexivity. Qed.

Example age_malformed :
  calculate_age (mkDate 2023 2 28) (mkEmployee "a" "1999-02-29" "Female")
  = Raise ValueError.
Proof. reflexivity. Qed.

(* ================================================================== *)
(** ** Grouped listing *)

Module GroupFacts.

Lemma str_compare_eq (a b : string) : String_as_OT.compare a b = Eq <-> a = b.
Proof.
  destruct (String_as_OT.compare_spec a b) as [E|L|L]; split; intro H;
    try discriminate; try assumption; try reflexivity.
  - subst b. exfalso. exact (StrictOrder_Irreflexive (R := String_as_OT.lt) a L).
  - subst b. exfalso. exact (StrictOrder_Irreflexive (R := String_as_OT.lt) a L).
Qed.

Lemma str_compare_gt (a b : string) :
  String_as_OT.compare a b = Gt -> String_as_OT.compare b a = Lt.
Proof.
  intro H. destruct (String_as_OT.compare_spec a b) as [E|L|L];
    try discriminate. exact L.
Qed.

Lemma str_lt_trans (a b c : string) :
  String_as_OT.compare a b = Lt -> String_as_OT.compare b c = Lt ->
  String_as_OT.compare a c = Lt.
Proof. exact (StrictOrder_Transitive (R := String_as_OT.lt) a b c). Qed.

Lemma key_compare_eq (a b : string * string) : key_compare a b = Eq <-> a = b.
Proof.
  destruct a as [a1 a2], b as [b1 b2]. unfold key_compare; cbn [fst snd].
  destruct (String_as_OT.compare a1 b1) eqn:E1.
  - apply str_compare_eq in E1. subst b1. rewrite str_compare_eq.
    split; congruence.
  - split; [discriminate|]. intro H. inversion H; subst.
    assert (X : String_as_OT.compare b1 b1 = Eq) by (apply str_compare_eq; reflexivity).
    congruence.
  - split; [discriminate|]. intro H. inversion H; subst.
    assert (X : String_as_OT.compare b1 b1 = Eq) by (apply str_compare_eq; reflexivity).
    congruence.
Qed.

Lemma key_compare_gt (a b : string * string) :
  key_compare a b = Gt -> key_lt b a.
Proof.
  destruct a as [a1 a2], b as [b1 b2]. unfold key_lt, key_compare; cbn [fst snd].
  destruct (String_as_OT.compare a1 b1) eqn:E1; intro H; try discriminate.
  - apply str_compare_eq in E1. subst b1.
    assert (X : String_as_OT.compare a1 a1 = Eq) by (apply str_compare_eq; reflexivity).
    rewrite X. apply str_compare_gt, H.
  - apply str_compare_gt in E1. rewrite E1. reflexivity.
Qed.

Lemma key_lt_trans (a b c : string * string) :
  key_lt a b -> key_lt b c -> key_lt a c.
Proof.
  destruct a as [a1 a2], b as [b1 b2], c as [c1 c2].
  unfold key_lt, key_compare; cbn [fst snd].
  destruct (String_as_OT.compare a1 b1) eqn:E1; try discriminate;
    destruct (String_as_OT.compare b1 c1) eqn:E2; try discriminate; intros H1 H2.
  - apply str_compare_eq in E1, E2. subst.
    assert (X : String_as_OT.compare c1 c1 = Eq) by (apply str_compare_eq; reflexivity).
    rewrite X. eapply str_lt_trans; eassumption.
  - apply str_compare_eq in E1. subst. rewrite E2. reflexivity.
  - apply str_compare_eq in E2. subst. rewrite E1. reflexivity.
  - rewrite (str_lt_trans _ _ _ E1 E2). reflexivity.
Qed.

Lemma compare_same (a b : string) : String_as_OT.compare a b = String.compare a b.
Proof.
  revert b. induction a as [|c a IH]; intros [|d b]; cbn; try reflexivity.
Qed.

Lemma key_lt_name_le (a b : string * string) :
  key_lt a b -> name_le (fst a) (fst b).
Proof.
  unfold key_lt, key_compare, name_le, String.leb. rewrite compare_same.
  destruct (String.compare (fst a) (fst b)); congruence.
Qed.

(** *** One insertion *)

Lemma group_insert_Forall (P : string * string -> Prop) (r : Row) (gs : list group) :
  P (key r) -> Forall (fun g => P (gkey g)) gs ->
  Forall (fun g => P (gkey g)) (group_insert r gs).
Proof.
  intros Hr. induction gs as [|g gs IH]; intros F; cbn [group_insert].
  - constructor; [exact Hr|constructor].
  - inversion F as [|? ? Pg F']; subst.
    destruct (key_compare (key r) (key (fst g))).
    + constructor; [exact Pg|exact F'].
    + constructor; [exact Hr|exact F].
    + constructor; [exact Pg|apply IH, F'].
Qed.

Lemma group_insert_sorted (r : Row) (gs : list group) :
  StronglySorted (fun g h => key_lt (gkey g) (gkey h)) gs ->
  StronglySorted (fun g h => key_lt (gkey g) (gkey h)) (group_insert r gs).
Proof.
  induction gs as [|g gs IH]; intros S; cbn [group_insert].
  - repeat constructor.
  - inversion S as [|? ? S' F]; subst.
    destruct (key_compare (key r) (key (fst g))) eqn:E.
    + constructor; [exact S'|exact F].
    + constructor; [exact S|].
      constructor; [exact E|].
      eapply Forall_impl; [|exact F].
      intros h Hh. eapply key_lt_trans; [exact E|exact Hh].
    + constructor; [apply IH, S'|].
      apply (group_insert_Forall (fun k => key_lt (gkey g) k)); [|exact F].
      apply key_compare_gt, E.
Qed.

Lemma group_insert_uniform (r : Row) (gs : list group) :
  Forall uniform gs -> Forall uniform (group_insert r gs).
Proof.
  induction gs as [|g gs IH]; intros U; cbn [group_insert].
  - repeat constructor.
  - inversion U as [|? ? Ug U']; subst.
    destruct (key_compare (key r) (key (fst g))) eqn:E.
    + constructor; [|exact U'].
      unfold uniform, gkey in *; cbn [fst snd].
      apply Forall_app; split; [exact Ug|].
      constructor; [|constructor]. apply key_compare_eq, E.
    + constructor; [constructor|exact U].
    + constructor; [exact Ug|apply IH, U'].
Qed.

Lemma group_insert_length_new (r : Row) (gs : list group) :
  ~ In (key r) (map gkey gs) ->
  List.length (group_insert r gs) = S (List.length gs).
Proof.
  induction gs as [|g gs IH]; intros N; cbn [group_insert]; [reflexivity|].
  destruct (key_compare (key r) (key (fst g))) eqn:E.
  - exfalso. apply N. left. symmetry. apply key_compare_eq, E.
  - reflexivity.
  - cbn [List.length]. f_equal. apply IH. intro H. apply N. right. exact H.
Qed.

Lemma group_insert_keys (r : Row) (gs : list group) (k : string * string) :
  In k (map gkey (group_insert r gs)) <-> k = key r \/ In k (map gkey gs).
Proof.
  induction gs as [|g gs IH]; cbn [group_insert].
  - cbn. intuition auto.
  - destruct (key_compare (key r) (key (fst g))) eqn:E.
    + apply key_compare_eq in E. cbn [map In]. unfold gkey at 1; cbn [fst].
      fold (gkey g). unfold gkey at 2. rewrite E. intuition auto.
    + cbn [map In]. unfold gkey at 1; cbn [fst]. intuition auto.
    + cbn [map In]. rewrite IH. intuition auto.
Qed.

(** The rows held by the groups are the rows inserted. *)
Lemma group_insert_rows (r : Row) (gs : list group) (x : Row) :
  In x (flat_map group_rows (group_insert r gs)) <->
  x = r \/ In x (flat_map group_rows gs).
Proof.
  induction gs as [|g gs IH]; cbn [group_insert].
  - cbn. intuition auto.
  - destruct (key_compare (key r) (key (fst g))) eqn:E.
    + cbn [flat_map]. rewrite !in_app_iff. unfold group_rows; cbn [fst snd In].
      rewrite in_app_iff. cbn [In]. intuition auto.
    + cbn [flat_map]. rewrite !in_app_iff. unfold group_rows at 1; cbn [fst snd In].
      intuition auto.
    + cbn [flat_map]. rewrite !in_app_iff, IH. intuition auto.
Qed.

(** *** The whole GROUP BY *)

Lemma group_by_snoc (rs : list Row) (r : Row) :
  group_by (rs ++ [r]) = group_insert r (group_by rs).
Proof. unfold group_by. rewrite fold_left_app. reflexivity. Qed.

Lemma group_by_sorted (rs : list Row) :
  StronglySorted (fun g h => key_lt (gkey g) (gkey h)) (group_by rs).
Proof.
  induction rs as [|r rs IH] using rev_ind.
  - constructor.
  - rewrite group_by_snoc. apply group_insert_sorted, IH.
Qed.

Lemma group_by_uniform (rs : list Row) : Forall uniform (group_by rs).
Proof.
  induction rs as [|r rs IH] using rev_ind.
  - constructor.
  - rewrite group_by_snoc. apply group_insert_uniform, IH.
Qed.

Lemma group_by_keys (rs : list Row) (k : string * string) :
  In k (map gkey (group_by rs)) <-> In k (map key rs).
Proof.
  induction rs as [|r rs IH] using rev_ind.
  - cbn. tauto.
  - rewrite group_by_snoc, group_insert_keys, map_app, in_app_iff, IH.
    cbn. intuition auto.
Qed.

Lemma group_by_rows (rs : list Row) (x : Row) :
  In x (flat_map group_rows (group_by rs)) <-> In x rs.
Proof.
  induction rs as [|r rs IH] using rev_ind.
  - cbn. tauto.
  - rewrite group_by_snoc, group_insert_rows, in_app_iff, IH.
    cbn. intuition auto.
Qed.

Lemma group_by_length_distinct (rs : list Row) :
  NoDup (map key rs) -> List.length (group_by rs) = List.length rs.
Proof.
  induction rs as [|r rs IH] using rev_ind; intros N; [reflexivity|].
  rewrite group_by_snoc, length_app. cbn [List.length].
  rewrite map_app in N. cbn [map] in N.
  apply NoDup_remove in N. destruct N as [N1 N2]. rewrite app_nil_r in N1, N2.
  rewrite group_insert_length_new.
  - rewrite IH by exact N1. lia.
  - rewrite group_by_keys. exact N2.
Qed.

(** *** The row shown for a group *)

Lemma bare_in_group (env : Env) (g : group) : In (bare env g) (group_rows g).
Proof.
  unfold bare.
  destruct (Nat.lt_ge_cases (bare_row env (group_rows g)) (List.length (group_rows g)))
    as [L|G].
  - apply nth_In, L.
  - rewrite nth_overflow by exact G. left. reflexivity.
Qed.

Lemma bare_key (env : Env) (g : group) : uniform g -> key (bare env g) = gkey g.
Proof.
  intros U. destruct (bare_in_group env g) as [H|H].
  - rewrite <- H. reflexivity.
  - unfold uniform in U. rewrite Forall_forall in U. apply U, H.
Qed.

Lemma StronglySorted_map {A B} (R : A -> A -> Prop) (Q : B -> B -> Prop)
      (f : A -> B) (l : list A) :
  (forall a b, In a l -> In b l -> R a b -> Q (f a) (f b)) ->
  StronglySorted R l -> StronglySorted Q (map f l).
Proof.
  induction l as [|a l IH]; intros Hf S; cbn [map]; [constructor|].
  inversion S as [|? ? S' F]; subst.
  constructor.
  - apply IH; [|exact S']. intros x y Hx Hy. apply Hf; right; assumption.
  - apply Forall_map. rewrite Forall_forall in F |- *.
    intros x Hx. apply Hf; [left; reflexivity|right; exact Hx|apply F, Hx].
Qed.

Lemma select_grouped_sorted (env : Env) (t : Table) :
  names_sorted (select_grouped env t).
Proof.
  unfold names_sorted, select_grouped.
  eapply StronglySorted_map; [|apply group_by_sorted].
  intros g h Hg Hh L. cbn beta.
  pose proof (group_by_uniform (rows t)) as U. rewrite Forall_forall in U.
  pose proof (bare_key env g (U g Hg)) as Kg.
  pose proof (bare_key env h (U h Hh)) as Kh.
  apply key_lt_name_le in L. unfold key in Kg, Kh.
  rewrite <- Kg, <- Kh in L. exact L.
Qed.

Lemma select_grouped_length (env : Env) (t : Table) :
  List.length (select_grouped env t) = List.length (group_by (rows t)).
Proof. unfold select_grouped. apply length_map. Qed.

Lemma insert_rows_fields (es : list Employee) (t : Table) :
  map fields (rows (insert_rows es t)) = (map fields (rows t) ++ es)%list.
Proof.
  revert t. induction es as [|e es IH]; intros t; cbn [insert_rows fold_left].
  - rewrite app_nil_r. reflexivity.
  - fold (insert_rows es (insert_row e t)). rewrite IH.
    unfold insert_row; cbn [rows]. rewrite map_app, <- app_assoc. reflexivity.
Qed.


Lemma map_key_fields (rs : list Row) : map key rs = map employee_key (map fields rs).
Proof. rewrite map_map. reflexivity. Qed.

End GroupFacts.
Import GroupFacts.

Lemma key_lt_irrefl (k : string * string) : ~ key_lt k k.
Proof.
  unfold key_lt. intro H.
  assert (E : key_compare k k = Eq) by (apply key_compare_eq; reflexivity).
  congruence.
Qed.

Lemma sorted_keys_NoDup (gs : list group) :
  StronglySorted (fun g h => key_lt (gkey g) (gkey h)) gs -> NoDup (map gkey gs).
Proof.
  induction gs as [|g gs IH]; intros S; cbn [map]; [constructor|].
  inversion S as [|? ? S' F]; subst.
  constructor; [|apply IH, S'].
  rewrite in_map_iff. intros [h [E Hh]].
  rewrite Forall_forall in F. specialize (F h Hh). rewrite E in F.
  exact (key_lt_irrefl _ F).
Qed.

Lemma select_grouped_keys (env : Env) (t : Table) :
  map employee_key (select_grouped env t) = map gkey (group_by (rows t)).
Proof.
  unfold select_grouped. rewrite map_map. apply map_ext_in.
  intros g Hg. pose proof (group_by_uniform (rows t)) as U.
  rewrite Forall_forall in U. exact (bare_key env g (U g Hg)).
Qed.

(** The grouped query over the rows inserted into an empty table: one
    row per (full_name, birth_date) pair present and no other, in
    non-decreasing name order. *)
Lemma grouped_query_facts (env : Env) (t0 : Table) (es : list Employee)
        (n b g1 g2 : string) :
  rows t0 = [] ->
  let listed := select_grouped env (insert_rows es t0) in
  names_sorted listed /\
  NoDup (map employee_key listed) /\
  (forall k, In k (map employee_key listed) <-> In k (map employee_key es)) /\
  (NoDup (map employee_key es) -> List.length listed = List.length es) /\
  map employee_key
      (select_grouped env (insert_rows [mkEmployee n b g1; mkEmployee n b g2] t0))
    = [(n, b)].
Proof.
  intros E0 listed. subst listed.
  assert (F : forall l, map fields (rows (insert_rows l t0)) = l).
  { intro l. rewrite insert_rows_fields, E0. reflexivity. }
  split; [apply select_grouped_sorted|].
  split.
  { rewrite select_grouped_keys. apply sorted_keys_NoDup, group_by_sorted. }
  split.
  { intro k. rewrite select_grouped_keys, group_by_keys, map_key_fields, F. tauto. }
  split.
  { intro N. rewrite select_grouped_length, group_by_length_distinct.
    - rewrite <- (length_map fields), F. reflexivity.
    - rewrite map_key_fields, F. exact N. }
  rewrite select_grouped_keys.
  unfold insert_rows, insert_row; cbn [fold_left rows last_id].
  rewrite E0. cbn [app]. unfold group_by; cbn [fold_left group_insert].
  unfold key at 1 2; cbn [fields full_name birth_date fst].
  assert (X : key_compare (n, b) (n, b) = Eq) by (apply key_compare_eq; reflexivity).
  rewrite X. reflexivity.
Qed.

Example listing_two_genders :
  select_grouped env0
    (insert_rows [mkEmployee "Ford Henry A." "1980-05-15" "Male";
                  mkEmployee "Ford Henry A." "1980-05-15" "Female"]
                 (mkTable [] 0 false))
  = [mkEmployee "Ford Henry A." "1980-05-15" "Male"].
Proof. reflexivity. Qed.

(* ================================================================== *)
(** ** Generated birth dates *)

Lemma In_zrange (lo : Z) (n : nat) (z : Z) :
  lo <= z < lo + Z.of_nat n -> In z (zrange lo n).
Proof.
  intros H. unfold zrange. apply in_map_iff.
  exists (Z.to_nat (z - lo)). split; [lia|].
  apply in_seq. lia.
Qed.

Lemma roundtrip_table :
  forallb (fun y => forallb (fun m => forallb (roundtrip_ok y m) (zrange 1 28))
                            (zrange 1 12))
          (zrange 1950 56) = true.
Proof. vm_compute. reflexivity. Qed.

Lemma roundtrip_generated (y m d : Z) :
  1950 <= y <= 2005 -> 1 <= m <= 12 -> 1 <= d <= 28 ->
  iso_shape (fmt_birth_date y m d) = true /\
  strptime_date (fmt_birth_date y m d) = Some (mkDate y m d).
Proof.
  intros Hy Hm Hd.
  pose proof roundtrip_table as T.
  rewrite forallb_forall in T.
  specialize (T y (In_zrange 1950 56 y ltac:(lia))).
  rewrite forallb_forall in T.
  specialize (T m (In_zrange 1 12 m ltac:(lia))).
  rewrite forallb_forall in T.
  specialize (T d (In_zrange 1 28 d ltac:(lia))).
  unfold roundtrip_ok in T. apply andb_true_iff in T. destruct T as [S P].
  split; [exact S|].
  destruct (strptime_date (fmt_birth_date y m d)) as [b|]; [|discriminate].
  rewrite !andb_true_iff, !Z.eqb_eq in P. destruct P as [[Py Pm] Pd].
  destruct b; cbn [year month day] in *. subst. reflexivity.
Qed.


(* ================================================================== *)
(** ** Running the monad *)

Lemma bind_ok {A B} (m : M A) (k : A -> M B) (w w1 : World) (a : A) :
  m w = (Ok a, w1) -> bind m k w = k a w1.
Proof. intros H. unfold bind. rewrite H. reflexivity. Qed.

Lemma bind_raise {A B} (m : M A) (k : A -> M B) (w w1 : World) (e : exn) :
  m w = (Raise e, w1) -> bind m k w = (Raise e, w1).
Proof. intros H. unfold bind. rewrite H. reflexivity. Qed.

Lemma choice_eq (env : Env) (l : list string) (w : World) :
  choice env l w =
  (Ok (nth (rng env (rng_pos w) mod List.length l)%nat l ""),
   set_rng_pos (S (rng_pos w)) w).
Proof. reflexivity. Qed.

Lemma choice_In (l : list string) (i : nat) :
  l <> [] -> In (nth (i mod List.length l)%nat l "") l.
Proof.
  intros N. apply nth_In. apply Nat.mod_upper_bound.
  destruct l; [congruence|cbn; lia].
Qed.

Lemma randint_eq (env : Env) (a b : Z) (w : World) :
  randint env a b w =
  (Ok (a + Z.of_nat (rng env (rng_pos w) mod Z.to_nat (b - a + 1))%nat),
   set_rng_pos (S (rng_pos w)) w).
Proof. reflexivity. Qed.

Lemma randint_range (a b : Z) (i : nat) :
  a <= b -> a <= a + Z.of_nat (i mod Z.to_nat (b - a + 1))%nat <= b.
Proof.
  intros H.
  assert (i mod Z.to_nat (b - a + 1) < Z.to_nat (b - a + 1))%nat
    by (apply Nat.mod_upper_bound; lia).
  lia.
Qed.


Lemma random_birth_date_spec (env : Env) (w : World) :
  exists s, random_birth_date env w = (Ok s, set_rng_pos (3 + rng_pos w) w) /\
            generated_birth_date s.
Proof.
  unfold random_birth_date.
  rewrite (bind_ok _ _ _ _ _ (randint_eq env 1950 2005 w)).
  rewrite (bind_ok _ _ _ _ _ (randint_eq env 1 12 _)).
  rewrite (bind_ok _ _ _ _ _ (randint_eq env 1 28 _)).
  eexists. split; [reflexivity|].
  do 3 eexists. repeat split; try reflexivity; apply randint_range; lia.
Qed.

(** ** The generator *)

Lemma random_employee_spec (env : Env) (w : World) :
  exists e, random_employee env w = (Ok e, set_rng_pos (7 + rng_pos w) w) /\
            generated_main e.
Proof.
  unfold random_employee.
  rewrite (bind_ok _ _ _ _ _ (choice_eq env _ w)).
  pose proof (choice_In ["Male"; "Female"] (rng env (rng_pos w)) ltac:(discriminate)) as G.
  set (g := nth _ ["Male"; "Female"] "") in *.
  assert (exists first,
    (if String.eqb g "Male" then choice env first_names_male
     else choice env first_names_female) (set_rng_pos (S (rng_pos w)) w)
    = (Ok first, set_rng_pos (2 + rng_pos w) w) /\
    ((g = "Male" /\ In first first_names_male) \/
     (g = "Female" /\ In first first_names_female))) as (first & E1 & H1).
  { destruct G as [G|[G|[]]]; rewrite <- G; cbn [String.eqb Ascii.eqb Bool.eqb];
      rewrite choice_eq; eexists; (split; [reflexivity|]);
      [left|right]; (split; [reflexivity|]); apply choice_In; discriminate. }
  rewrite (bind_ok _ _ _ _ _ E1).
  rewrite (bind_ok _ _ _ _ _ (choice_eq env _ _)).
  rewrite (bind_ok _ _ _ _ _ (choice_eq env _ _)).
  destruct (random_birth_date_spec env
              (set_rng_pos (S (rng_pos (set_rng_pos (S (rng_pos (set_rng_pos (2 + rng_pos w) w)))
                 (set_rng_pos (2 + rng_pos w) w))))
                 (set_rng_pos (S (rng_pos (set_rng_pos (2 + rng_pos w) w)))
                 (set_rng_pos (2 + rng_pos w) w)))) as (s & E2 & H2).
  rewrite (bind_ok _ _ _ _ _ E2).
  eexists. split; [reflexivity|].
  eexists _, first, _. cbn [full_name birth_date gender].
  split; [apply choice_In; discriminate|].
  split; [apply choice_In; discriminate|].
  split; [exact H1|].
  split; [reflexivity|exact H2].
Qed.

Lemma random_f_employee_spec (env : Env) (w : World) :
  exists e, random_f_employee env w = (Ok e, set_rng_pos (6 + rng_pos w) w) /\
            generated_f e.
Proof.
  unfold random_f_employee.
  rewrite (bind_ok _ _ _ _ _ (choice_eq env _ w)).
  rewrite (bind_ok _ _ _ _ _ (choice_eq env _ _)).
  rewrite (bind_ok _ _ _ _ _ (choice_eq env _ _)).
  match goal with
  | |- context [bind (random_birth_date env) _ ?w1] =>
      destruct (random_birth_date_spec env w1) as (s & E2 & H2)
  end.
  rewrite (bind_ok _ _ _ _ _ E2).
  eexists. split; [reflexivity|].
  eexists _, _, _. cbn [full_name birth_date gender].
  split; [apply choice_In; discriminate|].
  split; [apply choice_In; discriminate|].
  split; [apply choice_In; discriminate|].
  split; [reflexivity|]. split; [reflexivity|exact H2].
Qed.

(** ** Batches *)

Lemma insert_rows_app (a b : list Employee) (t : Table) :
  insert_rows (a ++ b) t = insert_rows b (insert_rows a t).
Proof. unfold insert_rows. apply fold_left_app. Qed.

Lemma insert_rows_idx (es : list Employee) (t : Table) :
  idx_gender_lastname (insert_rows es t) = idx_gender_lastname t.
Proof.
  revert t. induction es as [|e es IH]; intros t; [reflexivity|].
  cbn [insert_rows fold_left]. fold (insert_rows es (insert_row e t)).
  rewrite IH. reflexivity.
Qed.

Lemma flushed_rng (k : nat) (w : World) (t : Table) :
  employees w = Some t -> flushed [] w (set_rng_pos k w).
Proof.
  intros H. unfold flushed; cbn.
  rewrite !app_nil_r. repeat split; try reflexivity.
  exists t. split; [exact H|]. rewrite H. reflexivity.
Qed.

Lemma flushed_trans (bs1 bs2 : list (list Employee)) (w w1 w2 : World) :
  flushed bs1 w w1 -> flushed bs2 w1 w2 -> flushed (bs1 ++ bs2) w w2.
Proof.
  intros ((t & Ht & Ht1) & J1 & O1 & C1 & K1) ((t1 & Ht1' & Ht2) & J2 & O2 & C2 & K2).
  rewrite Ht1 in Ht1'. injection Ht1' as <-.
  unfold flushed. repeat split.
  - exists t. split; [exact Ht|]. rewrite Ht2, concat_app, insert_rows_app. reflexivity.
  - rewrite J2, J1, Ht1, Ht. cbn [has_index]. rewrite insert_rows_idx.
    unfold batch_events. rewrite flat_map_app, app_assoc. reflexivity.
  - rewrite O2, O1, map_app, app_assoc. reflexivity.
  - congruence.
  - congruence.
Qed.

Lemma flushed_table (bs : list (list Employee)) (w w' : World) :
  flushed bs w w' -> exists t', employees w' = Some t'.
Proof. intros ((t & _ & H) & _). eexists. exact H. Qed.

Lemma batch_add_employees_spec (env : Env) (es : list Employee) (w : World) (t : Table) :
  employees w = Some t ->
  exists w', batch_add_employees env es w = (Ok tt, w') /\ flushed [es] w w' /\
             rng_pos w' = rng_pos w.
Proof.
  intros H. unfold batch_add_employees, cursor_execute, conn_commit, record, print, bind.
  rewrite H. cbn [run_sql]. eexists. split; [reflexivity|].
  split; [|reflexivity].
  unfold flushed; cbn. rewrite H. cbn. rewrite app_nil_r, <- app_assoc.
  repeat split; try reflexivity.
  exists t. split; reflexivity.
Qed.

Lemma random_employee_eq (env : Env) (w : World) :
  random_employee env w =
  (Ok (employee_at env (rng_pos w)), set_rng_pos (7 + rng_pos w) w).
Proof.
  destruct w as [db c j o r k].
  unfold random_employee, employee_at, random_birth_date, choice, randint, randbelow,
    pick, pick_int, bind, ret.
  cbn [rng_pos set_rng_pos employees connectable journal stdout clock_pos].
  destruct (String.eqb _ "Male"); reflexivity.
Qed.

Lemma random_f_employee_eq (env : Env) (w : World) :
  random_f_employee env w =
  (Ok (f_employee_at env (rng_pos w)), set_rng_pos (6 + rng_pos w) w).
Proof. destruct w as [db c j o r k]. reflexivity. Qed.

Lemma main_loop_spec (env : Env) (n : nat) :
  forall (buf : list Employee) (w : World) (t : Table),
    employees w = Some t ->
    Z.of_nat (List.length buf) < 10000 ->
    exists buf' bs gen w',
      main_loop env n buf w = (Ok buf', w') /\
      flushed bs w w' /\
      (List.concat bs ++ buf' = buf ++ gen)%list /\
      List.length gen = n /\
      Forall generated_main gen /\
      sizes bs =
        repeat 10000 (Z.to_nat ((Z.of_nat (List.length buf) + Z.of_nat n) / 10000)) /\
      Z.of_nat (List.length buf') =
        (Z.of_nat (List.length buf) + Z.of_nat n) mod 10000 /\
      gen = drawn (employee_at env) 7 (rng_pos w) n /\
      rng_pos w' = (7 * n + rng_pos w)%nat.
Proof.
  induction n as [|n IH]; intros buf w t Ht Hb.
  - exists buf, [], [], w. cbn [main_loop]. split; [reflexivity|].
    split.
    { replace w with (set_rng_pos (rng_pos w) w) at 2 by (destruct w; reflexivity).
      eapply flushed_rng, Ht. }
    split; [cbn; rewrite app_nil_r; reflexivity|].
    split; [reflexivity|]. split; [constructor|].
    rewrite Z.add_0_r, Z.div_small, Z.mod_small by lia.
    split; [reflexivity|]. split; [reflexivity|]. split; reflexivity.
  - cbn [main_loop].
    destruct (random_employee_spec env w) as (e & Ee & Ge).
    assert (De : e = employee_at env (rng_pos w)).
    { pose proof (random_employee_eq env w) as Q. rewrite Ee in Q.
      injection Q as Q. exact Q. }
    rewrite (bind_ok _ _ _ _ _ Ee).
    assert (L1 : Z.of_nat (List.length (buf ++ [e])) = Z.of_nat (List.length buf) + 1)
      by (rewrite length_app; cbn [List.length]; lia).
    pose proof (flushed_rng (7 + rng_pos w) w t Ht) as F0.
    destruct (10000 <=? Z.of_nat (List.length (buf ++ [e]))) eqn:Full.
    + apply Z.leb_le in Full.
      destruct (batch_add_employees_spec env (buf ++ [e])%list (set_rng_pos (7 + rng_pos w) w) t Ht)
        as (w1 & E1 & F1 & P1).
      cbn [rng_pos set_rng_pos] in P1.
      rewrite (bind_ok _ _ _ _ _ E1).
      destruct (flushed_table _ _ _ F1) as (t1 & Ht1).
      destruct (IH [] w1 t1 Ht1 ltac:(cbn; lia))
        as (buf' & bs & gen & w' & E2 & F2 & C2 & Lg & Gg & S2 & R2 & D2 & P2).
      rewrite P1 in D2, P2.
      exists buf', ((buf ++ [e])%list :: bs), (e :: gen), w'.
      split; [exact E2|].
      split.
      { apply (flushed_trans [] ([(buf ++ [e])%list] ++ bs)%list _ _ _ F0).
        eapply flushed_trans; eassumption. }
      split.
      { cbn [List.concat]. rewrite <- !app_assoc, C2. reflexivity. }
      split; [cbn; lia|]. split; [constructor; assumption|].
      cbn [List.length] in S2, R2. rewrite Z.add_0_l in S2, R2.
      replace (Z.of_nat (List.length buf) + Z.of_nat (S n)) with (Z.of_nat n + 1 * 10000) by lia.
      rewrite Z.div_add, Z.mod_add by lia.
      split.
      { unfold sizes in *. cbn [map]. rewrite S2.
        replace (Z.to_nat (Z.of_nat n / 10000 + 1)) with (S (Z.to_nat (Z.of_nat n / 10000))).
        - cbn [repeat]. f_equal. lia.
        - assert (0 <= Z.of_nat n / 10000) by (apply Z.div_pos; lia). lia. }
      split; [exact R2|].
      split; [cbn [drawn]; rewrite De, D2; reflexivity|lia].
    + apply Z.leb_gt in Full.
      destruct (IH (buf ++ [e])%list (set_rng_pos (7 + rng_pos w) w) t Ht ltac:(lia))
        as (buf' & bs & gen & w' & E2 & F2 & C2 & Lg & Gg & S2 & R2 & D2 & P2).
      cbn [rng_pos set_rng_pos] in D2, P2.
      exists buf', bs, (e :: gen), w'.
      split; [exact E2|].
      split; [apply (flushed_trans [] bs _ _ _ F0 F2)|].
      split; [rewrite C2, <- app_assoc; reflexivity|].
      split; [cbn; lia|]. split; [constructor; assumption|].
      replace (Z.of_nat (List.length buf) + Z.of_nat (S n))
        with (Z.of_nat (List.length (buf ++ [e])) + Z.of_nat n) by lia.
      split; [assumption|]. split; [assumption|].
      split; [cbn [drawn]; rewrite De, D2; reflexivity|lia].
Qed.

Lemma f_loop_spec (env : Env) (n : nat) :
  forall (acc : list Employee) (w : World),
    exists fs k,
      f_loop env n acc w = (Ok (acc ++ fs)%list, set_rng_pos k w) /\
      List.length fs = n /\ Forall generated_f fs /\
      fs = drawn (f_employee_at env) 6 (rng_pos w) n /\
      k = (6 * n + rng_pos w)%nat.
Proof.
  induction n as [|n IH]; intros acc w.
  - exists [], (rng_pos w). cbn [f_loop]. rewrite app_nil_r.
    split; [destruct w; reflexivity|]. split; [reflexivity|].
    split; [constructor|]. split; reflexivity.
  - cbn [f_loop].
    destruct (random_f_employee_spec env w) as (e & Ee & Ge).
    assert (De : e = f_employee_at env (rng_pos w)).
    { pose proof (random_f_employee_eq env w) as Q. rewrite Ee in Q.
      injection Q as Q. exact Q. }
    rewrite (bind_ok _ _ _ _ _ Ee).
    destruct (IH (acc ++ [e])%list (set_rng_pos (6 + rng_pos w) w))
      as (fs & k & E & L & F & D & K).
    cbn [rng_pos set_rng_pos] in D, K.
    exists (e :: fs), k. rewrite E, <- app_assoc. cbn [app].
    split; [reflexivity|]. split; [cbn; lia|]. split; [constructor; assumption|].
    split; [cbn [drawn]; rewrite De, D; reflexivity|lia].
Qed.

Lemma print_eq (o : out) (w : World) :
  print o w = (Ok tt, set_stdout (stdout w ++ [o]) w).
Proof. reflexivity. Qed.

Lemma generate_spec (env : Env) (count : Z) (w : World) (t : Table) :
  employees w = Some t ->
  exists gen fs bs w',
    generate_random_employees env count w = (Ok tt, w') /\
    List.length gen = Z.to_nat count /\ Forall generated_main gen /\
    List.concat bs = gen /\ sizes bs = batch_sizes (Z.max 0 count) /\
    List.length fs = 100%nat /\ Forall generated_f fs /\
    employees w' = Some (insert_rows (gen ++ fs) t) /\
    journal w' =
      (journal w ++ batch_events (idx_gender_lastname t) (bs ++ [fs]))%list /\
    stdout w' =
      (stdout w ++ map added_line (bs ++ [fs]) ++
       [Line "Finished generating random employees."])%list /\
    connectable w' = connectable w /\ clock_pos w' = clock_pos w /\
    gen = drawn (employee_at env) 7 (rng_pos w) (Z.to_nat count) /\
    fs = drawn (f_employee_at env) 6 (7 * Z.to_nat count + rng_pos w) 100 /\
    rng_pos w' = (600 + (7 * Z.to_nat count + rng_pos w))%nat.
Proof.
  intros Ht. unfold generate_random_employees.
  destruct (main_loop_spec env (Z.to_nat count) [] w t Ht ltac:(cbn; lia))
    as (buf & bs0 & gen & w1 & E1 & F1 & C1 & Lg & Gg & S1 & R1 & D1 & P1).
  rewrite (bind_ok _ _ _ _ _ E1).
  cbn [List.length app] in C1, S1, R1. rewrite Z.add_0_l in S1, R1.
  replace (Z.of_nat (Z.to_nat count)) with (Z.max 0 count) in S1, R1 by lia.
  destruct (flushed_table _ _ _ F1) as (t1 & Ht1).
  (* the flush of the remainder *)
  assert (exists bs w2,
    (match buf with [] => ret tt | _ :: _ => batch_add_employees env buf end) w1
      = (Ok tt, w2) /\
    flushed bs w w2 /\ List.concat bs = gen /\ sizes bs = batch_sizes (Z.max 0 count) /\
    rng_pos w2 = rng_pos w1)
    as (bs & w2 & E2 & F2 & C2 & S2 & P2).
  { destruct buf as [|e0 buf0].
    - exists bs0, w1. split; [reflexivity|]. split; [exact F1|].
      split; [rewrite app_nil_r in C1; exact C1|].
      split; [|reflexivity].
      unfold batch_sizes. cbn [List.length] in R1. rewrite <- R1. cbn [Z.of_nat Z.eqb].
      rewrite app_nil_r. exact S1.
    - destruct (batch_add_employees_spec env (e0 :: buf0) w1 t1 Ht1) as (w2 & E2 & F2 & P2).
      exists (bs0 ++ [e0 :: buf0])%list, w2. split; [exact E2|].
      split; [eapply flushed_trans; eassumption|].
      split; [rewrite concat_app; cbn [List.concat]; rewrite app_nil_r; exact C1|].
      split; [|exact P2].
      unfold batch_sizes, sizes in *. rewrite map_app, S1. cbn [map]. rewrite R1.
      destruct (Z.max 0 count mod 10000 =? 0) eqn:Z0; [|reflexivity].
      apply Z.eqb_eq in Z0. cbn [List.length] in R1. lia. }
  rewrite (bind_ok _ _ _ _ _ E2).
  destruct (f_loop_spec env 100 [] w2) as (fs & k & E3 & Lf & Gf & Df & Kf).
  rewrite P2, P1 in Df, Kf.
  rewrite (bind_ok _ _ _ _ _ E3). cbn [app].
  destruct (flushed_table _ _ _ F2) as (t2 & Ht2).
  destruct (batch_add_employees_spec env fs (set_rng_pos k w2) t2 Ht2) as (w3 & E4 & F4 & P4).
  cbn [rng_pos set_rng_pos] in P4.
  rewrite (bind_ok _ _ _ _ _ E4). rewrite print_eq.
  pose proof (flushed_trans _ _ _ _ _ F2
                (flushed_trans _ _ _ _ _ (flushed_rng k w2 t2 Ht2) F4)) as F.
  cbn [app] in F.
  destruct F as ((t' & Ht' & Hw3) & J & O & Cn & K).
  rewrite Ht in Ht'. injection Ht' as <-.
  exists gen, fs, bs, (set_stdout (stdout w3 ++ [Line "Finished generating random employees."]) w3).
  split; [reflexivity|].
  split; [exact Lg|]. split; [exact Gg|]. split; [exact C2|]. split; [exact S2|].
  split; [exact Lf|]. split; [exact Gf|].
  cbn [employees journal stdout connectable clock_pos rng_pos set_stdout].
  split.
  { rewrite Hw3, concat_app, C2. cbn [List.concat]. rewrite app_nil_r. reflexivity. }
  split; [rewrite J, Ht; reflexivity|].
  split; [rewrite O, <- app_assoc; reflexivity|].
  split; [assumption|]. split; [assumption|].
  split; [exact D1|]. split; [exact Df|].
  rewrite P4, Kf. reflexivity.
Qed.

(** ** The F pattern *)

Lemma f_pattern_names_start_with_F :
  forallb (String.prefix "F") f_pattern_names = true.
Proof. vm_compute. reflexivity. Qed.

Lemma generated_f_pattern (e : Employee) : generated_f e -> f_pattern_male e = true.
Proof.
  intros (suffix & first & mid & Hs & Hf & Hm & En & Eg & _).
  unfold f_pattern_male. rewrite Eg. cbn [String.eqb Ascii.eqb Bool.eqb andb].
  apply existsb_exists. exists (full_name e). split; [|apply String.eqb_refl].
  rewrite En. unfold f_pattern_names.
  apply in_flat_map. exists suffix. split; [exact Hs|].
  apply in_flat_map. exists first. split; [exact Hf|].
  apply in_map_iff. exists mid. split; [reflexivity|exact Hm].
Qed.

Lemma generated_main_not_f_pattern (e : Employee) :
  generated_main e -> f_pattern_male e = false.
Proof.
  intros (last & first & mid & Hl & _ & _ & En & _).
  unfold f_pattern_male. apply andb_false_iff. right.
  destruct (existsb (String.eqb (full_name e)) f_pattern_names) eqn:X; [|reflexivity].
  apply existsb_exists in X. destruct X as (x & Hx & Ex).
  apply String.eqb_eq in Ex. subst x.
  pose proof f_pattern_names_start_with_F as P.
  rewrite forallb_forall in P. specialize (P _ Hx). rewrite En in P.
  unfold last_names in Hl. cbn [In] in Hl.
  repeat (destruct Hl as [Hl|Hl]; [rewrite <- Hl in P; cbn in P; discriminate P|]).
  destruct Hl.
Qed.

Lemma filter_f_pattern (gen fs : list Employee) :
  Forall generated_main gen -> Forall generated_f fs ->
  filter f_pattern_male (gen ++ fs) = fs.
Proof.
  intros G F. rewrite filter_app.
  replace (filter f_pattern_male gen) with (@nil Employee).
  - cbn [app]. induction F as [|e fs He F IH]; [reflexivity|].
    cbn [filter]. rewrite (generated_f_pattern e He), IH. reflexivity.
  - induction G as [|e gen He G IH]; [reflexivity|].
    cbn [filter]. rewrite (generated_main_not_f_pattern e He). exact IH.
Qed.

(** C3: on an existing table, generation stores [count] random records,
    sent in batches of 10,000 with one last batch for a remainder, and then
    one batch of exactly 100 records with gender "Male" named "F"+suffix,
    a male first name and a middle initial; these 100 are the only stored
    records of that pattern among the ones generated.  The [count] records
    are the ones the random source determines, seven draws each (gender,
    first name of that gender, last name, middle initial, year, month,
    day), and the 100 take the next six draws each. *)
Theorem C3_generate_random_employees (env : Env) (count : Z) (w : World) (t : Table) :
  employees w = Some t ->
  exists (gen fs : list Employee) (bs : list (list Employee)) (w' : World),
    generate_random_employees env count w = (Ok tt, w') /\
    List.length gen = Z.to_nat count /\
    List.concat bs = gen /\
    sizes bs = batch_sizes (Z.max 0 count) /\
    List.length fs = 100%nat /\
    Forall generated_f fs /\
    journal w' =
      (journal w ++ batch_events (idx_gender_lastname t) (bs ++ [fs]))%list /\
    employees w' = Some (insert_rows (gen ++ fs) t) /\
    map fields (rows (insert_rows (gen ++ fs) t)) =
      (map fields (rows t) ++ gen ++ fs)%list /\
    filter f_pattern_male (gen ++ fs) = fs /\
    Forall generated_main gen /\
    gen = drawn (employee_at env) 7 (rng_pos w) (Z.to_nat count) /\
    fs = drawn (f_employee_at env) 6 (7 * Z.to_nat count + rng_pos w) 100 /\
    rng_pos w' = (600 + (7 * Z.to_nat count + rng_pos w))%nat.
Proof.
  intros Ht.
  destruct (generate_spec env count w t Ht)
    as (gen & fs & bs & w' & E & Lg & Gg & C & S & Lf & Gf & Hs & J & _ & _ & _ & Dg & Df & P).
  exists gen, fs, bs, w'.
  split; [exact E|]. split; [exact Lg|]. split; [exact C|]. split; [exact S|].
  split; [exact Lf|]. split; [exact Gf|]. split; [exact J|]. split; [exact Hs|].
  split; [apply insert_rows_fields|].
  split; [apply filter_f_pattern; assumption|].
  split; [exact Gg|]. split; [exact Dg|]. split; [exact Df|exact P].
Qed.

Lemma C3_generate_random_employees_witness :
  exists (gen fs : list Employee) (bs : list (list Employee)) (w' : World),
    generate_random_employees env0 25000 created = (Ok tt, w') /\
    List.length gen = Z.to_nat 25000 /\
    List.concat bs = gen /\
    sizes bs = [10000; 10000; 5000] /\
    List.length fs = 100%nat /\
    Forall generated_f fs /\
    journal w' =
      (journal created ++ batch_events false (bs ++ [fs]))%list /\
    employees w' = Some (insert_rows (gen ++ fs) (mkTable [] 0 false)) /\
    map fields (rows (insert_rows (gen ++ fs) (mkTable [] 0 false))) =
      ([] ++ gen ++ fs)%list /\
    filter f_pattern_male (gen ++ fs) = fs /\
    Forall generated_main gen /\
    gen = drawn (employee_at env0) 7 0 (Z.to_nat 25000) /\
    fs = drawn (f_employee_at env0) 6 (7 * Z.to_nat 25000 + 0) 100 /\
    rng_pos w' = (600 + (7 * Z.to_nat 25000 + 0))%nat.
Proof.
  exact (C3_generate_random_employees env0 25000 created (mkTable [] 0 false) eq_refl).
Defined.

Example first_generated_records :
  drawn (employee_at env0) 7 0 2 =
  [mkEmployee "Garcia Mary E." "1981-03-18" "Female";
   mkEmployee "Davis Charles D." "1974-04-11" "Male"] /\
  drawn (f_employee_at env0) 6 21 1 = [mkEmployee "Fletcher James E." "1953-11-18" "Male"].
Proof. vm_compute. split; reflexivity. Qed.

(* ================================================================== *)
(** ** Single operations on an existing table *)

Ltac world_fields :=
  cbn [employees journal stdout connectable rng_pos clock_pos
       set_journal set_stdout set_employees set_clock_pos set_rng_pos].

Lemma optimize_database_eq (env : Env) (w : World) (t : Table) :
  employees w = Some t ->
  optimize_database env w =
  (Ok tt,
   set_stdout (stdout w ++ [Line "Database optimized with index on gender and full_name."])
     (set_journal (journal w ++ [EvExecute (CreateIndex true) (idx_gender_lastname t); EvCommit])
        (set_employees (Some (mkTable (rows t) (last_id t) true)) w))).
Proof.
  intros H. destruct w as [db c j o r k]. cbn in H. subst db.
  unfold optimize_database, cursor_execute, conn_commit, record, print, bind.
  world_fields. cbn [run_sql has_index].
  destruct t as [rs l [|]]; cbn [idx_gender_lastname rows last_id]; world_fields;
    rewrite <- app_assoc; reflexivity.
Qed.

Lemma create_table_eq (env : Env) (w : World) :
  create_table env w =
  (Ok tt,
   set_stdout (stdout w ++ [Line "Table 'employees' created successfully."])
     (set_journal (journal w ++ [EvExecute (CreateTable true) (has_index (employees w)); EvCommit])
        (set_employees (Some (match employees w with
                              | Some t => t
                              | None => mkTable [] 0 false
                              end)) w))).
Proof.
  destruct w as [[t|] c j o r k];
    unfold create_table, cursor_execute, conn_commit, record, print, bind;
    world_fields; cbn [run_sql has_index]; world_fields;
    rewrite <- app_assoc; reflexivity.
Qed.

Lemma add_employee_eq (env : Env) (n b g : string) (w : World) (t : Table) :
  employees w = Some t ->
  add_employee env n b g w =
  (Ok tt,
   set_stdout (stdout w ++ [Line ("Employee " ++ n ++ " added successfully.")])
     (set_journal (journal w ++ [EvExecute (InsertRow (mkEmployee n b g))
                                           (idx_gender_lastname t); EvCommit])
        (set_employees (Some (insert_row (mkEmployee n b g) t)) w))).
Proof.
  intros H. destruct w as [db c j o r k]. cbn in H. subst db.
  unfold add_employee, save_to_db, cursor_execute, conn_commit, record, print, bind, ret.
  world_fields. cbn [run_sql has_index]. world_fields.
  rewrite <- app_assoc. reflexivity.
Qed.

Lemma search_male_f_lastname_eq (env : Env) (w : World) (t : Table) :
  employees w = Some t ->
  search_male_f_lastname env w =
  (Ok (clock env (S (clock_pos w)) - clock env (clock_pos w))%float,
   set_stdout (stdout w ++
               [found_line t;
                LineExecutionTime
                  (clock env (S (clock_pos w)) - clock env (clock_pos w))%float])
     (set_journal (journal w ++ [EvExecute SelectMaleF (idx_gender_lastname t)])
        (set_clock_pos (S (S (clock_pos w))) w))).
Proof.
  intros H. destruct w as [db c j o r k]. cbn in H. subst db.
  unfold search_male_f_lastname, cursor_execute, time_time, print, bind, ret.
  world_fields. cbn [run_sql has_index]. world_fields.
  unfold found_line. rewrite <- app_assoc. reflexivity.
Qed.

Lemma main_connected (env : Env) (prog mode : string) (rest : list string) (w : World) :
  connectable w = true ->
  main env (prog :: mode :: rest) w =
  try_finally (dispatch env (prog :: mode :: rest)) close
              (set_journal (journal w ++ [EvConnect]) w).
Proof.
  intros H. unfold main. cbn [List.length Nat.ltb Nat.leb].
  unfold init, bind. rewrite H. reflexivity.
Qed.

Lemma try_finally_close {A} (body : M A) (w w1 : World) (r : result A) :
  body w = (r, w1) ->
  try_finally body close w = (r, set_journal (journal w1 ++ [EvClose]) w1).
Proof. intros H. unfold try_finally. rewrite H. reflexivity. Qed.

(* ================================================================== *)
(** ** Mode 6 *)

Lemma mode6_dispatch (env : Env) (prog : string) (rest : list string) (w : World) (t : Table) :
  employees w = Some t ->
  dispatch env (prog :: "6" :: rest) w =
  (if PrimFloat.eqb (after_time env w) 0%float
   then Raise ZeroDivisionError else Ok tt,
   mkWorld (Some (mkTable (rows t) (last_id t) true))
           (connectable w)
           (journal w ++ [EvExecute (CreateIndex true) (idx_gender_lastname t); EvCommit;
                          EvExecute SelectMaleF true; EvExecute SelectMaleF true])
           (stdout w ++ mode6_lines env w t ++
            (if PrimFloat.eqb (after_time env w) 0%float then []
             else [LineImprovement (before_time env w - after_time env w)%float
                                   (before_time env w / after_time env w)%float]))
           (rng_pos w)
           (S (S (S (S (clock_pos w)))))).
Proof.
  intros Ht. unfold dispatch. cbn [nth String.eqb Ascii.eqb Bool.eqb].
  rewrite (bind_ok _ _ _ _ _ (optimize_database_eq env w t Ht)).
  rewrite (bind_ok _ _ _ _ _ (print_eq _ _)).
  rewrite (bind_ok _ _ _ _ _ (print_eq _ _)).
  match goal with
  | |- context [bind (search_male_f_lastname env) _ ?w1] =>
      rewrite (bind_ok _ _ _ _ _
                 (search_male_f_lastname_eq env w1 (mkTable (rows t) (last_id t) true) eq_refl))
  end.
  rewrite (bind_ok _ _ _ _ _ (print_eq _ _)).
  match goal with
  | |- context [bind (search_male_f_lastname env) _ ?w1] =>
      rewrite (bind_ok _ _ _ _ _
                 (search_male_f_lastname_eq env w1 (mkTable (rows t) (last_id t) true) eq_refl))
  end.
  unfold report_improvement, after_time, before_time, mode6_lines, found_line, select_male_f.
  destruct w as [db c j o r k]. world_fields. cbn [rows idx_gender_lastname].
  destruct (PrimFloat.eqb _ 0%float); unfold raise, print; world_fields;
    rewrite <- !app_assoc; reflexivity.
Qed.

Lemma mode6_run (env : Env) (prog : string) (rest : list string) (w : World) (t : Table) :
  connectable w = true ->
  employees w = Some t ->
  main env (prog :: "6" :: rest) w =
  (if PrimFloat.eqb (after_time env w) 0%float
   then Raise ZeroDivisionError else Ok tt,
   mkWorld (Some (mkTable (rows t) (last_id t) true))
           true
           (journal w ++ mode6_calls (idx_gender_lastname t))
           (stdout w ++ mode6_lines env w t ++
            (if PrimFloat.eqb (after_time env w) 0%float then []
             else [LineImprovement (before_time env w - after_time env w)%float
                                   (before_time env w / after_time env w)%float]))
           (rng_pos w)
           (S (S (S (S (clock_pos w)))))).
Proof.
  intros Hc Ht. rewrite (main_connected _ _ _ _ _ Hc).
  erewrite try_finally_close; [|apply (mode6_dispatch env prog rest _ t); exact Ht].
  destruct w as [db c j o r k]. cbn in Hc. subst c. world_fields.
  unfold mode6_calls, after_time, before_time, mode6_lines. world_fields.
  rewrite <- !app_assoc. reflexivity.
Qed.

(** C4: in mode 6, on an existing table, the first statement sent is the
    CREATE INDEX; both timed searches come after it and run with the index
    in place; the run then reports the difference and the quotient of the
    two timings (when the quotient can be taken). *)
Theorem C4_mode6_index_before_both_searches
        (env : Env) (prog : string) (rest : list string) (w : World) (t : Table) :
  connectable w = true ->
  employees w = Some t ->
  exists r w',
    main env (prog :: "6" :: rest) w = (r, w') /\
    journal w' =
      (journal w ++
       [EvConnect;
        EvExecute (CreateIndex true) (idx_gender_lastname t); EvCommit;
        EvExecute SelectMaleF true;
        EvExecute SelectMaleF true;
        EvClose])%list /\
    has_index (employees w') = true /\
    (exists shown,
       stdout w' = (stdout w ++ mode6_lines env w t ++ shown)%list /\
       (PrimFloat.eqb (after_time env w) 0%float = false ->
        r = Ok tt /\
        shown = [LineImprovement (before_time env w - after_time env w)%float
                                 (before_time env w / after_time env w)%float])).
Proof.
  intros Hc Ht. rewrite (mode6_run env prog rest w t Hc Ht).
  eexists _, _. split; [reflexivity|]. world_fields.
  split; [reflexivity|]. split; [reflexivity|].
  eexists. split; [reflexivity|].
  intros Z. rewrite Z. split; reflexivity.
Qed.

(** C10: the speedup is the plain quotient before/after.  When the second
    search measures an elapsed time equal to zero, mode 6 ends in
    ZeroDivisionError after both searches have run and been reported, and
    the improvement line is not printed; otherwise the line carries
    before - after and before / after. *)
Theorem C10_mode6_zero_elapsed_raises
        (env : Env) (prog : string) (rest : list string) (w : World) (t : Table) :
  connectable w = true ->
  employees w = Some t ->
  (PrimFloat.eqb (after_time env w) 0%float = true ->
   exists w',
     main env (prog :: "6" :: rest) w = (Raise ZeroDivisionError, w') /\
     journal w' = (journal w ++ mode6_calls (idx_gender_lastname t))%list /\
     stdout w' = (stdout w ++ mode6_lines env w t)%list) /\
  (PrimFloat.eqb (after_time env w) 0%float = false ->
   exists w',
     main env (prog :: "6" :: rest) w = (Ok tt, w') /\
     journal w' = (journal w ++ mode6_calls (idx_gender_lastname t))%list /\
     stdout w' =
       (stdout w ++ mode6_lines env w t ++
        [LineImprovement (before_time env w - after_time env w)%float
                         (before_time env w / after_time env w)%float])%list).
Proof.
  intros Hc Ht. rewrite (mode6_run env prog rest w t Hc Ht).
  split; intros Z; rewrite Z; eexists; (split; [reflexivity|]); world_fields.
  - rewrite app_nil_r. split; reflexivity.
  - split; reflexivity.
Qed.

(* ================================================================== *)
(** ** Mode 2 without its arguments *)

(** C6: mode 2 with fewer than three arguments prints the usage line of
    mode 2 and returns normally; the only calls on the connection are the
    connect and the close, so no INSERT is sent and the table is as before. *)
Theorem C6_mode2_missing_arguments
        (env : Env) (prog : string) (args : list string) (w : World) :
  (List.length args < 3)%nat ->
  connectable w = true ->
  main env (prog :: "2" :: args) w =
    (Ok tt,
     set_journal (journal w ++ [EvConnect; EvClose])
       (set_stdout (stdout w ++ [usage_mode2]) w)) /\
  employees (snd (main env (prog :: "2" :: args) w)) = employees w.
Proof.
  intros Ha Hc.
  assert (E : main env (prog :: "2" :: args) w =
              (Ok tt,
               set_journal (journal w ++ [EvConnect; EvClose])
                 (set_stdout (stdout w ++ [usage_mode2]) w))).
  { rewrite (main_connected _ _ _ _ _ Hc).
    erewrite try_finally_close.
    2:{ unfold dispatch. cbn [nth String.eqb Ascii.eqb Bool.eqb].
        replace (List.length (prog :: "2" :: args) <? 5)%nat with true.
        - apply print_eq.
        - symmetry. apply Nat.ltb_lt. cbn [List.length]. lia. }
    destruct w as [db c j o r k]. world_fields.
    rewrite <- app_assoc. reflexivity. }
  split; [exact E|]. rewrite E. reflexivity.
Qed.

(* ================================================================== *)
(** ** Idempotent schema statements *)

(** C9: once the index exists, [optimize_database] succeeds and leaves the
    table, its rows and its index as they were; so does [create_table] on
    an existing table.  Run twice in a row, the second run of either
    changes nothing.  Both send their statement with IF NOT EXISTS, and
    that clause is what makes the second run succeed: the same statement
    without it is refused once the table, or the index, exists. *)
Theorem C9_schema_statements_idempotent (env : Env) (w : World) (t : Table) :
  employees w = Some t ->
  (idx_gender_lastname t = true ->
   exists w1, optimize_database env w = (Ok tt, w1) /\ employees w1 = employees w) /\
  (exists w1 w2,
     optimize_database env w = (Ok tt, w1) /\
     optimize_database env w1 = (Ok tt, w2) /\
     has_index (employees w1) = true /\
     employees w2 = employees w1) /\
  (exists w1, create_table env w = (Ok tt, w1) /\ employees w1 = employees w) /\
  (forall w0 : World,
     exists w1 w2,
       create_table env w0 = (Ok tt, w1) /\
       create_table env w1 = (Ok tt, w2) /\
       employees w2 = employees w1) /\
  (exists w1,
     optimize_database env w = (Ok tt, w1) /\
     journal w1 =
       (journal w ++ [EvExecute (CreateIndex true) (idx_gender_lastname t); EvCommit])%list) /\
  (exists w1,
     create_table env w = (Ok tt, w1) /\
     journal w1 =
       (journal w ++ [EvExecute (CreateTable true) (idx_gender_lastname t); EvCommit])%list) /\
  fst (cursor_execute env (CreateTable false) w) = Raise OperationalError /\
  (idx_gender_lastname t = true ->
   fst (cursor_execute env (CreateIndex false) w) = Raise OperationalError).
Proof.
  intros Ht. split; [|split; [|split; [|split; [|split; [|split; [|split]]]]]].
  - intros Hi. rewrite (optimize_database_eq env w t Ht).
    eexists. split; [reflexivity|]. world_fields.
    rewrite Ht. destruct t as [rs l i]. cbn in Hi. subst i. reflexivity.
  - rewrite (optimize_database_eq env w t Ht).
    eexists _, _. split; [reflexivity|].
    split; [apply optimize_database_eq; reflexivity|].
    split; reflexivity.
  - rewrite create_table_eq, Ht. eexists. split; reflexivity.
  - intros w0. rewrite create_table_eq.
    eexists _, _. split; [reflexivity|].
    split; [apply create_table_eq|]. reflexivity.
  - rewrite (optimize_database_eq env w t Ht). eexists. split; reflexivity.
  - rewrite create_table_eq, Ht. eexists. split; reflexivity.
  - unfold cursor_execute. rewrite Ht. reflexivity.
  - intros Hi. unfold cursor_execute. rewrite Ht. cbn [run_sql]. rewrite Hi. reflexivity.
Qed.

Example plain_create_table_is_refused_the_second_time :
  fst (cursor_execute env0 (CreateTable false) created) = Raise OperationalError /\
  fst (cursor_execute env0 (CreateTable true) created) = Ok [].
Proof. split; reflexivity. Qed.

(* ================================================================== *)
(** ** The connection is closed once *)

Lemma closes_app (j1 j2 : list event) : closes (j1 ++ j2) = (closes j1 + closes j2)%nat.
Proof. unfold closes. rewrite filter_app, length_app. reflexivity. Qed.

Create HintDb quiet.

Section Quiet.

Variable env : Env.

Lemma quiet_ret {A} (a : A) : quiet (ret a).
Proof. intros w. exists []. cbn. rewrite app_nil_r. split; reflexivity. Qed.

Lemma quiet_raise {A} (e : exn) : quiet (@raise A e).
Proof. intros w. exists []. cbn. rewrite app_nil_r. split; reflexivity. Qed.

Lemma quiet_bind {A B} (m : M A) (k : A -> M B) :
  quiet m -> (forall a, quiet (k a)) -> quiet (bind m k).
Proof.
  intros Hm Hk w. unfold bind.
  destruct (Hm w) as (j1 & E1 & C1).
  destruct (m w) as [[a|e] w1]; cbn [snd] in E1.
  - destruct (Hk a w1) as (j2 & E2 & C2).
    exists (j1 ++ j2)%list. rewrite E2, E1, app_assoc, closes_app, C1, C2.
    split; reflexivity.
  - exists j1. split; assumption.
Qed.

Lemma quiet_print (o : out) : quiet (print o).
Proof. intros w. exists []. cbn. rewrite app_nil_r. split; reflexivity. Qed.

Lemma quiet_commit : quiet conn_commit.
Proof. intros w. exists [EvCommit]. split; reflexivity. Qed.

Lemma quiet_time_time : quiet (time_time env).
Proof. intros w. exists []. cbn. rewrite app_nil_r. split; reflexivity. Qed.

Lemma quiet_randbelow (n : nat) : quiet (randbelow env n).
Proof. intros w. exists []. cbn. rewrite app_nil_r. split; reflexivity. Qed.

Lemma quiet_cursor_execute (q : sql) : quiet (cursor_execute env q).
Proof.
  intros w. exists [EvExecute q (has_index (employees w))].
  unfold cursor_execute. destruct (run_sql env q (employees w)). split; reflexivity.
Qed.

#[local] Hint Resolve quiet_ret quiet_raise quiet_print quiet_commit quiet_time_time
     quiet_randbelow quiet_cursor_execute : quiet.

Ltac quiet_steps :=
  repeat first [ apply quiet_bind; [|intros ?] | solve [auto with quiet] ].

Lemma quiet_choice (l : list string) : quiet (choice env l).
Proof. unfold choice. quiet_steps. Qed.

Lemma quiet_randint (a b : Z) : quiet (randint env a b).
Proof. unfold randint. quiet_steps. Qed.

#[local] Hint Resolve quiet_choice quiet_randint : quiet.

Lemma quiet_create_table : quiet (create_table env).
Proof. unfold create_table. quiet_steps. Qed.

Lemma quiet_add_employee (n b g : string) : quiet (add_employee env n b g).
Proof. unfold add_employee, save_to_db. quiet_steps. Qed.

Lemma quiet_batch_add_employees (es : list Employee) : quiet (batch_add_employees env es).
Proof. unfold batch_add_employees. quiet_steps. Qed.

Lemma quiet_print_rows (l : list Employee) : quiet (print_rows env l).
Proof.
  induction l as [|row l IH]; cbn [print_rows]; [auto with quiet|].
  destruct (calculate_age _ _); quiet_steps.
Qed.

Lemma quiet_get_all_unique_employees : quiet (get_all_unique_employees env).
Proof. unfold get_all_unique_employees. quiet_steps. apply quiet_print_rows. Qed.

Lemma quiet_random_birth_date : quiet (random_birth_date env).
Proof. unfold random_birth_date. quiet_steps. Qed.

#[local] Hint Resolve quiet_random_birth_date quiet_batch_add_employees : quiet.

Lemma quiet_random_employee : quiet (random_employee env).
Proof.
  unfold random_employee. apply quiet_bind; [auto with quiet|intros g].
  apply quiet_bind; [destruct (String.eqb g "Male"); auto with quiet|intros f].
  quiet_steps.
Qed.

Lemma quiet_random_f_employee : quiet (random_f_employee env).
Proof. unfold random_f_employee. quiet_steps. Qed.

Lemma quiet_main_loop (n : nat) : forall buf, quiet (main_loop env n buf).
Proof.
  induction n as [|n IH]; intros buf; cbn [main_loop]; [auto with quiet|].
  apply quiet_bind; [apply quiet_random_employee|intros e].
  destruct (10000 <=? _); [|apply IH].
  apply quiet_bind; [auto with quiet|intros _; apply IH].
Qed.

Lemma quiet_f_loop (n : nat) : forall acc, quiet (f_loop env n acc).
Proof.
  induction n as [|n IH]; intros acc; cbn [f_loop]; [auto with quiet|].
  apply quiet_bind; [apply quiet_random_f_employee|intros e; apply IH].
Qed.

Lemma quiet_generate_random_employees (count : Z) :
  quiet (generate_random_employees env count).
Proof.
  unfold generate_random_employees.
  apply quiet_bind; [apply quiet_main_loop|intros buf].
  apply quiet_bind; [destruct buf; auto with quiet|intros _].
  apply quiet_bind; [apply quiet_f_loop|intros fs].
  quiet_steps.
Qed.

Lemma quiet_search_male_f_lastname : quiet (search_male_f_lastname env).
Proof. unfold search_male_f_lastname. quiet_steps. Qed.

Lemma quiet_optimize_database : quiet (optimize_database env).
Proof. unfold optimize_database. quiet_steps. Qed.

Lemma quiet_report_improvement (a b : float) : quiet (report_improvement a b).
Proof. unfold report_improvement. destruct (PrimFloat.eqb _ _); auto with quiet. Qed.

Lemma quiet_dispatch (argv : list string) : quiet (dispatch env argv).
Proof.
  unfold dispatch.
  destruct (String.eqb _ "1"); [apply quiet_create_table|].
  destruct (String.eqb _ "2").
  { destruct (_ <? 5)%nat; [auto with quiet|apply quiet_add_employee]. }
  destruct (String.eqb _ "3"); [apply quiet_get_all_unique_employees|].
  destruct (String.eqb _ "4"); [apply quiet_generate_random_employees|].
  destruct (String.eqb _ "5").
  { apply quiet_bind; [apply quiet_search_male_f_lastname|intros; auto with quiet]. }
  destruct (String.eqb _ "6"); [|auto with quiet].
  apply quiet_bind; [apply quiet_optimize_database|intros _].
  apply quiet_bind; [auto with quiet|intros _].
  apply quiet_bind; [auto with quiet|intros _].
  apply quiet_bind; [apply quiet_search_male_f_lastname|intros b].
  apply quiet_bind; [auto with quiet|intros _].
  apply quiet_bind; [apply quiet_search_male_f_lastname|intros a].
  apply quiet_report_improvement.
Qed.

End Quiet.

(** C7: whenever the store is constructed (a mode is given and the connect
    succeeds), the journal of the run is the connect, calls that are not
    [close], and one final [close]; this holds for every mode string and
    whether the operation returned or raised. *)
Theorem C7_close_exactly_once (env : Env) (argv : list string) (w : World) :
  (2 <= List.length argv)%nat ->
  connectable w = true ->
  exists (r : result unit) (w' : World) (j : list event),
    main env argv w = (r, w') /\
    journal w' = (journal w ++ [EvConnect] ++ j ++ [EvClose])%list /\
    closes j = 0%nat /\
    closes ([EvConnect] ++ j ++ [EvClose]) = 1%nat.
Proof.
  intros Hn Hc.
  destruct argv as [|prog [|mode rest]]; cbn [List.length] in Hn; try lia.
  rewrite (main_connected _ _ _ _ _ Hc).
  destruct (quiet_dispatch env (prog :: mode :: rest)
              (set_journal (journal w ++ [EvConnect]) w)) as (j & E & C).
  destruct (dispatch env (prog :: mode :: rest)
              (set_journal (journal w ++ [EvConnect]) w)) as [r w1] eqn:D.
  rewrite (try_finally_close _ _ _ _ D).
  exists r, (set_journal (journal w1 ++ [EvClose]) w1), j.
  split; [reflexivity|]. cbn [snd] in E. world_fields.
  split; [rewrite E; world_fields; rewrite <- !app_assoc; reflexivity|].
  split; [exact C|].
  rewrite !closes_app, C. reflexivity.
Qed.

(* ================================================================== *)
(** ** The end-to-end scenario *)

Lemma select_grouped_complete (env : Env) (t : Table) (r : Row) :
  In r (rows t) ->
  exists r', In r' (rows t) /\ key r' = key r /\ In (fields r') (select_grouped env t).
Proof.
  intros Hr. apply group_by_rows in Hr. apply in_flat_map in Hr.
  destruct Hr as (g & Hg & Hrg).
  pose proof (group_by_uniform (rows t)) as U. rewrite Forall_forall in U.
  specialize (U g Hg).
  assert (Kr : key r = gkey g).
  { destruct Hrg as [<-|Hin]; [reflexivity|].
    unfold uniform in U. rewrite Forall_forall in U. apply U, Hin. }
  exists (bare env g). split; [|split].
  - apply group_by_rows, in_flat_map. exists g. split; [exact Hg|apply bare_in_group].
  - rewrite Kr. apply bare_key, U.
  - unfold select_grouped. apply in_map_iff. exists g. split; [reflexivity|exact Hg].
Qed.

Lemma select_grouped_sound (env : Env) (t : Table) (e : Employee) :
  In e (select_grouped env t) -> exists r, In r (rows t) /\ fields r = e.
Proof.
  unfold select_grouped. rewrite in_map_iff. intros (g & E & Hg).
  exists (bare env g). split; [|exact E].
  apply group_by_rows, in_flat_map. exists g. split; [exact Hg|apply bare_in_group].
Qed.

Lemma print_rows_parsed (env : Env) (l : list Employee) :
  forall w,
    Forall (fun e => exists b, strptime_date (birth_date e) = Some b) l ->
    print_rows env l w = (Ok tt, set_stdout (stdout w ++ listing_lines env l) w).
Proof.
  induction l as [|row l IH]; intros w F.
  - cbn. rewrite app_nil_r. destruct w as [db c j o r k]; reflexivity.
  - inversion F as [|? ? (b & Hb) F']; subst.
    cbn [print_rows listing_lines map].
    assert (E : calculate_age (today env)
                  (mkEmployee (full_name row) (birth_date row) (gender row))
                = calculate_age (today env) row) by reflexivity.
    rewrite E, !(calculate_age_parsed (today env) b row Hb).
    rewrite (bind_ok _ _ _ _ _ (print_eq _ _)), (IH _ F').
    destruct w as [db c j o r k]; world_fields. rewrite <- app_assoc. reflexivity.
Qed.

Lemma get_all_unique_employees_eq (env : Env) (w : World) (t : Table) :
  employees w = Some t ->
  Forall (fun r => exists b, strptime_date (birth_date (fields r)) = Some b) (rows t) ->
  get_all_unique_employees env w =
  (Ok tt,
   set_stdout (stdout w ++ listing_lines env (select_grouped env t))
     (set_journal (journal w ++ [EvExecute SelectGrouped (idx_gender_lastname t)]) w)).
Proof.
  intros Ht F. unfold get_all_unique_employees.
  assert (E : cursor_execute env SelectGrouped w =
              (Ok (select_grouped env t),
               set_journal (journal w ++ [EvExecute SelectGrouped (idx_gender_lastname t)]) w)).
  { destruct w as [db c j o r k]. cbn in Ht. subst db. reflexivity. }
  rewrite (bind_ok _ _ _ _ _ E). rewrite print_rows_parsed; [reflexivity|].
  rewrite Forall_forall in F |- *. intros e He.
  destruct (select_grouped_sound env t e He) as (r & Hr & <-). apply F, Hr.
Qed.

Lemma ford_is_listed (env : Env) (t : Table) :
  Forall harmless (rows t) ->
  In ford (select_grouped env (insert_row ford t)).
Proof.
  intros H.
  destruct (select_grouped_complete env (insert_row ford t) (mkRow (last_id t + 1) ford))
    as (r' & Hin & K & Hsel).
  { unfold insert_row; cbn [rows]. apply in_or_app. right. left. reflexivity. }
  assert (E : fields r' = ford); [|rewrite <- E at 1; exact Hsel].
  unfold insert_row in Hin; cbn [rows] in Hin. apply in_app_or in Hin.
  destruct Hin as [Hold|[<-|[]]]; [|reflexivity].
  rewrite Forall_forall in H. destruct (H r' Hold) as [_ G].
  specialize (G K). unfold key in K; cbn [fields] in K.
  destruct r' as [i [n b g]]; cbn [fields full_name birth_date gender] in *.
  injection K as -> ->. subst g. reflexivity.
Qed.

Lemma mode1_run (env : Env) (prog : string) (w : World) :
  connectable w = true ->
  exists w1,
    main env [prog; "1"] w = (Ok tt, w1) /\
    employees w1 = Some (match employees w with
                         | Some t => t
                         | None => mkTable [] 0 false
                         end) /\
    stdout w1 = (stdout w ++ [Line "Table 'employees' created successfully."])%list /\
    connectable w1 = true.
Proof.
  intros Hc. rewrite (main_connected _ _ _ _ _ Hc).
  erewrite try_finally_close;
    [|unfold dispatch; cbn [nth String.eqb Ascii.eqb Bool.eqb]; apply create_table_eq].
  eexists. split; [reflexivity|]. world_fields. auto.
Qed.

Lemma mode2_run (env : Env) (prog n b g : string) (w : World) (t : Table) :
  connectable w = true ->
  employees w = Some t ->
  exists w2,
    main env [prog; "2"; n; b; g] w = (Ok tt, w2) /\
    employees w2 = Some (insert_row (mkEmployee n b g) t) /\
    stdout w2 = (stdout w ++ [Line ("Employee " ++ n ++ " added successfully.")])%list /\
    connectable w2 = true.
Proof.
  intros Hc Ht. rewrite (main_connected _ _ _ _ _ Hc).
  erewrite try_finally_close;
    [|unfold dispatch; cbn [nth String.eqb Ascii.eqb Bool.eqb List.length Nat.ltb Nat.leb];
      apply (add_employee_eq env n b g _ t); exact Ht].
  eexists. split; [reflexivity|]. world_fields. auto.
Qed.

Lemma mode3_run (env : Env) (prog : string) (w : World) (t : Table) :
  connectable w = true ->
  employees w = Some t ->
  Forall (fun r => exists b, strptime_date (birth_date (fields r)) = Some b) (rows t) ->
  exists w3,
    main env [prog; "3"] w = (Ok tt, w3) /\
    employees w3 = Some t /\
    stdout w3 = (stdout w ++ listing_lines env (select_grouped env t))%list.
Proof.
  intros Hc Ht F. rewrite (main_connected _ _ _ _ _ Hc).
  erewrite try_finally_close;
    [|unfold dispatch; cbn [nth String.eqb Ascii.eqb Bool.eqb];
      apply (get_all_unique_employees_eq env _ t); [exact Ht|exact F]].
  eexists. split; [reflexivity|]. world_fields. auto.
Qed.

Lemma ford_parses : strptime_date (birth_date ford) = Some (mkDate 1980 5 15).
Proof. reflexivity. Qed.

Lemma ford_line (age : Z) :
  listing_line ford age =
  "Name: Ford Henry A., Birth Date: 1980-05-15, Gender: Male, Age: " ++ str age.
Proof. reflexivity. Qed.

Lemma listing_lines_split (env : Env) (l1 l2 : list Employee) (e : Employee) :
  listing_lines env (l1 ++ e :: l2) =
  (listing_lines env l1 ++
   [Line (listing_line e (match calculate_age (today env) e with
                          | Ok age => age
                          | Raise _ => 0
                          end))] ++
   listing_lines env l2)%list.
Proof. unfold listing_lines. rewrite map_app. reflexivity. Qed.

(** C5 as stated fails: the listing line has another format.  On a fresh
    store the scenario succeeds and no printed line contains the text
    [Ford Henry A., 1980-05-15, Male, age=]. *)
Lemma C5_claimed_line_not_printed :
  fst (scenario env0 fresh) = Ok tt /\
  printed "Ford Henry A., 1980-05-15, Male, age="
          (stdout (snd (scenario env0 fresh))) = false.
Proof. vm_compute. split; reflexivity. Qed.

(** C5 (amended): from a store that can be opened and whose rows, if any,
    have parseable birth dates and do not carry Ford's name and birth date
    with another gender, modes 1, 2 (Ford) and 3 in turn succeed and the
    listing contains the line
    [Name: Ford Henry A., Birth Date: 1980-05-15, Gender: Male, Age: <age>]
    with the age computed relative to today. *)
Theorem C5_scenario_lists_ford (env : Env) (w0 : World) :
  connectable w0 = true ->
  (forall t, employees w0 = Some t -> Forall harmless (rows t)) ->
  exists (w3 : World) (age : Z) (pre post : list out),
    scenario env w0 = (Ok tt, w3) /\
    calculate_age (today env) ford = Ok age /\
    age = year (today env) - 1980 -
          (if tuple_lt (month (today env), day (today env)) (5, 15) then 1 else 0) /\
    stdout w3 =
      (stdout w0 ++ pre ++
       [Line ("Name: Ford Henry A., Birth Date: 1980-05-15, Gender: Male, Age: "
              ++ str age)] ++ post)%list.
Proof.
  intros Hc Hh.
  set (t1 := match employees w0 with Some t => t | None => mkTable [] 0 false end).
  assert (H1 : Forall harmless (rows t1)).
  { subst t1. destruct (employees w0) as [t|] eqn:E; [apply Hh; reflexivity|constructor]. }
  unfold scenario.
  destruct (mode1_run env "employee_directory.py" w0 Hc) as (w1 & E1 & T1 & O1 & C1).
  fold t1 in T1.
  rewrite (bind_ok _ _ _ _ _ E1).
  destruct (mode2_run env "employee_directory.py" "Ford Henry A." "1980-05-15" "Male"
              w1 t1 C1 T1) as (w2 & E2 & T2 & O2 & C2).
  rewrite (bind_ok _ _ _ _ _ E2).
  fold ford in T2.
  assert (P : Forall (fun r => exists b, strptime_date (birth_date (fields r)) = Some b)
                     (rows (insert_row ford t1))).
  { unfold insert_row; cbn [rows]. apply Forall_app. split.
    - eapply Forall_impl; [|exact H1]. intros r [Hr _]. exact Hr.
    - constructor; [|constructor]. eexists. exact ford_parses. }
  destruct (mode3_run env "employee_directory.py" w2 _ C2 T2 P) as (w3 & E3 & _ & O3).
  destruct (in_split _ _ (ford_is_listed env t1 H1)) as (l1 & l2 & S).
  pose proof (calculate_age_parsed (today env) _ ford ford_parses) as A.
  cbn [year month day] in A.
  exists w3.
  exists (year (today env) - 1980 -
          (if tuple_lt (month (today env), day (today env)) (5, 15) then 1 else 0)).
  exists ([Line "Table 'employees' created successfully.";
           Line ("Employee " ++ "Ford Henry A." ++ " added successfully.")]
          ++ listing_lines env l1)%list.
  exists (listing_lines env l2).
  split; [exact E3|]. split; [exact A|]. split; [reflexivity|].
  rewrite O3, O2, O1, S, listing_lines_split, A, ford_line.
  rewrite <- !app_assoc. reflexivity.
Qed.

(* ================================================================== *)
(** ** Birth dates of generated records, on every run *)

Section Batches.

Variable P : Employee -> Prop.
Variable env : Env.

Lemma batches_ok_nil : batches_ok P [].
Proof. intros es i []. Qed.

Lemma batches_ok_app (j1 j2 : list event) :
  batches_ok P j1 -> batches_ok P j2 -> batches_ok P (j1 ++ j2).
Proof.
  intros H1 H2 es i Hin. apply in_app_or in Hin.
  destruct Hin; [eapply H1|eapply H2]; eassumption.
Qed.

Lemma batch_add_employees_journal (es : list Employee) (w : World) :
  Forall P es ->
  exists j, journal (snd (batch_add_employees env es w)) = (journal w ++ j)%list /\
            batches_ok P j.
Proof.
  intros F. destruct w as [[t|] c j o r k].
  - exists [EvExecute (InsertMany es) (idx_gender_lastname t); EvCommit].
    split.
    + unfold batch_add_employees, cursor_execute, conn_commit, record, print, bind.
      world_fields. cbn [run_sql has_index snd]. world_fields.
      rewrite <- app_assoc. reflexivity.
    + intros es' i [H|[H|[]]]; [|discriminate H]. injection H as <- _. exact F.
  - exists [EvExecute (InsertMany es) false].
    split; [reflexivity|].
    intros es' i [H|[]]. injection H as <- _. exact F.
Qed.

Hypothesis P_main : forall e, generated_main e -> P e.
Hypothesis P_f : forall e, generated_f e -> P e.

Lemma main_loop_journal (n : nat) :
  forall (buf : list Employee) (w : World),
    Forall P buf ->
    exists j,
      journal (snd (main_loop env n buf w)) = (journal w ++ j)%list /\
      batches_ok P j /\
      (forall buf', fst (main_loop env n buf w) = Ok buf' -> Forall P buf').
Proof.
  induction n as [|n IH]; intros buf w F.
  - exists []. cbn. rewrite app_nil_r. split; [reflexivity|].
    split; [apply batches_ok_nil|]. intros buf' E. injection E as <-. exact F.
  - cbn [main_loop].
    destruct (random_employee_spec env w) as (e & Ee & Ge).
    rewrite (bind_ok _ _ _ _ _ Ee).
    assert (F1 : Forall P (buf ++ [e])).
    { apply Forall_app. split; [exact F|]. constructor; [apply P_main, Ge|constructor]. }
    destruct (10000 <=? _).
    + destruct (batch_add_employees_journal (buf ++ [e])%list
                  (set_rng_pos (7 + rng_pos w) w) F1) as (j1 & J1 & B1).
      destruct (batch_add_employees env (buf ++ [e])%list (set_rng_pos (7 + rng_pos w) w))
        as [[u|ex] w1] eqn:E1; cbn [snd] in J1.
      * rewrite (bind_ok _ _ _ _ _ E1).
        destruct (IH [] w1 (Forall_nil P)) as (j2 & J2 & B2 & R2).
        exists (j1 ++ j2)%list. rewrite J2, J1, app_assoc.
        split; [reflexivity|]. split; [apply batches_ok_app; assumption|exact R2].
      * rewrite (bind_raise _ _ _ _ _ E1). exists j1.
        split; [exact J1|]. split; [exact B1|]. intros buf' X. discriminate X.
    + apply (IH (buf ++ [e])%list (set_rng_pos (7 + rng_pos w) w) F1).
Qed.

Lemma generate_journal (count : Z) (w : World) :
  exists j,
    journal (snd (generate_random_employees env count w)) = (journal w ++ j)%list /\
    batches_ok P j.
Proof.
  unfold generate_random_employees.
  destruct (main_loop_journal (Z.to_nat count) [] w (Forall_nil P)) as (j1 & J1 & B1 & R1).
  destruct (main_loop env (Z.to_nat count) [] w) as [[buf|ex] w1] eqn:E1;
    cbn [fst snd] in J1, R1.
  2:{ rewrite (bind_raise _ _ _ _ _ E1). exists j1. split; assumption. }
  rewrite (bind_ok _ _ _ _ _ E1).
  specialize (R1 buf eq_refl).
  (* the flush of the remainder *)
  assert (exists j2,
    journal (snd ((match buf with [] => ret tt | _ :: _ => batch_add_employees env buf end) w1))
      = (journal w1 ++ j2)%list /\ batches_ok P j2) as (j2 & J2 & B2).
  { destruct buf as [|e0 buf0].
    - exists []. cbn. rewrite app_nil_r. split; [reflexivity|apply batches_ok_nil].
    - apply batch_add_employees_journal, R1. }
  destruct ((match buf with [] => ret tt | _ :: _ => batch_add_employees env buf end) w1)
    as [[u|ex] w2] eqn:E2; cbn [snd] in J2.
  2:{ rewrite (bind_raise _ _ _ _ _ E2). exists (j1 ++ j2)%list. cbn [snd].
      rewrite J2, J1, app_assoc. split; [reflexivity|apply batches_ok_app; assumption]. }
  rewrite (bind_ok _ _ _ _ _ E2).
  destruct (f_loop_spec env 100 [] w2) as (fs & k & E3 & _ & Gf & _).
  rewrite (bind_ok _ _ _ _ _ E3). cbn [app].
  assert (Ff : Forall P fs) by (eapply Forall_impl; [exact P_f|exact Gf]).
  destruct (batch_add_employees_journal fs (set_rng_pos k w2) Ff) as (j3 & J3 & B3).
  cbn [journal set_rng_pos] in J3.
  exists (j1 ++ j2 ++ j3)%list.
  split; [|apply batches_ok_app; [exact B1|apply batches_ok_app; assumption]].
  destruct (batch_add_employees env fs (set_rng_pos k w2)) as [[u4|ex] w3] eqn:E4;
    cbn [snd] in J3.
  - rewrite (bind_ok _ _ _ _ _ E4). rewrite print_eq. cbn [snd]. world_fields.
    rewrite J3, J2, J1, <- !app_assoc. reflexivity.
  - rewrite (bind_raise _ _ _ _ _ E4). cbn [snd].
    rewrite J3, J2, J1, <- !app_assoc. reflexivity.
Qed.

End Batches.

Lemma generated_well_dated (today : date) (e : Employee) :
  generated_birth_date (birth_date e) -> well_dated today e.
Proof.
  intros (y & m & d & Hy & Hm & Hd & E).
  destruct (roundtrip_generated y m d Hy Hm Hd) as [S P].
  exists y, m, d. rewrite E.
  repeat (split; [assumption || reflexivity|]).
  unfold calculate_age. rewrite E, P. eexists. reflexivity.
Qed.

(** C8: on every run of the generator, from any world, each record handed
    to a batch insert has a birth date written from a year in [1950, 2005],
    a month in [1, 12] and a day in [1, 28] as zero-padded YYYY-MM-DD; the
    string parses back to that date, so computing the age of the record
    succeeds.  On an existing table these records are the rows added. *)
Theorem C8_generated_birth_dates (env : Env) (today : date) (count : Z) (w : World) :
  (exists j,
     journal (snd (generate_random_employees env count w)) = (journal w ++ j)%list /\
     batches_ok (well_dated today) j) /\
  (forall t, employees w = Some t ->
     exists new t',
       employees (snd (generate_random_employees env count w)) = Some t' /\
       map fields (rows t') = (map fields (rows t) ++ new)%list /\
       List.length new = (Z.to_nat count + 100)%nat /\
       Forall (well_dated today) new).
Proof.
  split.
  - apply generate_journal.
    + intros e (l & f & m & _ & _ & _ & _ & G). apply generated_well_dated, G.
    + intros e (s & f & m & _ & _ & _ & _ & _ & G). apply generated_well_dated, G.
  - intros t Ht.
    destruct (generate_spec env count w t Ht)
      as (gen & fs & bs & w' & E & Lg & Gg & _ & _ & Lf & Gf & Hs & _).
    rewrite E. cbn [snd].
    exists (gen ++ fs)%list, (insert_rows (gen ++ fs) t).
    split; [exact Hs|]. split; [apply insert_rows_fields|].
    split; [rewrite length_app, Lg, Lf; reflexivity|].
    apply Forall_app. split.
    + eapply Forall_impl; [|exact Gg].
      intros e (l & f & m & _ & _ & _ & _ & G). apply generated_well_dated, G.
    + eapply Forall_impl; [|exact Gf].
      intros e (s & f & m & _ & _ & _ & _ & _ & G). apply generated_well_dated, G.
Qed.

Lemma C8_generated_birth_dates_witness :
  exists new t',
    employees (snd (generate_random_employees env0 3 created)) = Some t' /\
    map fields (rows t') = ([] ++ new)%list /\
    List.length new = 103%nat /\
    Forall (well_dated (mkDate 2026 11 3)) new.
Proof.
  exact (proj2 (C8_generated_birth_dates env0 (mkDate 2026 11 3) 3 created)
               (mkTable [] 0 false) eq_refl).
Defined.

(* ================================================================== *)
(** ** The theorems at concrete inputs *)

Lemma C4_mode6_witness :
  exists r w',
    main env0 ["employee_directory.py"; "6"] created = (r, w') /\
    has_index (employees w') = true.
Proof.
  destruct (C4_mode6_index_before_both_searches env0 "employee_directory.py" []
              created (mkTable [] 0 false) eq_refl eq_refl)
    as (r & w' & E & _ & I & _).
  exists r, w'. split; [exact E|exact I].
Defined.

Lemma C5_scenario_witness :
  exists (w3 : World) (pre post : list out),
    scenario env0 fresh = (Ok tt, w3) /\
    stdout w3 =
      ([] ++ pre ++
       [Line "Name: Ford Henry A., Birth Date: 1980-05-15, Gender: Male, Age: 46"] ++
       post)%list.
Proof.
  destruct (C5_scenario_lists_ford env0 fresh eq_refl
              (fun t (H : employees fresh = Some t) =>
                 match H in _ = o return match o with
                                         | Some _ => Forall harmless (rows t)
                                         | None => True
                                         end
                 with eq_refl => I end))
    as (w3 & age & pre & post & E & A & Ea & O).
  exists w3, pre, post. split; [exact E|].
  rewrite O, Ea. reflexivity.
Defined.

Lemma C6_mode2_witness :
  employees (snd (main env0 ["employee_directory.py"; "2"; "Ford Henry A."; "1980-05-15"]
                       created))
  = employees created.
Proof.
  exact (proj2 (C6_mode2_missing_arguments env0 "employee_directory.py"
                  ["Ford Henry A."; "1980-05-15"] created (le_n 3) eq_refl)).
Defined.

Lemma C7_close_witness :
  exists (r : result unit) (w' : World) (j : list event),
    main env0 ["employee_directory.py"; "3"] fresh = (r, w') /\
    journal w' = ([] ++ [EvConnect] ++ j ++ [EvClose])%list /\
    closes j = 0%nat /\
    closes ([EvConnect] ++ j ++ [EvClose]) = 1%nat.
Proof.
  exact (C7_close_exactly_once env0 ["employee_directory.py"; "3"] fresh (le_n 2) eq_refl).
Defined.

Lemma C9_schema_witness :
  exists w1 w2,
    optimize_database env0 created = (Ok tt, w1) /\
    optimize_database env0 w1 = (Ok tt, w2) /\
    has_index (employees w1) = true /\
    employees w2 = employees w1.
Proof.
  exact (proj1 (proj2 (C9_schema_statements_idempotent env0 created
                         (mkTable [] 0 false) eq_refl))).
Defined.

Lemma C10_mode6_witness :
  exists w',
    main env_coarse ["employee_directory.py"; "6"] created
    = (Raise ZeroDivisionError, w').
Proof.
  destruct (proj1 (C10_mode6_zero_elapsed_raises env_coarse "employee_directory.py" []
                     created (mkTable [] 0 false) eq_refl eq_refl) eq_refl)
    as (w' & E & _).
  exists w'. exact E.
Defined.

Example mode3_on_fresh_store_raises_and_closes :
  main env0 ["employee_directory.py"; "3"] fresh =
  (Raise OperationalError,
   mkWorld None true [EvConnect; EvExecute SelectGrouped false; EvClose] [] 0 0).
Proof. reflexivity. Qed.

Example mode6_coarse_clock :
  fst (main env_coarse ["employee_directory.py"; "6"] created) = Raise ZeroDivisionError.
Proof. vm_compute. reflexivity. Qed.

Example scenario_prints_the_listing_line :
  printed "Name: Ford Henry A., Birth Date: 1980-05-15, Gender: Male, Age: 46"
          (stdout (snd (scenario env0 fresh))) = true.
Proof. vm_compute. reflexivity. Qed.

(** Why the scenario theorem asks for harmless rows: a stored row whose
    birth date does not parse and whose name sorts before Ford's stops the
    listing before Ford's line, and a stored "Female" row with Ford's name
    and birth date can be the one whose gender is shown. *)
Example scenario_stopped_by_malformed_row :
  let w := mkWorld (Some (mkTable [mkRow 1 (mkEmployee "Adams Mary A." "15.05.1980" "Female")]
                                  1 false)) true [] [] 0 0 in
  fst (scenario env0 w) = Raise ValueError /\
  printed "Ford Henry A." (skipn 2 (stdout (snd (scenario env0 w)))) = false.
Proof. vm_compute. split; reflexivity. Qed.

Example scenario_shows_other_gender :
  let w := mkWorld (Some (mkTable [mkRow 1 (mkEmployee "Ford Henry A." "1980-05-15" "Female")]
                                  1 false)) true [] [] 0 0 in
  stdout (snd (scenario env0 w)) =
  [Line "Table 'employees' created successfully.";
   Line "Employee Ford Henry A. added successfully.";
   Line "Name: Ford Henry A., Birth Date: 1980-05-15, Gender: Female, Age: 46"].
Proof. vm_compute. reflexivity. Qed.

(* ================================================================== *)
(** * Further properties of the program *)

(** ** [main] without a mode, without a connection, with an unknown mode *)

(** X1: without a mode argument [main] prints the eight usage lines and
    returns; it does not open the database (nothing is journalled), whether
    or not a connection could be made. *)
Theorem X1_main_without_mode_prints_usage (env : Env) (argv : list string) (w : World) :
  (List.length argv < 2)%nat ->
  main env argv w = (Ok tt, set_stdout (stdout w ++ usage) w).
Proof.
  intros H.
  destruct argv as [|a [|b rest]]; cbn [List.length] in H; try lia;
    destruct w as [db c j o r k]; unfold main; cbn [List.length Nat.ltb Nat.leb];
    unfold usage, print_all, print, bind, ret; world_fields;
    rewrite <- !app_assoc; reflexivity.
Qed.

Lemma X1_main_without_mode_witness :
  main env0 ["employee_directory.py"] fresh = (Ok tt, set_stdout ([] ++ usage) fresh).
Proof.
  exact (X1_main_without_mode_prints_usage env0 ["employee_directory.py"] fresh (le_n 2)).
Defined.

(** X2: when the connection cannot be made, [main] with a mode raises
    RuntimeError before anything else happens: nothing is printed, nothing
    is journalled (in particular no close), the world is as it was. *)
Theorem X2_connection_failure_is_fatal (env : Env) (argv : list string) (w : World) :
  (2 <= List.length argv)%nat ->
  connectable w = false ->
  main env argv w = (Raise RuntimeError, w).
Proof.
  intros Hn Hc.
  destruct argv as [|prog [|mode rest]]; cbn [List.length] in Hn; try lia.
  unfold main. cbn [List.length Nat.ltb Nat.leb].
  unfold init, bind. rewrite Hc. reflexivity.
Qed.

Lemma X2_connection_failure_witness :
  main env0 ["employee_directory.py"; "1"] (mkWorld None false [] [] 0 0)
  = (Raise RuntimeError, mkWorld None false [] [] 0 0).
Proof.
  exact (X2_connection_failure_is_fatal env0 ["employee_directory.py"; "1"]
           (mkWorld None false [] [] 0 0) (le_n 2) eq_refl).
Defined.

Lemma eqb_other (a b : string) : a <> b -> String.eqb a b = false.
Proof. intros H. apply String.eqb_neq, H. Qed.

(** X3: a mode other than "1" ... "6" prints "Unknown mode: <mode>" and
    returns normally; the connection is opened and closed and no statement
    is sent, so the store is untouched. *)
Theorem X3_unknown_mode (env : Env) (prog mode : string) (rest : list string) (w : World) :
  ~ In mode ["1"; "2"; "3"; "4"; "5"; "6"] ->
  connectable w = true ->
  main env (prog :: mode :: rest) w =
  (Ok tt,
   set_journal (journal w ++ [EvConnect; EvClose])
     (set_stdout (stdout w ++ [Line ("Unknown mode: " ++ mode)]) w)).
Proof.
  intros Hm Hc. rewrite (main_connected _ _ _ _ _ Hc).
  erewrite try_finally_close.
  2:{ unfold dispatch. cbn [nth].
      rewrite !eqb_other by (intro E; apply Hm; rewrite E; cbn; tauto).
      apply print_eq. }
  destruct w as [db c j o r k]. world_fields. rewrite <- app_assoc. reflexivity.
Qed.

Lemma X3_unknown_mode_witness :
  main env0 ["employee_directory.py"; "7"] created =
  (Ok tt,
   set_journal (journal created ++ [EvConnect; EvClose])
     (set_stdout (stdout created ++ [Line "Unknown mode: 7"]) created)).
Proof.
  refine (X3_unknown_mode env0 "employee_directory.py" "7" [] created _ eq_refl).
  cbn [In]. intros [H|[H|[H|[H|[H|[H|[]]]]]]]; discriminate H.
Defined.

(* ================================================================== *)
(** ** What [strptime] accepts, and the sign of the age *)



Lemma str_length_app (a b : string) :
  String.length (a ++ b) = (String.length a + String.length b)%nat.
Proof. induction a as [|c a IH]; cbn; [reflexivity|rewrite IH; reflexivity]. Qed.

Lemma str_app_assoc (a b c : string) : (a ++ b) ++ c = a ++ (b ++ c).
Proof. induction a as [|x a IH]; cbn; [reflexivity|rewrite IH; reflexivity]. Qed.

Lemma consumes_weaken {A} (m : matcher A) (lo hi lo' hi' : nat) :
  (lo' <= lo)%nat -> (hi <= hi')%nat -> consumes m lo hi -> consumes m lo' hi'.
Proof.
  intros Hl Hh C s v r Hin. destruct (C s v r Hin) as (p & E & B).
  exists p. split; [exact E|lia].
Qed.

Lemma consumes_one (p : ascii -> bool) (val : ascii -> Z) : consumes (one p val) 1 1.
Proof.
  intros [|a s] v r Hin; cbn in Hin; [contradiction|].
  destruct (p a); [|contradiction].
  destruct Hin as [E|[]]. inversion E; subst.
  exists (String a ""). split; [reflexivity|cbn; lia].
Qed.

Lemma consumes_two (p1 p2 : ascii -> bool) (val : ascii -> ascii -> Z) :
  consumes (two p1 p2 val) 2 2.
Proof.
  intros [|a [|b s]] v r Hin; cbn in Hin; try contradiction.
  destruct (p1 a && p2 b); [|contradiction].
  destruct Hin as [E|[]]. inversion E; subst.
  exists (String a (String b "")). split; [reflexivity|cbn; lia].
Qed.

Lemma consumes_lit (c : ascii) : consumes (lit c) 1 1.
Proof.
  intros [|a s] v r Hin; cbn in Hin; [contradiction|].
  destruct (Ascii.eqb a c); [|contradiction].
  destruct Hin as [E|[]]. inversion E; subst.
  exists (String a ""). split; [reflexivity|cbn; lia].
Qed.

Lemma consumes_re_Y : consumes re_Y 4 4.
Proof.
  intros [|a [|b [|c [|d s]]]] v r Hin; cbn in Hin; try contradiction.
  destruct (is_digit a && is_digit b && is_digit c && is_digit d); [|contradiction].
  destruct Hin as [E|[]]. inversion E; subst.
  exists (String a (String b (String c (String d "")))). split; [reflexivity|cbn; lia].
Qed.

Lemma consumes_alt {A} (ms : list (matcher A)) (lo hi : nat) :
  Forall (fun m => consumes m lo hi) ms -> consumes (alt ms) lo hi.
Proof.
  intros F s v r Hin. unfold alt in Hin. apply in_flat_map in Hin.
  destruct Hin as (m & Hm & Hin). rewrite Forall_forall in F.
  exact (F m Hm s v r Hin).
Qed.

Lemma consumes_seq {A B} (m : matcher A) (k : A -> matcher B) (lo1 hi1 lo2 hi2 : nat) :
  consumes m lo1 hi1 -> (forall a, consumes (k a) lo2 hi2) ->
  consumes (seq_m m k) (lo1 + lo2) (hi1 + hi2).
Proof.
  intros Cm Ck s v r Hin. unfold seq_m in Hin. apply in_flat_map in Hin.
  destruct Hin as ([a r1] & H1 & H2).
  destruct (Cm s a r1 H1) as (p1 & E1 & B1).
  destruct (Ck a r1 v r H2) as (p2 & E2 & B2).
  exists (p1 ++ p2). split.
  - rewrite E1, E2. symmetry. apply str_app_assoc.
  - rewrite str_length_app. lia.
Qed.

Lemma consumes_re_m : consumes re_m 1 2.
Proof.
  apply consumes_alt. repeat constructor;
    first [ apply (consumes_weaken _ 2 2); [lia|lia|apply consumes_two]
          | apply (consumes_weaken _ 1 1); [lia|lia|apply consumes_one] ].
Qed.

Lemma consumes_re_d : consumes re_d 1 2.
Proof.
  apply consumes_alt. repeat constructor;
    first [ apply (consumes_weaken _ 2 2); [lia|lia|apply consumes_two]
          | apply (consumes_weaken _ 1 1); [lia|lia|apply consumes_one] ].
Qed.

Lemma consumes_re_Ymd : consumes re_Ymd 8 10.
Proof.
  unfold re_Ymd.
  apply (consumes_seq _ _ 4 4 4 6); [apply consumes_re_Y|intros y].
  apply (consumes_seq _ _ 1 1 3 5); [apply consumes_lit|intros _].
  apply (consumes_seq _ _ 1 2 2 3); [apply consumes_re_m|intros m].
  apply (consumes_seq _ _ 1 1 1 2); [apply consumes_lit|intros _].
  apply (consumes_weaken _ (1 + 0) (2 + 0)); [lia|lia|].
  apply consumes_seq; [apply consumes_re_d|intros d].
  intros s v r [E|[]]. inversion E; subst. exists "". split; [reflexivity|cbn; lia].
Qed.



Lemma parsed_date_shape (s : string) (d : date) :
  strptime_date s = Some d ->
  (8 <= String.length s <= 10)%nat /\
  1 <= year d <= 9999 /\ 1 <= month d <= 12 /\
  1 <= day d <= days_in_month (year d) (month d).
Proof.
  unfold strptime_date. intros H.
  destruct (re_Ymd s) as [|[[[y m] dd] r] l] eqn:E; [discriminate|].
  destruct r; [|discriminate].
  destruct (valid_date y m dd) eqn:V; [|discriminate].
  injection H as <-. cbn [year month day].
  split.
  - destruct (consumes_re_Ymd s (y, m, dd) "") as (p & Ep & B).
    { rewrite E. left. reflexivity. }
    rewrite Ep, str_length_app. cbn [String.length]. lia.
  - unfold valid_date in V. rewrite !andb_true_iff, !Z.leb_le in V. lia.
Qed.

(** X13: when [calculate_age] returns for an employee whose birth date is
    ASCII text, that text has 8 to 10 characters (the month and the day may
    be written with one digit or two, the year with four) and names a date
    of the calendar: year 1 to 9999, month 1 to 12, day 1 to the length of
    that month. *)
Theorem X13_parsed_dates_are_calendar_dates (t : date) (e : Employee) (age : Z) :
  ascii_only (birth_date e) = true ->
  calculate_age t e = Ok age ->
  (8 <= String.length (birth_date e) <= 10)%nat /\
  exists d,
    strptime_date (birth_date e) = Some d /\
    1 <= year d <= 9999 /\ 1 <= month d <= 12 /\
    1 <= day d <= days_in_month (year d) (month d).
Proof.
  intros _ H. unfold calculate_age in H.
  destruct (strptime_date (birth_date e)) as [d|] eqn:P; [|discriminate].
  destruct (parsed_date_shape _ d P) as (L & B).
  split; [exact L|]. exists d. split; [reflexivity|exact B].
Qed.

Lemma X13_parsed_dates_witness :
  (8 <= String.length "2000-2-29" <= 10)%nat /\
  exists d,
    strptime_date "2000-2-29" = Some d /\
    1 <= year d <= 9999 /\ 1 <= month d <= 12 /\
    1 <= day d <= days_in_month (year d) (month d).
Proof.
  exact (X13_parsed_dates_are_calendar_dates (mkDate 2024 6 15)
           (mkEmployee "Ford Henry A." "2000-2-29" "Male") 24 eq_refl eq_refl).
Defined.

(** X14: the age is not checked against the future.  For a parsed birth
    date it is non-negative exactly when the birth date is not after today,
    and negative otherwise. *)
Theorem X14_age_sign (t b : date) (e : Employee) :
  strptime_date (birth_date e) = Some b ->
  exists age,
    calculate_age t e = Ok age /\
    (0 <= age <-> date_le b t) /\
    (age < 0 <-> date_lt t b).
Proof.
  intros P. eexists. split; [apply (calculate_age_parsed t b e P)|].
  unfold date_lt, date_le.
  destruct (tuple_lt (month t, day t) (month b, day b)) eqn:E.
  - apply tuple_lt_spec in E; cbn [fst snd] in E. lia.
  - assert (N : ~ (month t < month b \/ (month t = month b /\ day t < day b))).
    { intro H. apply (tuple_lt_spec (month t, day t) (month b, day b)) in H. congruence. }
    lia.
Qed.

Lemma X14_age_sign_witness :
  exists age,
    calculate_age (mkDate 2024 6 15) (mkEmployee "Ford Henry A." "2024-06-16" "Male")
      = Ok age /\
    (0 <= age <-> date_le (mkDate 2024 6 16) (mkDate 2024 6 15)) /\
    (age < 0 <-> date_lt (mkDate 2024 6 15) (mkDate 2024 6 16)).
Proof.
  exact (X14_age_sign (mkDate 2024 6 15) (mkDate 2024 6 16)
           (mkEmployee "Ford Henry A." "2024-06-16" "Male") eq_refl).
Defined.

Example age_of_tomorrows_child :
  calculate_age (mkDate 2024 6 15) (mkEmployee "Ford Henry A." "2024-06-16" "Male")
  = Ok (-1).
Proof. reflexivity. Qed.

(* ================================================================== *)
(** ** Rows and ids under INSERT *)

Lemma insert_rows_rows (es : list Employee) (t : Table) :
  rows (insert_rows es t) = (rows t ++ numbered (last_id t) es)%list.
Proof.
  revert t. induction es as [|e es IH]; intros t; cbn [insert_rows fold_left numbered].
  - rewrite app_nil_r. reflexivity.
  - fold (insert_rows es (insert_row e t)). rewrite IH.
    unfold insert_row; cbn [rows last_id]. rewrite <- app_assoc. reflexivity.
Qed.

Lemma insert_rows_last_id (es : list Employee) (t : Table) :
  last_id (insert_rows es t) = last_id t + Z.of_nat (List.length es).
Proof.
  revert t. induction es as [|e es IH]; intros t; cbn [insert_rows fold_left List.length].
  - lia.
  - fold (insert_rows es (insert_row e t)). rewrite IH.
    unfold insert_row; cbn [last_id]. lia.
Qed.

Lemma numbered_fields (l : Z) (es : list Employee) : map fields (numbered l es) = es.
Proof.
  revert l. induction es as [|e es IH]; intros l; cbn; [reflexivity|].
  rewrite IH. reflexivity.
Qed.

Lemma numbered_ids (l : Z) (es : list Employee) :
  map id (numbered l es) = zrange (l + 1) (List.length es).
Proof.
  revert l. induction es as [|e es IH]; intros l; [reflexivity|].
  cbn [numbered map List.length id]. rewrite IH.
  unfold zrange. cbn [seq map]. f_equal; [lia|].
  rewrite <- seq_shift, map_map. apply map_ext. intros i. lia.
Qed.

Lemma numbered_bounds (l : Z) (es : list Employee) :
  Forall (fun r => l + 1 <= id r <= l + Z.of_nat (List.length es)) (numbered l es).
Proof.
  revert l. induction es as [|e es IH]; intros l; cbn [numbered List.length]; constructor.
  - cbn [id]. lia.
  - eapply Forall_impl; [|apply IH]. cbn beta. intros r Hr. lia.
Qed.

Lemma numbered_sorted (l : Z) (es : list Employee) :
  StronglySorted Z.lt (map id (numbered l es)).
Proof.
  revert l. induction es as [|e es IH]; intros l; cbn [numbered map]; constructor.
  - apply IH.
  - apply Forall_map. eapply Forall_impl; [|apply numbered_bounds].
    cbn [id]. intros r Hr. lia.
Qed.

(** X12: on an existing table a batch insert succeeds and appends one row
    per record, in order, with the consecutive ids that follow the last id
    handed out; the old rows and the index are untouched, the statement is
    committed once and one "Added n employees in batch." line is printed.
    An empty batch therefore changes no row. *)
Theorem X12_batch_insert_appends_numbered_rows
        (env : Env) (es : list Employee) (w : World) (t : Table) :
  employees w = Some t ->
  exists w' t' new,
    batch_add_employees env es w = (Ok tt, w') /\
    employees w' = Some t' /\
    rows t' = (rows t ++ new)%list /\
    map fields new = es /\
    map id new = zrange (last_id t + 1) (List.length es) /\
    last_id t' = last_id t + Z.of_nat (List.length es) /\
    idx_gender_lastname t' = idx_gender_lastname t /\
    journal w' =
      (journal w ++ [EvExecute (InsertMany es) (idx_gender_lastname t); EvCommit])%list /\
    stdout w' = (stdout w ++ [added_line_of_size (Z.of_nat (List.length es))])%list.
Proof.
  intros Ht.
  destruct (batch_add_employees_spec env es w t Ht) as (w' & E & F & _).
  destruct F as ((t0 & Ht0 & Ht') & J & O & _).
  rewrite Ht in Ht0. injection Ht0 as <-.
  cbn [List.concat] in Ht'. rewrite app_nil_r in Ht'.
  exists w', (insert_rows es t), (numbered (last_id t) es).
  split; [exact E|]. split; [exact Ht'|].
  split; [apply insert_rows_rows|]. split; [apply numbered_fields|].
  split; [apply numbered_ids|]. split; [apply insert_rows_last_id|].
  split; [apply insert_rows_idx|].
  split; [rewrite J, Ht; reflexivity|exact O].
Qed.

Lemma X12_batch_insert_witness :
  exists w' t' new,
    batch_add_employees env0
      [mkEmployee "Wilson Mary A." "1990-01-02" "Female";
       mkEmployee "Brown John B." "1985-07-30" "Male"]
      (mkWorld (Some (mkTable [mkRow 1 ford] 1 true)) true [] [] 0 0) = (Ok tt, w') /\
    employees w' = Some t' /\
    rows t' = ([mkRow 1 ford] ++ new)%list /\
    map fields new = [mkEmployee "Wilson Mary A." "1990-01-02" "Female";
                      mkEmployee "Brown John B." "1985-07-30" "Male"] /\
    map id new = [2; 3] /\
    last_id t' = 3 /\
    idx_gender_lastname t' = true /\
    journal w' =
      ([] ++ [EvExecute (InsertMany [mkEmployee "Wilson Mary A." "1990-01-02" "Female";
                                     mkEmployee "Brown John B." "1985-07-30" "Male"]) true;
              EvCommit])%list /\
    stdout w' = ([] ++ [Line "Added 2 employees in batch."])%list.
Proof.
  exact (X12_batch_insert_appends_numbered_rows env0
           [mkEmployee "Wilson Mary A." "1990-01-02" "Female";
            mkEmployee "Brown John B." "1985-07-30" "Male"]
           (mkWorld (Some (mkTable [mkRow 1 ford] 1 true)) true [] [] 0 0)
           (mkTable [mkRow 1 ford] 1 true) eq_refl).
Defined.

Example batch_insert_of_nothing :
  batch_add_employees env0 [] created =
  (Ok tt,
   mkWorld (Some (mkTable [] 0 false)) true
           (journal created ++ [EvExecute (InsertMany []) false; EvCommit])
           (stdout created ++ [Line "Added 0 employees in batch."]) 0 0).
Proof. reflexivity. Qed.

(* ================================================================== *)
(** ** What every run keeps *)

Lemma cursor_execute_employees (env : Env) (q : sql) (w : World) :
  employees (snd (cursor_execute env q w)) = snd (run_sql env q (employees w)).
Proof.
  unfold cursor_execute. destruct (run_sql env q (employees w)). reflexivity.
Qed.

Create HintDb keeps.

Section Keeps.

Variable env : Env.

(** A relation between stores that is reflexive and transitive and holds
    across every single statement holds across every run. *)
Variable Rel : option Table -> option Table -> Prop.
Hypothesis Rel_refl : forall db, Rel db db.
Hypothesis Rel_trans : forall a b c, Rel a b -> Rel b c -> Rel a c.
Hypothesis Rel_sql : forall q db, Rel db (snd (run_sql env q db)).

Let R (w w' : World) : Prop := Rel (employees w) (employees w').

Lemma keeps_ret {A} (a : A) : keeps R (ret a).
Proof. intros w. apply Rel_refl. Qed.

Lemma keeps_raise {A} (e : exn) : keeps R (@raise A e).
Proof. intros w. apply Rel_refl. Qed.

Lemma keeps_bind {A B} (m : M A) (k : A -> M B) :
  keeps R m -> (forall a, keeps R (k a)) -> keeps R (bind m k).
Proof.
  intros Hm Hk w. unfold bind. specialize (Hm w).
  destruct (m w) as [[a|e] w1]; cbn [snd] in Hm; [|exact Hm].
  eapply Rel_trans; [exact Hm|apply Hk].
Qed.

Lemma keeps_print (o : out) : keeps R (print o).
Proof. intros w. apply Rel_refl. Qed.

Lemma keeps_record (e : event) : keeps R (record e).
Proof. intros w. apply Rel_refl. Qed.

Lemma keeps_time_time : keeps R (time_time env).
Proof. intros w. apply Rel_refl. Qed.

Lemma keeps_randbelow (n : nat) : keeps R (randbelow env n).
Proof. intros w. apply Rel_refl. Qed.

Lemma keeps_cursor_execute (q : sql) : keeps R (cursor_execute env q).
Proof. intros w. unfold R. rewrite cursor_execute_employees. apply Rel_sql. Qed.

#[local] Hint Resolve keeps_ret keeps_raise keeps_print keeps_record keeps_time_time
     keeps_randbelow keeps_cursor_execute : keeps.

Ltac keeps_steps :=
  repeat first [ apply keeps_bind; [|intros ?] | solve [auto with keeps] ].

Lemma keeps_batch_add_employees (es : list Employee) : keeps R (batch_add_employees env es).
Proof. unfold batch_add_employees, conn_commit. keeps_steps. Qed.

Lemma keeps_random_birth_date : keeps R (random_birth_date env).
Proof. unfold random_birth_date, randint. keeps_steps. Qed.

#[local] Hint Resolve keeps_batch_add_employees keeps_random_birth_date : keeps.

Lemma keeps_random_employee : keeps R (random_employee env).
Proof.
  unfold random_employee, choice. apply keeps_bind; [keeps_steps|intros g].
  apply keeps_bind; [destruct (String.eqb g "Male"); keeps_steps|intros f].
  keeps_steps.
Qed.

Lemma keeps_random_f_employee : keeps R (random_f_employee env).
Proof. unfold random_f_employee, choice. keeps_steps. Qed.

Lemma keeps_main_loop (n : nat) : forall buf, keeps R (main_loop env n buf).
Proof.
  induction n as [|n IH]; intros buf; cbn [main_loop]; [auto with keeps|].
  apply keeps_bind; [apply keeps_random_employee|intros e].
  destruct (10000 <=? _); [|apply IH].
  apply keeps_bind; [auto with keeps|intros _; apply IH].
Qed.

Lemma keeps_f_loop (n : nat) : forall acc, keeps R (f_loop env n acc).
Proof.
  induction n as [|n IH]; intros acc; cbn [f_loop]; [auto with keeps|].
  apply keeps_bind; [apply keeps_random_f_employee|intros e; apply IH].
Qed.

Lemma keeps_generate_random_employees (count : Z) :
  keeps R (generate_random_employees env count).
Proof.
  unfold generate_random_employees.
  apply keeps_bind; [apply keeps_main_loop|intros buf].
  apply keeps_bind; [destruct buf; auto with keeps|intros _].
  apply keeps_bind; [apply keeps_f_loop|intros fs].
  keeps_steps.
Qed.

Lemma keeps_print_rows (l : list Employee) : keeps R (print_rows env l).
Proof.
  induction l as [|row l IH]; cbn [print_rows]; [auto with keeps|].
  destruct (calculate_age _ _); keeps_steps.
Qed.

Lemma keeps_search_male_f_lastname : keeps R (search_male_f_lastname env).
Proof. unfold search_male_f_lastname. keeps_steps. Qed.

Lemma keeps_dispatch (argv : list string) : keeps R (dispatch env argv).
Proof.
  unfold dispatch.
  destruct (String.eqb _ "1"); [unfold create_table, conn_commit; keeps_steps|].
  destruct (String.eqb _ "2").
  { destruct (_ <? 5)%nat; [auto with keeps|].
    unfold add_employee, save_to_db, conn_commit. keeps_steps. }
  destruct (String.eqb _ "3").
  { unfold get_all_unique_employees. apply keeps_bind; [auto with keeps|intros l].
    apply keeps_print_rows. }
  destruct (String.eqb _ "4"); [apply keeps_generate_random_employees|].
  destruct (String.eqb _ "5").
  { apply keeps_bind; [apply keeps_search_male_f_lastname|intros; auto with keeps]. }
  destruct (String.eqb _ "6"); [|auto with keeps].
  apply keeps_bind; [unfold optimize_database, conn_commit; keeps_steps|intros _].
  apply keeps_bind; [auto with keeps|intros _].
  apply keeps_bind; [auto with keeps|intros _].
  apply keeps_bind; [apply keeps_search_male_f_lastname|intros b].
  apply keeps_bind; [auto with keeps|intros _].
  apply keeps_bind; [apply keeps_search_male_f_lastname|intros a].
  unfold report_improvement. destruct (PrimFloat.eqb _ _); auto with keeps.
Qed.

Lemma keeps_print_all (os : list out) : keeps R (print_all os).
Proof. induction os as [|o os IH]; cbn [print_all]; keeps_steps. Qed.

Lemma keeps_main (argv : list string) : keeps R (main env argv).
Proof.
  unfold main. destruct (_ <? 2)%nat; [apply keeps_print_all|].
  apply keeps_bind.
  - intros w. unfold init. destruct (connectable w); apply Rel_refl.
  - intros _ w. unfold try_finally.
    pose proof (keeps_dispatch argv w) as D.
    destruct (dispatch env argv w) as [r w1]. cbn [snd] in D.
    unfold close, record. cbn. exact D.
Qed.

End Keeps.

(** *** The store only grows *)

Lemma extends_refl (db : option Table) : extends db db.
Proof.
  destruct db as [t|]; cbn; [|exact I].
  split; [exists []; rewrite app_nil_r; reflexivity|]. split; [lia|auto].
Qed.

Lemma extends_trans (a b c : option Table) : extends a b -> extends b c -> extends a c.
Proof.
  destruct a as [ta|]; [|intros; exact I].
  destruct b as [tb|]; [|intros []].
  destruct c as [tc|]; [|intros _ []].
  cbn. intros ((n1 & R1) & L1 & I1) ((n2 & R2) & L2 & I2).
  split; [exists (n1 ++ n2)%list; rewrite R2, R1, app_assoc; reflexivity|].
  split; [lia|auto].
Qed.

Lemma run_sql_extends (env : Env) (q : sql) (db : option Table) :
  extends db (snd (run_sql env q db)).
Proof.
  destruct db as [t|]; [|exact I].
  destruct q; cbn [run_sql snd]; try apply extends_refl.
  - destruct if_not_exists; apply extends_refl.
  - destruct (idx_gender_lastname t), if_not_exists; cbn [snd]; try apply extends_refl;
      cbn; (split; [exists []; rewrite app_nil_r; reflexivity|]); (split; [lia|auto]).
  - cbn. unfold insert_row; cbn [rows last_id idx_gender_lastname].
    split; [eexists; reflexivity|]. split; [lia|auto].
  - cbn. rewrite insert_rows_rows, insert_rows_last_id, insert_rows_idx.
    split; [eexists; reflexivity|]. split; [lia|auto].
Qed.

(** X4: no run of the program, whatever its arguments and however it
    ends, drops the table, removes or rewrites a stored row, takes the id
    counter back or drops the index: the rows before the run are the first
    rows after it. *)
Theorem X4_store_only_grows (env : Env) (argv : list string) (w : World) :
  extends (employees w) (employees (snd (main env argv w))).
Proof.
  exact (keeps_main env extends extends_refl extends_trans (run_sql_extends env) argv w).
Qed.

(** *** Ids stay unique *)

Lemma sorted_app_lt (l1 l2 : list Z) (b : Z) :
  StronglySorted Z.lt l1 -> StronglySorted Z.lt l2 ->
  Forall (fun x => x <= b) l1 -> Forall (fun y => b < y) l2 ->
  StronglySorted Z.lt (l1 ++ l2).
Proof.
  intros S1 S2 F1 F2. induction S1 as [|x l1 S1 IH Hx]; cbn [app]; [exact S2|].
  inversion F1 as [|? ? Hxb F1']; subst.
  constructor; [apply IH, F1'|].
  apply Forall_app. split; [exact Hx|].
  eapply Forall_impl; [|exact F2]. cbn beta. intros y Hy. lia.
Qed.

Lemma insert_rows_ids_ok (es : list Employee) (t : Table) :
  ids_ok (Some t) -> ids_ok (Some (insert_rows es t)).
Proof.
  cbn [ids_ok]. intros (S & F & L).
  rewrite insert_rows_rows, insert_rows_last_id, map_app.
  split; [|split; [|lia]].
  - apply (sorted_app_lt _ _ (last_id t)); [exact S|apply numbered_sorted| |].
    + apply Forall_map. eapply Forall_impl; [|exact F]. cbn beta. intros r Hr. lia.
    + apply Forall_map. eapply Forall_impl; [|apply numbered_bounds].
      cbn beta. intros r Hr. lia.
  - apply Forall_app. split.
    + eapply Forall_impl; [|exact F]. cbn beta. intros r Hr. lia.
    + eapply Forall_impl; [|apply numbered_bounds]. cbn beta. intros r Hr. lia.
Qed.

Lemma run_sql_ids_ok (env : Env) (q : sql) (db : option Table) :
  ids_ok db -> ids_ok (snd (run_sql env q db)).
Proof.
  intros H. destruct db as [t|].
  - destruct q; cbn [run_sql snd]; try exact H.
    + destruct if_not_exists; exact H.
    + destruct (idx_gender_lastname t), if_not_exists; exact H.
    + apply (insert_rows_ids_ok [e] t H).
    + apply insert_rows_ids_ok, H.
  - destruct q; cbn [run_sql snd]; try exact I.
    cbn. split; [constructor|]. split; [constructor|lia].
Qed.

Lemma sorted_lt_NoDup (l : list Z) : StronglySorted Z.lt l -> NoDup l.
Proof.
  induction 1 as [|x l S IH F]; constructor; [|exact IH].
  intro Hin. rewrite Forall_forall in F. specialize (F x Hin). lia.
Qed.

(** X5: ids stay well-formed across every run: if the stored ids are
    positive, strictly increasing in insertion order and bounded by the
    last id handed out, they still are afterwards, so no two rows ever
    share an id. *)
Theorem X5_ids_stay_unique (env : Env) (argv : list string) (w : World) :
  ids_ok (employees w) ->
  ids_ok (employees (snd (main env argv w))) /\
  (forall t', employees (snd (main env argv w)) = Some t' -> NoDup (map id (rows t'))).
Proof.
  intros H.
  assert (H' : ids_ok (employees (snd (main env argv w)))).
  { refine (keeps_main env (fun a b => ids_ok a -> ids_ok b) _ _ _ argv w H).
    - auto.
    - auto.
    - intros q db. apply run_sql_ids_ok. }
  split; [exact H'|].
  intros t' E. rewrite E in H'. destruct H' as (S & _). apply sorted_lt_NoDup, S.
Qed.

Lemma X5_ids_stay_unique_witness :
  ids_ok (employees (snd (main env0 ["employee_directory.py"; "4"] created))).
Proof.
  refine (proj1 (X5_ids_stay_unique env0 ["employee_directory.py"; "4"] created _)).
  cbn. split; [constructor|]. split; [constructor|lia].
Defined.

(* ================================================================== *)
(** ** Before the table exists *)

Lemma batch_add_employees_no_table (env : Env) (es : list Employee) (w : World) :
  employees w = None ->
  exists w', batch_add_employees env es w = (Raise OperationalError, w') /\
             failed_on (InsertMany es) w w'.
Proof.
  intros H. destruct w as [db c j o r k]. cbn in H. subst db.
  eexists. split; [reflexivity|]. repeat split.
Qed.

Lemma main_loop_no_table (env : Env) (n : nat) :
  forall (buf : list Employee) (w : World),
    employees w = None ->
    (exists buf' k, main_loop env n buf w = (Ok buf', set_rng_pos k w)) \/
    (exists es w', main_loop env n buf w = (Raise OperationalError, w') /\
                   failed_on (InsertMany es) w w').
Proof.
  induction n as [|n IH]; intros buf w H.
  - left. exists buf, (rng_pos w). destruct w; reflexivity.
  - cbn [main_loop].
    destruct (random_employee_spec env w) as (e & Ee & _).
    rewrite (bind_ok _ _ _ _ _ Ee).
    destruct (10000 <=? _).
    + right.
      destruct (batch_add_employees_no_table env (buf ++ [e])%list
                  (set_rng_pos (7 + rng_pos w) w) H) as (w' & E & F).
      rewrite (bind_raise _ _ _ _ _ E). exists (buf ++ [e])%list, w'.
      split; [reflexivity|exact F].
    + destruct (IH (buf ++ [e])%list (set_rng_pos (7 + rng_pos w) w) H)
        as [(buf' & k & E)|(es & w' & E & F)].
      * left. exists buf', k. rewrite E. reflexivity.
      * right. exists es, w'. split; [exact E|exact F].
Qed.

Lemma generate_no_table (env : Env) (count : Z) (w : World) :
  employees w = None ->
  exists es w', generate_random_employees env count w = (Raise OperationalError, w') /\
                failed_on (InsertMany es) w w'.
Proof.
  intros H. unfold generate_random_employees.
  destruct (main_loop_no_table env (Z.to_nat count) [] w H)
    as [(buf & k & E)|(es & w' & E & F)].
  2:{ rewrite (bind_raise _ _ _ _ _ E). exists es, w'. split; [reflexivity|exact F]. }
  rewrite (bind_ok _ _ _ _ _ E).
  destruct buf as [|e0 buf0].
  - rewrite (bind_ok _ _ _ _ _ (eq_refl : ret tt (set_rng_pos k w) = (Ok tt, _))).
    destruct (f_loop_spec env 100 [] (set_rng_pos k w)) as (fs & k' & E3 & _).
    rewrite (bind_ok _ _ _ _ _ E3). cbn [app].
    destruct (batch_add_employees_no_table env fs (set_rng_pos k' (set_rng_pos k w)) H)
      as (w' & E4 & F4).
    rewrite (bind_raise _ _ _ _ _ E4). exists fs, w'. split; [reflexivity|exact F4].
  - destruct (batch_add_employees_no_table env (e0 :: buf0) (set_rng_pos k w) H)
      as (w' & E2 & F2).
    rewrite (bind_raise _ _ _ _ _ E2). exists (e0 :: buf0), w'.
    split; [reflexivity|exact F2].
Qed.

Lemma dispatch_no_table (env : Env) (prog mode : string) (rest : list string) (w : World) :
  employees w = None ->
  In mode ["2"; "3"; "4"; "5"; "6"] ->
  (mode = "2" -> (3 <= List.length rest)%nat) ->
  exists q w', dispatch env (prog :: mode :: rest) w = (Raise OperationalError, w') /\
               failed_on q w w'.
Proof.
  intros H Hm Ha. cbn [In] in Hm.
  destruct Hm as [<-|[<-|[<-|[<-|[<-|[]]]]]];
    unfold dispatch; cbn [nth String.eqb Ascii.eqb Bool.eqb].
  - specialize (Ha eq_refl).
    replace (List.length (prog :: "2" :: rest) <? 5)%nat with false
      by (symmetry; apply Nat.ltb_ge; cbn [List.length]; lia).
    destruct w as [db c j o r k]. cbn in H. subst db.
    eexists _, _. split; [reflexivity|]. repeat split.
  - destruct w as [db c j o r k]. cbn in H. subst db.
    eexists _, _. split; [reflexivity|]. repeat split.
  - destruct (generate_no_table env 1000000 w H) as (es & w' & E & F).
    exists (InsertMany es), w'. split; [exact E|exact F].
  - destruct w as [db c j o r k]. cbn in H. subst db.
    eexists _, _. split; [reflexivity|]. repeat split.
  - destruct w as [db c j o r k]. cbn in H. subst db.
    eexists _, _. split; [reflexivity|]. repeat split.
Qed.

(** X6: on a store without the employees table, modes 2 (with its three
    arguments), 3, 4, 5 and 6 all end in OperationalError at their first
    statement: that one statement is journalled between the connect and the
    close, nothing is printed, and the table is still absent. *)
Theorem X6_modes_need_the_table
        (env : Env) (prog mode : string) (rest : list string) (w : World) :
  employees w = None ->
  connectable w = true ->
  In mode ["2"; "3"; "4"; "5"; "6"] ->
  (mode = "2" -> (3 <= List.length rest)%nat) ->
  exists q w',
    main env (prog :: mode :: rest) w = (Raise OperationalError, w') /\
    employees w' = None /\
    stdout w' = stdout w /\
    journal w' = (journal w ++ [EvConnect; EvExecute q false; EvClose])%list.
Proof.
  intros H Hc Hm Ha. rewrite (main_connected _ _ _ _ _ Hc).
  destruct (dispatch_no_table env prog mode rest (set_journal (journal w ++ [EvConnect]) w)
              H Hm Ha) as (q & w1 & E & He & _ & Ho & Hj).
  rewrite (try_finally_close _ _ _ _ E).
  exists q, (set_journal (journal w1 ++ [EvClose]) w1).
  split; [reflexivity|]. world_fields.
  split; [rewrite He; exact H|]. split; [exact Ho|].
  rewrite Hj. world_fields. rewrite <- !app_assoc. reflexivity.
Qed.

Lemma X6_modes_need_the_table_witness :
  exists q w',
    main env0 ["employee_directory.py"; "4"] fresh = (Raise OperationalError, w') /\
    employees w' = None /\
    stdout w' = [] /\
    journal w' = ([] ++ [EvConnect; EvExecute q false; EvClose])%list.
Proof.
  refine (X6_modes_need_the_table env0 "employee_directory.py" "4" [] fresh
            eq_refl eq_refl _ _).
  - cbn [In]. tauto.
  - intros H. discriminate H.
Defined.

(* ================================================================== *)
(** ** Insert, then list or search *)

(** X7: an employee added under a (name, birth date) pair that no stored
    row has is listed afterwards exactly as given, gender included; the
    listing is one row longer than before, and every other listed record is
    one of the rows stored before. *)
Theorem X7_added_employee_is_listed
        (env : Env) (n b g : string) (w : World) (t : Table) :
  employees w = Some t ->
  ~ In (n, b) (map key (rows t)) ->
  exists w1 w2 listed,
    add_employee env n b g w = (Ok tt, w1) /\
    cursor_execute env SelectGrouped w1 = (Ok listed, w2) /\
    In (mkEmployee n b g) listed /\
    List.length listed = S (List.length (select_grouped env t)) /\
    (forall e, In e listed ->
               e = mkEmployee n b g \/ exists r, In r (rows t) /\ fields r = e).
Proof.
  intros Ht Hnew. rewrite (add_employee_eq env n b g w t Ht).
  set (e0 := mkEmployee n b g). set (r0 := mkRow (last_id t + 1) e0).
  assert (Hrows : rows (insert_row e0 t) = (rows t ++ [r0])%list) by reflexivity.
  eexists _, _, (select_grouped env (insert_row e0 t)).
  split; [reflexivity|]. split.
  { destruct w as [db c j o r k]. reflexivity. }
  split; [|split].
  - destruct (select_grouped_complete env (insert_row e0 t) r0) as (r' & Hin & K & Hsel).
    { rewrite Hrows. apply in_or_app. right. left. reflexivity. }
    rewrite Hrows in Hin. apply in_app_or in Hin.
    destruct Hin as [Hold|[<-|[]]]; [|exact Hsel].
    exfalso. apply Hnew. change (n, b) with (key r0). rewrite <- K.
    apply in_map, Hold.
  - rewrite !select_grouped_length, Hrows, group_by_snoc.
    apply group_insert_length_new. rewrite group_by_keys. exact Hnew.
  - intros e He. destruct (select_grouped_sound env _ e He) as (r & Hr & <-).
    rewrite Hrows in Hr. apply in_app_or in Hr.
    destruct Hr as [Hold|[<-|[]]]; [right; exists r; split; [exact Hold|reflexivity]|].
    left. reflexivity.
Qed.

Lemma X7_added_employee_witness :
  exists w1 w2 listed,
    add_employee env0 "Ford Henry A." "1980-05-15" "Male" created = (Ok tt, w1) /\
    cursor_execute env0 SelectGrouped w1 = (Ok listed, w2) /\
    In (mkEmployee "Ford Henry A." "1980-05-15" "Male") listed /\
    List.length listed = 1%nat /\
    (forall e, In e listed ->
               e = mkEmployee "Ford Henry A." "1980-05-15" "Male" \/
               exists r, In r [] /\ fields r = e).
Proof.
  exact (X7_added_employee_is_listed env0 "Ford Henry A." "1980-05-15" "Male" created
           (mkTable [] 0 false) eq_refl (fun H : False => H)).
Defined.

Lemma select_male_f_insert_rows (es : list Employee) (t : Table) :
  select_male_f (insert_rows es t) = (select_male_f t ++ filter male_f es)%list.
Proof. unfold select_male_f. rewrite insert_rows_fields, filter_app. reflexivity. Qed.

Lemma generated_main_not_male_f (e : Employee) : generated_main e -> male_f e = false.
Proof.
  intros (last & first & mid & Hl & _ & _ & En & _).
  unfold male_f. rewrite En. apply andb_false_iff. right.
  unfold last_names in Hl. cbn [In] in Hl.
  repeat (destruct Hl as [Hl|Hl]; [rewrite <- Hl; reflexivity|]).
  destruct Hl.
Qed.

Lemma generated_f_male_f (e : Employee) : generated_f e -> male_f e = true.
Proof.
  intros (suffix & first & mid & _ & _ & _ & En & Eg & _).
  unfold male_f. rewrite En, Eg. reflexivity.
Qed.

Lemma filter_male_f (gen fs : list Employee) :
  Forall generated_main gen -> Forall generated_f fs ->
  filter male_f (gen ++ fs) = fs.
Proof.
  intros G F. rewrite filter_app.
  replace (filter male_f gen) with (@nil Employee).
  - cbn [app]. induction F as [|e fs He F IH]; [reflexivity|].
    cbn [filter]. rewrite (generated_f_male_f e He), IH. reflexivity.
  - induction G as [|e gen He G IH]; [reflexivity|].
    cbn [filter]. rewrite (generated_main_not_male_f e He). exact IH.
Qed.

(** X8: each generation run on an existing table raises the result of the
    search by exactly 100, whatever the count and the random draws: the
    search run next succeeds, reports 100 more matches than the table held
    before, and leaves the table as generation left it. *)
Theorem X8_search_after_generation (env : Env) (count : Z) (w : World) (t : Table) :
  employees w = Some t ->
  exists w1 t1 w2,
    generate_random_employees env count w = (Ok tt, w1) /\
    employees w1 = Some t1 /\
    List.length (select_male_f t1) = (List.length (select_male_f t) + 100)%nat /\
    search_male_f_lastname env w1 =
      (Ok (clock env (S (clock_pos w)) - clock env (clock_pos w))%float, w2) /\
    employees w2 = Some t1 /\
    stdout w2 =
      (stdout w1 ++
       [Line ("Found " ++ str (Z.of_nat (List.length (select_male_f t) + 100)) ++
              " male employees with last names starting with 'F'");
        LineExecutionTime
          (clock env (S (clock_pos w)) - clock env (clock_pos w))%float])%list.
Proof.
  intros Ht.
  destruct (generate_spec env count w t Ht)
    as (gen & fs & bs & w1 & E & _ & Gg & _ & _ & Lf & Gf & Hs & _ & _ & _ & K & _).
  assert (L : List.length (select_male_f (insert_rows (gen ++ fs) t))
              = (List.length (select_male_f t) + 100)%nat).
  { rewrite select_male_f_insert_rows, length_app, (filter_male_f gen fs Gg Gf), Lf.
    reflexivity. }
  pose proof (search_male_f_lastname_eq env w1 _ Hs) as Q. rewrite K in Q.
  eexists w1, _, _. split; [exact E|]. split; [exact Hs|]. split; [exact L|].
  split; [exact Q|]. world_fields. split; [exact Hs|].
  unfold found_line. rewrite L. reflexivity.
Qed.

Lemma X8_search_after_generation_witness :
  exists w1 t1,
    generate_random_employees env0 3 created = (Ok tt, w1) /\
    employees w1 = Some t1 /\
    List.length (select_male_f t1) = 100%nat.
Proof.
  destruct (X8_search_after_generation env0 3 created (mkTable [] 0 false) eq_refl)
    as (w1 & t1 & w2 & E & T & L & _).
  exists w1, t1. split; [exact E|]. split; [exact T|exact L].
Defined.

(* ================================================================== *)
(** ** The listing and a malformed birth date *)

Lemma print_rows_stops (env : Env) (l1 l2 : list Employee) (e : Employee) :
  forall w,
    Forall (fun x => exists b, strptime_date (birth_date x) = Some b) l1 ->
    strptime_date (birth_date e) = None ->
    print_rows env (l1 ++ e :: l2) w =
    (Raise ValueError, set_stdout (stdout w ++ listing_lines env l1) w).
Proof.
  induction l1 as [|row l1 IH]; intros w F N.
  - cbn [app print_rows listing_lines map].
    assert (E : calculate_age (today env)
                  (mkEmployee (full_name e) (birth_date e) (gender e))
                = Raise ValueError).
    { unfold calculate_age. cbn [birth_date]. rewrite N. reflexivity. }
    rewrite E. rewrite app_nil_r. destruct w as [db c j o r k]. reflexivity.
  - inversion F as [|? ? (b & Hb) F']; subst.
    cbn [app print_rows listing_lines map].
    assert (E : calculate_age (today env)
                  (mkEmployee (full_name row) (birth_date row) (gender row))
                = calculate_age (today env) row) by reflexivity.
    rewrite E, !(calculate_age_parsed (today env) b row Hb).
    rewrite (bind_ok _ _ _ _ _ (print_eq _ _)), (IH _ F' N).
    destruct w as [db c j o r k]; world_fields. rewrite <- app_assoc. reflexivity.
Qed.

(** X10: the listing stops at the first listed row whose birth date, an
    ASCII text, does not parse: the rows before it have been printed,
    nothing after it is, the call ends in ValueError and the table is
    unchanged. *)
Theorem X10_listing_stops_at_malformed_date
        (env : Env) (w : World) (t : Table) (l1 l2 : list Employee) (e : Employee) :
  employees w = Some t ->
  select_grouped env t = (l1 ++ e :: l2)%list ->
  Forall (fun x => exists b, strptime_date (birth_date x) = Some b) l1 ->
  ascii_only (birth_date e) = true ->
  strptime_date (birth_date e) = None ->
  get_all_unique_employees env w =
  (Raise ValueError,
   set_stdout (stdout w ++ listing_lines env l1)
     (set_journal (journal w ++ [EvExecute SelectGrouped (idx_gender_lastname t)]) w)).
Proof.
  intros Ht Hs F _ N. unfold get_all_unique_employees.
  assert (E : cursor_execute env SelectGrouped w =
              (Ok (select_grouped env t),
               set_journal (journal w ++ [EvExecute SelectGrouped (idx_gender_lastname t)]) w)).
  { destruct w as [db c j o r k]. cbn in Ht. subst db. reflexivity. }
  rewrite (bind_ok _ _ _ _ _ E), Hs. exact (print_rows_stops env l1 l2 e _ F N).
Qed.

Lemma X10_listing_stops_witness :
  get_all_unique_employees env0
    (mkWorld (Some table_with_bad_date) true [] [] 0 0) =
  (Raise ValueError,
   mkWorld (Some table_with_bad_date) true [EvExecute SelectGrouped false]
           [Line "Name: Abel Mary A., Birth Date: 1990-01-02, Gender: Female, Age: 36"]
           0 0).
Proof.
  refine (X10_listing_stops_at_malformed_date env0
            (mkWorld (Some table_with_bad_date) true [] [] 0 0) table_with_bad_date
            [mkEmployee "Abel Mary A." "1990-01-02" "Female"] []
            (mkEmployee "Adams John B." "15.05.1980" "Male") eq_refl eq_refl _ eq_refl eq_refl).
  constructor; [|constructor]. exists (mkDate 1990 1 2). reflexivity.
Defined.

(* ================================================================== *)
(** ** What generation prints *)

(** X15: on an existing table generation prints one
    "Added k employees in batch." line per batch, with k the batch sizes
    (10,000 as often as it fits, the remainder if any, then 100), followed
    by "Finished generating random employees." and nothing else. *)
Theorem X15_generation_output (env : Env) (count : Z) (w : World) (t : Table) :
  employees w = Some t ->
  exists w',
    generate_random_employees env count w = (Ok tt, w') /\
    stdout w' =
      (stdout w ++
       map added_line_of_size (batch_sizes (Z.max 0 count) ++ [100]) ++
       [Line "Finished generating random employees."])%list.
Proof.
  intros Ht.
  destruct (generate_spec env count w t Ht)
    as (gen & fs & bs & w' & E & _ & _ & _ & S & Lf & _ & _ & _ & O & _).
  exists w'. split; [exact E|]. rewrite O.
  assert (A : map added_line (bs ++ [fs])
              = map added_line_of_size (batch_sizes (Z.max 0 count) ++ [100])).
  { rewrite <- S. unfold sizes. rewrite !map_app, map_map. cbn [map].
    unfold added_line at 2. rewrite Lf. reflexivity. }
  rewrite A. reflexivity.
Qed.

Lemma X15_generation_output_witness :
  exists w',
    generate_random_employees env0 20000 created = (Ok tt, w') /\
    stdout w' =
      (stdout created ++
       [Line "Added 10000 employees in batch."; Line "Added 10000 employees in batch.";
        Line "Added 100 employees in batch."] ++
       [Line "Finished generating random employees."])%list.
Proof.
  exact (X15_generation_output env0 20000 created (mkTable [] 0 false) eq_refl).
Defined.

(* ================================================================== *)
(** ** Mode 1, and listings over stored rows *)

(** X9: mode 1 sends CREATE TABLE IF NOT EXISTS and always reports
    "Table 'employees' created successfully.", also when the table was
    there already: an existing table is kept as it is with its rows, an
    absent one is created empty, without index and with the id counter
    at 0. *)
Theorem X9_mode1_creates_or_keeps (env : Env) (prog : string) (rest : list string) (w : World) :
  connectable w = true ->
  main env (prog :: "1" :: rest) w =
  (Ok tt,
   set_journal (journal w ++ [EvConnect; EvExecute (CreateTable true) (has_index (employees w));
                              EvCommit; EvClose])
     (set_stdout (stdout w ++ [Line "Table 'employees' created successfully."])
        (set_employees (Some (match employees w with
                              | Some t => t
                              | None => mkTable [] 0 false
                              end)) w))).
Proof.
  intros Hc. rewrite (main_connected _ _ _ _ _ Hc).
  erewrite try_finally_close;
    [|unfold dispatch; cbn [nth String.eqb Ascii.eqb Bool.eqb]; apply create_table_eq].
  destruct w as [db c j o r k]. world_fields. rewrite <- !app_assoc. reflexivity.
Qed.

Lemma X9_mode1_witness :
  main env0 ["employee_directory.py"; "1"] created =
  (Ok tt,
   set_journal (journal created ++ [EvConnect; EvExecute (CreateTable true) false;
                                    EvCommit; EvClose])
     (set_stdout (stdout created ++ [Line "Table 'employees' created successfully."])
        (set_employees (Some (mkTable [] 0 false)) created))).
Proof.
  exact (X9_mode1_creates_or_keeps env0 "employee_directory.py" [] created eq_refl).
Defined.

Lemma print_rows_employees (env : Env) (l : list Employee) :
  forall w, employees (snd (print_rows env l w)) = employees w.
Proof.
  induction l as [|row l IH]; intros w; cbn [print_rows]; [reflexivity|].
  destruct (calculate_age _ _) as [age|ex]; [|reflexivity].
  rewrite (bind_ok _ _ _ _ _ (print_eq _ _)), IH. reflexivity.
Qed.

Lemma print_rows_raises (env : Env) (l : list Employee) :
  forall w,
    Exists (fun e => strptime_date (birth_date e) = None) l ->
    fst (print_rows env l w) = Raise ValueError.
Proof.
  induction l as [|row l IH]; intros w X; [inversion X|].
  cbn [print_rows]. unfold calculate_age at 1. cbn [birth_date].
  destruct (strptime_date (birth_date row)) as [b|] eqn:P; [|reflexivity].
  rewrite (bind_ok _ _ _ _ _ (print_eq _ _)). apply IH.
  inversion X as [? ? H|? ? H]; subst; [congruence|exact H].
Qed.

(** X11: birth dates are stored unchecked, and one stored row whose birth
    date is an ASCII text that does not parse makes every listing fail:
    mode 3 ends in ValueError (after the close), with the table unchanged. *)
Theorem X11_malformed_row_breaks_listing
        (env : Env) (prog : string) (rest : list string) (w : World) (t : Table) (r : Row) :
  connectable w = true ->
  employees w = Some t ->
  In r (rows t) ->
  ascii_only (birth_date (fields r)) = true ->
  strptime_date (birth_date (fields r)) = None ->
  fst (main env (prog :: "3" :: rest) w) = Raise ValueError /\
  employees (snd (main env (prog :: "3" :: rest) w)) = Some t.
Proof.
  intros Hc Ht Hr _ N. rewrite (main_connected _ _ _ _ _ Hc).
  set (w0 := set_journal (journal w ++ [EvConnect]) w).
  assert (E : cursor_execute env SelectGrouped w0 =
              (Ok (select_grouped env t),
               set_journal (journal w0 ++ [EvExecute SelectGrouped (idx_gender_lastname t)]) w0)).
  { subst w0. destruct w as [db c j o k1 k2]. cbn in Ht. subst db. reflexivity. }
  assert (X : Exists (fun e => strptime_date (birth_date e) = None) (select_grouped env t)).
  { destruct (select_grouped_complete env t r Hr) as (r' & _ & K & Hsel).
    apply Exists_exists. exists (fields r'). split; [exact Hsel|].
    unfold key in K. injection K as _ K. rewrite K. exact N. }
  destruct (dispatch env (prog :: "3" :: rest) w0) as [res w1] eqn:D.
  rewrite (try_finally_close _ _ _ _ D). cbn [fst snd]. world_fields.
  unfold dispatch in D. cbn [nth String.eqb Ascii.eqb Bool.eqb] in D.
  unfold get_all_unique_employees in D. rewrite (bind_ok _ _ _ _ _ E) in D.
  split.
  - pose proof (print_rows_raises env _
                  (set_journal
                     (journal w0 ++ [EvExecute SelectGrouped (idx_gender_lastname t)]) w0) X)
      as Q.
    rewrite D in Q. exact Q.
  - replace w1 with (snd (res, w1)) by reflexivity. rewrite <- D, print_rows_employees.
    world_fields. subst w0. world_fields. exact Ht.
Qed.

Lemma X11_malformed_row_witness :
  fst (main env0 ["employee_directory.py"; "3"]
            (mkWorld (Some table_with_bad_date) true [] [] 0 0)) = Raise ValueError.
Proof.
  refine (proj1 (X11_malformed_row_breaks_listing env0 "employee_directory.py" []
                   (mkWorld (Some table_with_bad_date) true [] [] 0 0) table_with_bad_date
                   (mkRow 2 (mkEmployee "Adams John B." "15.05.1980" "Male"))
                   eq_refl eq_refl _ eq_refl eq_refl)).
  right. left. reflexivity.
Defined.

(** X17: the listing never has more rows than the table, and it has as
    many exactly when no two stored rows share name and birth date; any
    such pair of rows costs the listing a row. *)
Theorem X17_listing_length (env : Env) (t : Table) :
  (List.length (select_grouped env t) <= List.length (rows t))%nat /\
  (List.length (select_grouped env t) = List.length (rows t) <->
   NoDup (map key (rows t))).
Proof.
  rewrite select_grouped_length.
  pose proof (sorted_keys_NoDup _ (group_by_sorted (rows t))) as N.
  assert (I : incl (map gkey (group_by (rows t))) (map key (rows t))).
  { intros k Hk. apply group_by_keys, Hk. }
  assert (L : (List.length (group_by (rows t)) <= List.length (rows t))%nat).
  { rewrite <- (length_map gkey), <- (length_map key). apply NoDup_incl_length; assumption. }
  split; [exact L|]. split.
  - intros E. apply (NoDup_incl_NoDup N); [|exact I].
    rewrite !length_map. lia.
  - apply group_by_length_distinct.
Qed.

(* ================================================================== *)
(** ** Generation with nothing to generate *)

(** X16: with a count of zero or less the main loop generates nothing and
    flushes nothing; the run still inserts the one batch of 100 "F" males,
    so the table grows by exactly 100 rows. *)
Theorem X16_generation_without_count (env : Env) (count : Z) (w : World) (t : Table) :
  count <= 0 ->
  employees w = Some t ->
  exists fs w',
    generate_random_employees env count w = (Ok tt, w') /\
    List.length fs = 100%nat /\
    Forall generated_f fs /\
    employees w' = Some (insert_rows fs t) /\
    journal w' =
      (journal w ++ [EvExecute (InsertMany fs) (idx_gender_lastname t); EvCommit])%list.
Proof.
  intros Hc Ht.
  destruct (generate_spec env count w t Ht)
    as (gen & fs & bs & w' & E & Lg & _ & C & S & Lf & Gf & Hs & J & _).
  replace (Z.to_nat count) with 0%nat in Lg by lia.
  destruct gen; [|discriminate Lg].
  replace (Z.max 0 count) with 0 in S by lia.
  destruct bs; [|discriminate S].
  exists fs, w'. repeat (split; [assumption|]). exact J.
Qed.

Lemma X16_generation_without_count_witness :
  exists fs w',
    generate_random_employees env0 (-5) created = (Ok tt, w') /\
    List.length fs = 100%nat /\
    Forall generated_f fs /\
    employees w' = Some (insert_rows fs (mkTable [] 0 false)) /\
    journal w' = (journal created ++ [EvExecute (InsertMany fs) false; EvCommit])%list.
Proof.
  refine (X16_generation_without_count env0 (-5) created (mkTable [] 0 false) _ eq_refl).
  discriminate.
Defined.

(* ================================================================== *)
(** ** The listing operation over stored rows *)

Lemma listing_lines_of (env : Env) (l : list Employee) :
  Forall parses l -> Forall2 (listing_of env) l (listing_lines env l).
Proof.
  induction 1 as [|e l (b & Hb) F IH]; cbn [listing_lines map]; constructor.
  - rewrite (calculate_age_parsed (today env) b e Hb).
    eexists. split; [apply (calculate_age_parsed (today env) b e Hb)|reflexivity].
  - exact IH.
Qed.

Lemma Forall2_one {A B} (R : A -> B -> Prop) (a : A) (l : list B) :
  Forall2 R [a] l -> exists o, l = [o] /\ R a o.
Proof.
  intros H. inversion H as [|? o ? os Ho Hos]; subst.
  inversion Hos; subst. exists o. split; [reflexivity|exact Ho].
Qed.

Lemma listing_run (env : Env) (w : World) (t : Table) :
  employees w = Some t ->
  Forall parses (map fields (rows t)) ->
  exists printed w',
    get_all_unique_employees env w = (Ok tt, w') /\
    stdout w' = (stdout w ++ printed)%list /\
    Forall2 (listing_of env) (select_grouped env t) printed.
Proof.
  intros Ht F.
  assert (Fr : Forall (fun r => exists b, strptime_date (birth_date (fields r)) = Some b)
                      (rows t)).
  { rewrite Forall_map in F. exact F. }
  rewrite (get_all_unique_employees_eq env w t Ht Fr).
  eexists _, _. split; [reflexivity|]. world_fields. split; [reflexivity|].
  apply listing_lines_of. rewrite Forall_forall. intros e He.
  destruct (select_grouped_sound env t e He) as (r & Hr & <-).
  rewrite Forall_forall in Fr. apply Fr, Hr.
Qed.

(** C2 as stated fails at the listing operation: with two stored rows of
    distinct (name, birth date) pairs, one of them with a birth date that
    does not parse, the listing prints one row and ends in ValueError. *)
Lemma C2_listing_stops_short :
  NoDup (map employee_key [mkEmployee "Abel Mary A." "1990-01-02" "Female";
                           mkEmployee "Adams John B." "15.05.1980" "Male"]) /\
  (batch_add_employees env0 [mkEmployee "Abel Mary A." "1990-01-02" "Female";
                             mkEmployee "Adams John B." "15.05.1980" "Male"] ;;
   get_all_unique_employees env0) created =
  (Raise ValueError,
   mkWorld (Some (mkTable [mkRow 1 (mkEmployee "Abel Mary A." "1990-01-02" "Female");
                           mkRow 2 (mkEmployee "Adams John B." "15.05.1980" "Male")]
                          2 false))
           true
           [EvExecute (CreateTable true) false; EvCommit;
            EvExecute (InsertMany [mkEmployee "Abel Mary A." "1990-01-02" "Female";
                                   mkEmployee "Adams John B." "15.05.1980" "Male"]) false;
            EvCommit;
            EvExecute SelectGrouped false]
           [Line "Table 'employees' created successfully.";
            Line "Added 2 employees in batch.";
            Line "Name: Abel Mary A., Birth Date: 1990-01-02, Gender: Female, Age: 36"]
           0 0).
Proof.
  split; [|vm_compute; reflexivity].
  unfold employee_key; cbn [map full_name birth_date].
  repeat (apply NoDup_cons; [cbn [In]; intuition discriminate|]).
  apply NoDup_nil.
Qed.

(** C2 (amended): when every stored birth date parses, the listing
    operation succeeds and prints one line per (full_name, birth_date) pair
    present among the stored rows, each the line of a stored record with
    its age, in non-decreasing name order.  So [N] records with pairwise
    distinct pairs inserted into an empty table give [N] printed lines, and
    two records added with the same pair and any genders give one line,
    showing the gender of one of them. *)
Theorem C2_listing_of_stored_rows
        (env : Env) (w : World) (t0 : Table) (es : list Employee) (n b g1 g2 : string) :
  employees w = Some t0 ->
  rows t0 = [] ->
  Forall parses es ->
  parses (mkEmployee n b g1) ->
  (exists w1 w2 listed printed,
     batch_add_employees env es w = (Ok tt, w1) /\
     get_all_unique_employees env w1 = (Ok tt, w2) /\
     stdout w2 = (stdout w1 ++ printed)%list /\
     Forall2 (listing_of env) listed printed /\
     names_sorted listed /\
     NoDup (map employee_key listed) /\
     (forall k, In k (map employee_key listed) <-> In k (map employee_key es)) /\
     (forall e, In e listed -> In e es) /\
     (NoDup (map employee_key es) -> List.length printed = List.length es)) /\
  (exists w1 w2 w3 g age,
     add_employee env n b g1 w = (Ok tt, w1) /\
     add_employee env n b g2 w1 = (Ok tt, w2) /\
     get_all_unique_employees env w2 = (Ok tt, w3) /\
     (g = g1 \/ g = g2) /\
     calculate_age (today env) (mkEmployee n b g) = Ok age /\
     stdout w3 = (stdout w2 ++ [Line (listing_line (mkEmployee n b g) age)])%list).
Proof.
  intros Ht E0 Fes Pb.
  assert (Fld : forall l, map fields (rows (insert_rows l t0)) = l).
  { intro l. rewrite insert_rows_fields, E0. reflexivity. }
  split.
  - destruct (batch_add_employees_spec env es w t0 Ht) as (w1 & E1 & F1 & _).
    destruct F1 as ((t & Ht' & Ht1) & _). rewrite Ht in Ht'. injection Ht' as <-.
    cbn [List.concat] in Ht1. rewrite app_nil_r in Ht1.
    destruct (listing_run env w1 (insert_rows es t0) Ht1) as (printed & w2 & E2 & O2 & L2).
    { rewrite Fld. exact Fes. }
    destruct (grouped_query_facts env t0 es n b g1 g2 E0) as (Hs & Hn & Hk & Hl & _).
    exists w1, w2, (select_grouped env (insert_rows es t0)), printed.
    split; [exact E1|]. split; [exact E2|]. split; [exact O2|]. split; [exact L2|].
    split; [exact Hs|]. split; [exact Hn|]. split; [exact Hk|].
    split.
    + intros e He. destruct (select_grouped_sound env _ e He) as (r & Hr & <-).
      rewrite <- (Fld es). apply in_map, Hr.
    + intros N. rewrite <- (Forall2_length L2). apply Hl, N.
  - set (e1 := mkEmployee n b g1). set (e2 := mkEmployee n b g2).
    pose proof (add_employee_eq env n b g1 w t0 Ht) as A1. fold e1 in A1.
    set (w1 := set_stdout _ _) in A1.
    assert (Ht1 : employees w1 = Some (insert_row e1 t0)) by reflexivity.
    pose proof (add_employee_eq env n b g2 w1 _ Ht1) as A2. fold e2 in A2.
    set (w2 := set_stdout _ _) in A2.
    assert (Ht2 : employees w2 = Some (insert_rows [e1; e2] t0)) by reflexivity.
    destruct (listing_run env w2 _ Ht2) as (printed & w3 & E3 & O3 & L3).
    { rewrite Fld. destruct Pb as (d & Hd).
      constructor; [exists d; exact Hd|]. constructor; [exists d; exact Hd|constructor]. }
    destruct (grouped_query_facts env t0 es n b g1 g2 E0) as (_ & _ & _ & _ & Hk).
    fold e1 e2 in Hk.
    destruct (select_grouped env (insert_rows [e1; e2] t0)) as [|e [|e' l]] eqn:Hsel;
      cbn [map] in Hk; try discriminate Hk.
    pose proof (f_equal (hd (n, b)) Hk) as Hke. cbn [hd] in Hke. clear Hk.
    destruct (Forall2_one _ _ _ L3) as (o & Hp & age & Ha & Ho).
    rewrite Hp, Ho in O3.
    assert (He : In e [e1; e2]).
    { destruct (select_grouped_sound env (insert_rows [e1; e2] t0) e) as (r & Hr & Hf).
      - rewrite Hsel. left. reflexivity.
      - rewrite <- (Fld [e1; e2]), <- Hf. apply in_map, Hr. }
    assert (Ee : e = mkEmployee n b (gender e)).
    { clear - Hke. destruct e as [en eb eg]. unfold employee_key in Hke.
      cbn [full_name birth_date gender] in *. inversion Hke. reflexivity. }
    exists w1, w2, w3, (gender e), age.
    split; [exact A1|]. split; [exact A2|]. split; [exact E3|].
    split.
    { destruct He as [<-|[<-|[]]]; [left|right]; reflexivity. }
    rewrite <- Ee. split; [exact Ha|exact O3].
Qed.

Lemma C2_listing_witness :
  exists w1 w2 w3 g age,
    add_employee env0 "Ford Henry A." "1980-05-15" "Male" created = (Ok tt, w1) /\
    add_employee env0 "Ford Henry A." "1980-05-15" "Female" w1 = (Ok tt, w2) /\
    get_all_unique_employees env0 w2 = (Ok tt, w3) /\
    (g = "Male" \/ g = "Female") /\
    calculate_age (today env0) (mkEmployee "Ford Henry A." "1980-05-15" g) = Ok age /\
    stdout w3 =
      (stdout w2 ++
       [Line (listing_line (mkEmployee "Ford Henry A." "1980-05-15" g) age)])%list.
Proof.
  refine (proj2 (C2_listing_of_stored_rows env0 created (mkTable [] 0 false)
                   [mkEmployee "Wilson Mary A." "1990-01-02" "Female";
                    mkEmployee "Brown John B." "1985-07-30" "Male";
                    mkEmployee "Brown John B." "1985-07-31" "Male"]
                   "Ford Henry A." "1980-05-15" "Male" "Female" eq_refl eq_refl _ _)).
  - constructor; [exists (mkDate 1990 1 2); reflexivity|].
    constructor; [exists (mkDate 1985 7 30); reflexivity|].
    constructor; [exists (mkDate 1985 7 31); reflexivity|constructor].
  - exists (mkDate 1980 5 15). reflexivity.
Defined.

Example listing_of_three_distinct_rows :
  stdout (snd ((batch_add_employees env0
                  [mkEmployee "Wilson Mary A." "1990-01-02" "Female";
                   mkEmployee "Brown John B." "1985-07-30" "Male";
                   mkEmployee "Brown John B." "1985-07-31" "Male"] ;;
                get_all_unique_employees env0) created)) =
  [Line "Table 'employees' created successfully.";
   Line "Added 3 employees in batch.";
   Line "Name: Brown John B., Birth Date: 1985-07-30, Gender: Male, Age: 41";
   Line "Name: Brown John B., Birth Date: 1985-07-31, Gender: Male, Age: 41";
   Line "Name: Wilson Mary A., Birth Date: 1990-01-02, Gender: Female, Age: 36"].
Proof. vm_compute. reflexivity. Qed.
